(** * Build generators of the packages tree, verified against their sources

  Two Python scripts are embedded here:

  - [gen.py] (module [Gen]): reads the package configs, writes [BUILD.gn],
    the boot manifest and its depfile, then calls [gn gen];
  - [make_crate.py] (module [MakeCrate]): writes the [Cargo.toml] and the
    [src/lib.rs] of a crate of generated fidl files.

  Python values that the scripts only pass around are kept as the values
  [json.load] builds.  Mutable lists, printed text, file writes and the
  subprocess call are threaded through a state-and-exception monad whose
  state survives a raised exception, as Python's heap does.

  Both scripts are Python 2.  The strings of a loaded config are [unicode]
  there, paths and literals are [str], and mixing the two goes through the
  ASCII codec: a write or a join that meets a character outside ASCII
  raises, and the model raises with it. *)

From Stdlib Require Import ZArith String Ascii List Lia Bool.
From stdpp Require Import base list strings gmap.

Set Warnings "-register-all".

Open Scope string_scope.
Open Scope list_scope.

(** ** Characters and text shared by both scripts *)

Definition nl : string := String "010"%char "".
Definition dq : string := String "034"%char "".
Definition slash : ascii := "/"%char.

(** [''.join(chunks)]: what a file holds after the chunks were written. *)
Definition cat (chunks : list string) : string :=
  fold_right String.append "" chunks.

(** A character of the ASCII range: its code is below 128. *)
Definition is_ascii_char (c : ascii) : bool :=
  match c with
  | Ascii _ _ _ _ _ _ _ b7 => negb b7
  end.

(** Text that the [ascii] codec of Python 2, its default, encodes and
    decodes: every other text makes it raise. *)
Fixpoint is_ascii (s : string) : bool :=
  match s with
  | EmptyString => true
  | String c rest => is_ascii_char c && is_ascii rest
  end.

(** ** The part of [posixpath] the scripts call (Python 2.7) *)

Module posixpath.

Definition startswith_slash (s : string) : bool :=
  match s with
  | String c _ => Ascii.eqb c slash
  | EmptyString => false
  end.

Fixpoint endswith_slash (s : string) : bool :=
  match s with
  | EmptyString => false
  | String c EmptyString => Ascii.eqb c slash
  | String _ rest => endswith_slash rest
  end.

(** One round of the loop of [join(a, *p)]. *)
Definition join2 (path b : string) : string :=
  if startswith_slash b then b
  else if String.eqb path "" || endswith_slash path then path +:+ b
  else path +:+ "/" +:+ b.

Definition join (a : string) (p : list string) : string :=
  fold_left join2 p a.

Fixpoint has_char (x : ascii) (s : string) : bool :=
  match s with
  | EmptyString => false
  | String c rest => Ascii.eqb c x || has_char x rest
  end.

Fixpoint all_char (x : ascii) (s : string) : bool :=
  match s with
  | EmptyString => true
  | String c rest => Ascii.eqb c x && all_char x rest
  end.

(** [p[:p.rfind(x) + 1]]: up to and including the last [x], empty when
    there is none. *)
Fixpoint through_last (x : ascii) (p : string) : string :=
  match p with
  | EmptyString => ""
  | String c rest =>
      if Ascii.eqb c x || has_char x rest
      then String c (through_last x rest)
      else ""
  end.

(** [p[p.rfind(x) + 1:]]: what follows the last [x], all of [p] when there
    is none. *)
Fixpoint after_last (x : ascii) (p : string) : string :=
  match p with
  | EmptyString => ""
  | String c rest =>
      if Ascii.eqb c x || has_char x rest then after_last x rest else p
  end.

(** [p[:p.rfind(x)]] for a [p] that holds an [x]. *)
Fixpoint before_last (x : ascii) (p : string) : string :=
  match p with
  | EmptyString => ""
  | String c rest =>
      if has_char x rest then String c (before_last x rest) else ""
  end.

Fixpoint rstrip (x : ascii) (s : string) : string :=
  match s with
  | EmptyString => ""
  | String c rest =>
      match rstrip x rest with
      | EmptyString => if Ascii.eqb c x then "" else String c ""
      | kept => String c kept
      end
  end.

Definition basename (p : string) : string := after_last slash p.

Definition dirname (p : string) : string :=
  let head := through_last slash p in
  if negb (String.eqb head "") && negb (all_char slash head)
  then rstrip slash head
  else head.

(** [splitext(p)[0]]: the extension starts at the last dot of the last
    component, unless only dots come before it there. *)
Definition splitext_root (p : string) : string :=
  let name := after_last slash p in
  if has_char "."%char name
  then
    let stem := before_last "."%char name in
    if all_char "."%char stem then p
    else through_last slash p +:+ stem
  else p.

End posixpath.

(** ** gen.py *)

Module Gen.

(** *** Values *)

(** What [json.load] returns.  A number is kept as its literal: the script
    never computes with one.  An object is the dict that was built, one
    binding per key.  A string is a [unicode]; a character of it outside
    ASCII shows here as the bytes of its UTF-8 form, each of a code beyond
    127. *)
Inductive json : Type :=
| JNull
| JBool (b : bool)
| JNum (lit : string)
| JStr (s : string)
| JArr (items : list json)
| JObj (fields : list (string * json)).

(** The dict [binary] that [parse_config] fills with its two keys. *)
Record entry : Type := Entry { binary : json; bootfs_path : json }.

Inductive exn : Type :=
| IOError (path : string)
| OSError (path : string)
| ValueError
| KeyError (key : string)
| TypeError
| AttributeError
| UnicodeEncodeError
| UnicodeDecodeError
| CalledProcessError (returncode : Z).

(** A string as [write] gets it: a [str], which is bytes, or a
    [unicode]. *)
Inductive pystring : Type :=
| PyStr (bytes : string)
| PyUnicode (text : string).

Definition text_of (chunk : pystring) : string :=
  match chunk with
  | PyStr bytes => bytes
  | PyUnicode text => text
  end.

(** Whether a file takes the string: a [str] goes out as it is, a
    [unicode] is first encoded with the default codec. *)
Definition encodes (chunk : pystring) : bool :=
  match chunk with
  | PyStr _ => true
  | PyUnicode text => is_ascii text
  end.

(** What [open(config)] followed by [json.load] meets at a path. *)
Inductive file_contents : Type :=
| NoFile
| BadJson
| Json (doc : json).

(** How the subprocess ends: it could not be started, or it exited. *)
Inductive proc_result : Type :=
| SpawnFailed
| Exited (status : Z).

Inductive event : Type :=
| EvChdir (dir : string)
| EvPrintFailed (config : string) (e : exn)
| EvOpenW (path : string)
| EvWrite (path : string) (chunk : string)
| EvIsdir (path : string) (answer : bool)
| EvMakedirs (path : string)
| EvCall (argv : list string).

(** The world outside the process. *)
Record env : Type := Env {
  abspath : string -> string;
  config_file : string -> file_contents;
  open_w_ok : string -> bool;
  isdir : string -> bool;
  makedirs_ok : string -> bool;
  gn_result : list string -> proc_result
}.

(** [sys.argv]: the script's own path ([__file__]) and [--outdir]. *)
Record cmdline : Type := Cmdline {
  script_file : string;
  outdir_arg : option string
}.

(** The two lists of [main] that [parse_config] appends to, and what the
    process has done so far, oldest event first. *)
Record state : Type := State {
  labels : list json;
  binaries : list entry;
  trace : list event
}.

Definition init_state : state := State [] [] [].

(** *** Exceptions over a mutable heap *)

Inductive result (A : Type) : Type :=
| Ok (a : A)
| Raise (e : exn).
Arguments Ok {A} a.
Arguments Raise {A} e.

Definition M (A : Type) : Type := state -> state * result A.

Definition ret {A} (a : A) : M A := fun s => (s, Ok a).
Definition raise {A} (e : exn) : M A := fun s => (s, Raise e).

Definition bind {A B} (m : M A) (k : A -> M B) : M B :=
  fun s =>
    match m s with
    | (s', Ok a) => k a s'
    | (s', Raise e) => (s', Raise e)
    end.

(** [try: m  except Exception as e: h e]; the handler starts from the heap
    as the exception left it. *)
Definition try_except {A} (m : M A) (h : exn -> M A) : M A :=
  fun s =>
    match m s with
    | (s', Ok a) => (s', Ok a)
    | (s', Raise e) => h e s'
    end.

Declare Scope py_scope.
Delimit Scope py_scope with py.
Notation "x <- m ;; k" := (bind m (fun x => k))
  (at level 100, m at next level, k at level 200, right associativity) : py_scope.
Notation "m ;; k" := (bind m (fun _ => k))
  (at level 100, k at level 200, right associativity) : py_scope.
Open Scope py_scope.

Fixpoint for_each {A} (xs : list A) (body : A -> M unit) : M unit :=
  match xs with
  | [] => ret tt
  | x :: rest => body x ;; for_each rest body
  end.

Definition lift {A} (r : result A) : M A := fun s => (s, r).

Definition emit (ev : event) : M unit :=
  fun s => (State (labels s) (binaries s) (trace s ++ [ev]), Ok tt).

Definition labels_append (v : json) : M unit :=
  fun s => (State (labels s ++ [v]) (binaries s) (trace s), Ok tt).

Definition binaries_append (b : entry) : M unit :=
  fun s => (State (labels s) (binaries s ++ [b]) (trace s), Ok tt).

Definition get_labels : M (list json) := fun s => (s, Ok (labels s)).
Definition get_binaries : M (list entry) := fun s => (s, Ok (binaries s)).

(** *** Python operations on loaded values *)

Fixpoint lookup_key (k : string) (fields : list (string * json)) : option json :=
  match fields with
  | [] => None
  | (k', v) :: rest => if String.eqb k k' then Some v else lookup_key k rest
  end.

(** [v[key]] with a string key. *)
Definition getitem (v : json) (key : string) : result json :=
  match v with
  | JObj fields =>
      match lookup_key key fields with
      | Some x => Ok x
      | None => Raise (KeyError key)
      end
  | _ => Raise TypeError
  end.

Fixpoint chars (s : string) : list json :=
  match s with
  | EmptyString => []
  | String c rest => JStr (String c "") :: chars rest
  end.

(** What [for b in v] runs over: the items of a list, the keys of a dict,
    the characters of a string. *)
Definition iter (v : json) : result (list json) :=
  match v with
  | JArr items => Ok items
  | JObj fields => Ok (map (fun kv => JStr (fst kv)) fields)
  | JStr s => Ok (chars s)
  | _ => Raise TypeError
  end.

Definition json_load (f : file_contents) : result json :=
  match f with
  | Json doc => Ok doc
  | _ => Raise ValueError
  end.

(** *** The script *)

Definition package_configs : list string :=
  ["fortune"; "ftl"; "mojo"; "mtl"].

Definition parse_config (w : env) (config : string) : M unit :=
  match config_file w config with
  | NoFile => raise (IOError config)
  | f =>
      try_except
        (c <- lift (json_load f) ;;
         label <- lift (getitem c "label") ;;
         labels_append label ;;
         bs <- lift (getitem c "binaries") ;;
         items <- lift (iter bs) ;;
         for_each items (fun b =>
           v1 <- lift (getitem b "binary") ;;
           v2 <- lift (getitem b "bootfs_path") ;;
           binaries_append (Entry v1 v2)))
        (fun e => emit (EvPrintFailed config e))
  end.


Section Script.

(** [str(v)] of a loaded value that is not a string (Python's own
    rendering of numbers, [None], lists and dicts). *)
Variable py_str : json -> string.

(** ["%s" % v] *)
Definition fmt_s (v : json) : string :=
  match v with
  | JStr s => s
  | other => py_str other
  end.

(** What [template % v] is for a [str] template: a [unicode] when [v] is
    one, a [str] otherwise. *)
Definition formatted (v : json) (text : string) : pystring :=
  match v with
  | JStr _ => PyUnicode text
  | _ => PyStr text
  end.

(** [os.path.join(a, b)] for a [str] [a] and a loaded [b]: anything but a
    string has no [startswith]; an absolute [b] is the result, and a
    relative [b], being a [unicode], is appended to [a] decoded with the
    default codec. The result is a [unicode]. *)
Definition path_join (a : string) (b : json) : result string :=
  match b with
  | JStr s =>
      if posixpath.startswith_slash s || is_ascii a
      then Ok (posixpath.join a [s])
      else Raise UnicodeDecodeError
  | _ => Raise AttributeError
  end.

Definition new_lists : M unit :=
  fun s => (State [] [] (trace s), Ok tt).

Definition open_w (w : env) (path : string) : M unit :=
  if open_w_ok w path then emit (EvOpenW path) else raise (IOError path).

(** [f.write(chunk)]: nothing of a chunk that cannot be encoded reaches
    the file. *)
Definition write (path : string) (chunk : pystring) : M unit :=
  if encodes chunk then emit (EvWrite path (text_of chunk))
  else raise UnicodeEncodeError.

Definition makedirs (w : env) (path : string) : M unit :=
  emit (EvMakedirs path) ;;
  if makedirs_ok w path then ret tt else raise (OSError path).

Definition check_call (w : env) (argv : list string) : M Z :=
  emit (EvCall argv) ;;
  match gn_result w argv with
  | Exited 0 => ret 0%Z
  | Exited status => raise (CalledProcessError status)
  | SpawnFailed => raise (OSError (hd "" argv))
  end.

Definition build_gn_head : string :=
  nl +:+ "# NOTE: This file is auto-generated by gen.py. Do not edit by hand." +:+ nl
  +:+ nl
  +:+ "group(" +:+ dq +:+ "default" +:+ dq +:+ ") {" +:+ nl
  +:+ "  testonly = true" +:+ nl
  +:+ "  deps = [" +:+ nl
  +:+ "    " +:+ dq +:+ "//packages/mkbootfs" +:+ dq +:+ "," +:+ nl.

Definition build_gn_dep (label : json) : string :=
  nl +:+ "    " +:+ dq +:+ fmt_s label +:+ dq +:+ ",".

Definition build_gn_tail : string :=
  nl +:+ "  ]" +:+ nl +:+ "}" +:+ nl.

Definition depfile_head : string :=
  "user.bootfs: gen/packages/mkbootfs/user.bootfs.manifest".

Definition packages_path_of (w : env) (a : cmdline) : string :=
  abspath w (posixpath.dirname (script_file a)).

Definition base_path_of (w : env) (a : cmdline) : string :=
  abspath w (posixpath.join (packages_path_of w a) [".."]).

Definition outdir_of (a : cmdline) : string :=
  match outdir_arg a with
  | Some o => o
  | None => "out/Debug"
  end.

Definition outdir_path_of (w : env) (a : cmdline) : string :=
  posixpath.join (base_path_of w a) [outdir_of a].

Definition pkg_gen_dir_of (w : env) (a : cmdline) : string :=
  posixpath.join (outdir_path_of w a) ["gen"; "packages"; "mkbootfs"].

Definition manifest_of (w : env) (a : cmdline) : string :=
  posixpath.join (pkg_gen_dir_of w a) ["user.bootfs.manifest"].

Definition depfile_of (w : env) (a : cmdline) : string :=
  posixpath.join (pkg_gen_dir_of w a) ["user.bootfs.d"].

Definition gn_argv (w : env) (a : cmdline) : list string :=
  [ posixpath.join (base_path_of w a) ["buildtools"; "gn"];
    "gen";
    outdir_path_of w a;
    "--root=" +:+ base_path_of w a;
    "--dotfile=" +:+ posixpath.join (base_path_of w a) ["packages"; "dot_gn"];
    "--script-executable=/usr/bin/env" ].

(** The three stages of [main], in the order the script runs them. *)

Definition collect (w : env) (packages_path : string) (configs : list string)
  : M unit :=
  for_each configs
    (fun c => parse_config w (posixpath.join packages_path [c])).

Definition write_build_gn (w : env) : M unit :=
  open_w w "BUILD.gn" ;;
  write "BUILD.gn" (PyStr build_gn_head) ;;
  ls <- get_labels ;;
  for_each ls (fun label =>
    write "BUILD.gn" (formatted label (build_gn_dep label))) ;;
  write "BUILD.gn" (PyStr build_gn_tail).

Definition ensure_dir (w : env) (dir : string) : M unit :=
  emit (EvIsdir dir (isdir w dir)) ;;
  if isdir w dir then ret tt else makedirs w dir.

Definition write_manifest (w : env) (manifest outdir_path : string) : M unit :=
  open_w w manifest ;;
  bs <- get_binaries ;;
  for_each bs (fun b =>
    binary_path <- lift (path_join outdir_path (binary b)) ;;
    write manifest
      (PyUnicode (fmt_s (bootfs_path b) +:+ "=" +:+ binary_path +:+ nl))).

Definition write_depfile (w : env) (depfile : string) : M unit :=
  open_w w depfile ;;
  write depfile (PyStr depfile_head) ;;
  bs <- get_binaries ;;
  for_each bs (fun b =>
    write depfile (formatted (binary b) (" " +:+ fmt_s (binary b)))) ;;
  write depfile (PyStr nl).

Definition main_with (configs : list string) (w : env) (a : cmdline) : M Z :=
  new_lists ;;
  emit (EvChdir (packages_path_of w a)) ;;
  collect w (packages_path_of w a) configs ;;
  write_build_gn w ;;
  ensure_dir w (pkg_gen_dir_of w a) ;;
  write_manifest w (manifest_of w a) (outdir_path_of w a) ;;
  write_depfile w (depfile_of w a) ;;
  check_call w (gn_argv w a) ;;
  ret 0%Z.

Definition main : env -> cmdline -> M Z := main_with package_configs.

(** [sys.exit(main())]: the status the process ends with. *)
Definition exit_status (r : result Z) : Z :=
  match r with
  | Ok v => v
  | Raise _ => 1%Z
  end.

End Script.

(** *** Reading a trace *)

(** What a file holds once the trace has run: the chunks written since it
    was last opened for writing; [None] when it never was. *)
Fixpoint written_from (acc : option string) (tr : list event) (p : string)
  : option string :=
  match tr with
  | [] => acc
  | EvOpenW q :: rest =>
      written_from (if String.eqb q p then Some "" else acc) rest p
  | EvWrite q chunk :: rest =>
      written_from
        (if String.eqb q p
         then match acc with Some c => Some (c +:+ chunk) | None => None end
         else acc)
        rest p
  | _ :: rest => written_from acc rest p
  end.

Definition written (tr : list event) (p : string) : option string :=
  written_from None tr p.

End Gen.

(** ** make_crate.py *)

Module MakeCrate.

(** A file opened with [file(path, 'w')] and the chunks written to it, in
    order. *)
Record wfile : Type := WFile { wpath : string; chunks : list string }.

Definition fwrite (f : wfile) (chunk : string) : wfile :=
  WFile (wpath f) (chunks f ++ [chunk]).

Definition contents (f : wfile) : string := cat (chunks f).

Inductive outcome : Type :=
| Returned
| IOError (path : string)
| ValueError.

Section Crate.

(** [label_to_crate] of the module [label_to_crate], which is not part of
    the tree. *)
Variable label_to_crate : string -> string.

(** What [os.path.relpath(path, start)] returns for a [path] that is not
    empty; it resolves both against the working directory of the
    process. *)
Variable relpath : string -> string -> string.

(** [os.path.relpath(path, start)]: an empty [path] is refused. *)
Definition os_path_relpath (path start : string) : option string :=
  if String.eqb path "" then None else Some (relpath path start).

(** Whether [file(path, 'w')] succeeds. *)
Variable open_ok : string -> bool.

Definition cargo_toml_dir_of (gen_dir output : string) : string :=
  posixpath.join gen_dir [output].

Definition output_fn_of (gen_dir output : string) : string :=
  posixpath.join (cargo_toml_dir_of gen_dir output) ["Cargo.toml"].

Definition lib_fn_of (gen_dir output : string) : string :=
  posixpath.join (cargo_toml_dir_of gen_dir output) ["src"; "lib.rs"].

Definition write_cargo (cargo_f : wfile) (longname : string) : wfile :=
  let cargo_f := fwrite cargo_f
    ("# Autogenerated by //garnet/public/lib/fidl/build/make_crate.py" +:+ nl) in
  let cargo_f := fwrite cargo_f ("[package]" +:+ nl) in
  let cargo_f := fwrite cargo_f ("name = " +:+ dq +:+ longname +:+ dq +:+ nl) in
  let cargo_f := fwrite cargo_f ("version = " +:+ dq +:+ "0.1.0" +:+ dq +:+ nl) in
  let cargo_f := fwrite cargo_f nl in
  let cargo_f := fwrite cargo_f ("[dependencies]" +:+ nl) in
  let cargo_f := fwrite cargo_f ("futures = " +:+ dq +:+ "0.1" +:+ dq +:+ nl) in
  fwrite cargo_f ("tokio-core = " +:+ dq +:+ "0.1.9" +:+ dq +:+ nl).

Definition write_externs (src_f : wfile) (dep_inputs : list string) : wfile :=
  let src_f := fwrite src_f
    ("// Autogenerated by //garnet/public/lib/fidl/build/make_crate.py" +:+ nl) in
  let src_f := fwrite src_f ("#[macro_use]" +:+ nl) in
  let src_f := fwrite src_f ("extern crate fidl;" +:+ nl) in
  let src_f := fwrite src_f ("extern crate fuchsia_zircon as zircon;" +:+ nl) in
  let src_f := fwrite src_f ("extern crate futures;" +:+ nl) in
  let src_f := fwrite src_f ("extern crate tokio_core;" +:+ nl) in
  let src_f := fwrite src_f ("extern crate tokio_fuchsia;" +:+ nl) in
  fold_left
    (fun f dep =>
       let crate := label_to_crate dep in
       fwrite f ("pub extern crate " +:+ crate +:+ ";" +:+ nl))
    dep_inputs src_f.

Definition stem (i : string) : string :=
  posixpath.splitext_root (posixpath.basename i).

(** The first loop over [inputs]; it ends where [relpath] raises. *)
Fixpoint write_mods (src_f : wfile) (lib_fn : string) (inputs : list string)
  : wfile * outcome :=
  match inputs with
  | [] => (src_f, Returned)
  | i :: rest =>
      match os_path_relpath i (posixpath.dirname lib_fn) with
      | None => (src_f, ValueError)
      | Some rel =>
          let basename := stem i in
          let src_f :=
            if negb (String.eqb rel (basename +:+ ".rs"))
            then fwrite src_f ("#[path=" +:+ dq +:+ rel +:+ dq +:+ "]" +:+ nl)
            else src_f in
          write_mods (fwrite src_f ("mod " +:+ basename +:+ ";" +:+ nl))
            lib_fn rest
      end
  end.

Definition write_uses (src_f : wfile) (inputs : list string) : wfile :=
  fold_left
    (fun f i =>
       let basename := stem i in
       fwrite f ("pub use " +:+ basename +:+ "::*;" +:+ nl))
    inputs src_f.

(** The files written, in the order they were opened, and how the call
    ended. *)
Definition make_crate (output gen_dir : string) (inputs : list string)
    (srcroot : string) (dep_inputs : list string) : list wfile * outcome :=
  let name := posixpath.basename output in
  let longname := label_to_crate output in
  let cargo_toml_dir := cargo_toml_dir_of gen_dir output in
  let output_fn := output_fn_of gen_dir output in
  if negb (open_ok output_fn) then ([], IOError output_fn) else
  let cargo_f := write_cargo (WFile output_fn []) longname in
  let lib_fn := lib_fn_of gen_dir output in
  if negb (open_ok lib_fn) then ([cargo_f], IOError lib_fn) else
  let src_f := write_externs (WFile lib_fn []) dep_inputs in
  let src_f := fwrite src_f nl in
  match write_mods src_f lib_fn inputs with
  | (src_f, Returned) =>
      let src_f := fwrite src_f nl in
      let src_f := write_uses src_f inputs in
      ([cargo_f; src_f], Returned)
  | (src_f, raised) => ([cargo_f; src_f], raised)
  end.

(** *** The lines of [lib.rs] and the text of [Cargo.toml] *)

Definition path_attr (rel : string) : string :=
  "#[path=" +:+ dq +:+ rel +:+ dq +:+ "]" +:+ nl.

Definition mod_decl (i : string) : string :=
  "mod " +:+ stem i +:+ ";" +:+ nl.

Definition pub_use (i : string) : string :=
  "pub use " +:+ stem i +:+ "::*;" +:+ nl.

(** The input seen from the directory of [lib.rs]. *)
Definition rel_of (lib_fn i : string) : string :=
  relpath i (posixpath.dirname lib_fn).

(** What the first loop writes for one input. *)
Definition mod_lines (lib_fn i : string) : list string :=
  (if String.eqb (rel_of lib_fn i) (stem i +:+ ".rs")
   then []
   else [path_attr (rel_of lib_fn i)])
  ++ [mod_decl i].

(** What precedes the [mod] declarations: the fixed [extern crate] lines
    and one [pub extern crate] per dependency. *)
Definition extern_lines (dep_inputs : list string) : list string :=
  [ "// Autogenerated by //garnet/public/lib/fidl/build/make_crate.py" +:+ nl;
    "#[macro_use]" +:+ nl;
    "extern crate fidl;" +:+ nl;
    "extern crate fuchsia_zircon as zircon;" +:+ nl;
    "extern crate futures;" +:+ nl;
    "extern crate tokio_core;" +:+ nl;
    "extern crate tokio_fuchsia;" +:+ nl ]
  ++ map (fun dep => "pub extern crate " +:+ label_to_crate dep +:+ ";" +:+ nl)
       dep_inputs.

End Crate.

Definition cargo_toml_text (longname : string) : string :=
  "# Autogenerated by //garnet/public/lib/fidl/build/make_crate.py" +:+ nl
  +:+ "[package]" +:+ nl
  +:+ "name = " +:+ dq +:+ longname +:+ dq +:+ nl
  +:+ "version = " +:+ dq +:+ "0.1.0" +:+ dq +:+ nl
  +:+ nl
  +:+ "[dependencies]" +:+ nl
  +:+ "futures = " +:+ dq +:+ "0.1" +:+ dq +:+ nl
  +:+ "tokio-core = " +:+ dq +:+ "0.1.9" +:+ dq +:+ nl.

(** The [Cargo.toml] of a call: the first file it opened. *)
Definition cargo_toml_of (r : list wfile * outcome) : option wfile :=
  head (fst r).

(** The [lib.rs] of a call: the second file it opened. *)
Definition lib_rs_of (r : list wfile * outcome) : option wfile :=
  head (tail (fst r)).

(** The property that [lib.rs] holds the [mod] and the [pub use] lines of
    every input, whatever the inputs are. *)
Definition mods_then_uses (label_to_crate : string -> string)
    (relpath : string -> string -> string) (open_ok : string -> bool)
    (output gen_dir : string) (inputs : list string) (srcroot : string)
    (dep_inputs : list string) : Prop :=
  open_ok (output_fn_of gen_dir output) = true ->
  open_ok (lib_fn_of gen_dir output) = true ->
  exists src_f,
    lib_rs_of (make_crate label_to_crate relpath open_ok
                 output gen_dir inputs srcroot dep_inputs) = Some src_f
    /\ chunks src_f
       = extern_lines label_to_crate dep_inputs
         ++ [nl]
         ++ flat_map (mod_lines relpath (lib_fn_of gen_dir output)) inputs
         ++ [nl]
         ++ map pub_use inputs.

(** *** Stand-ins for a sample call *)

(** A stand-in for [label_to_crate]: slashes and colons become
    underscores. *)
Fixpoint sample_label_to_crate (label : string) : string :=
  match label with
  | EmptyString => ""
  | String c rest =>
      String (if Ascii.eqb c "/"%char || Ascii.eqb c ":"%char then "_"%char else c)
        (sample_label_to_crate rest)
  end.

(** A stand-in for [relpath] in a tree where the generated sources sit in
    the directory of [lib.rs]: the part of the path after [start/]. *)
Fixpoint strip_prefix (start p : string) : option string :=
  match start, p with
  | EmptyString, _ => Some p
  | String c s', String d p' =>
      if Ascii.eqb c d then strip_prefix s' p' else None
  | String _ _, EmptyString => None
  end.

Definition sample_relpath (p start : string) : string :=
  match strip_prefix (start +:+ "/") p with
  | Some rest => rest
  | None => p
  end.

End MakeCrate.

(** ** Vocabulary of the statements about gen.py *)

Module GenSpec.
Import Gen.

(** *** Well-formed configs *)

Record BinaryEntry : Type := MkBinaryEntry {
  be_binary : string;
  be_bootfs_path : string
}.

Record PackageDescriptor : Type := MkPackageDescriptor {
  pd_label : string;
  pd_binaries : list BinaryEntry
}.

Definition read_entry (v : json) : option BinaryEntry :=
  match getitem v "binary", getitem v "bootfs_path" with
  | Ok (JStr b), Ok (JStr p) => Some (MkBinaryEntry b p)
  | _, _ => None
  end.

Fixpoint read_entries (items : list json) : option (list BinaryEntry) :=
  match items with
  | [] => Some []
  | v :: rest =>
      match read_entry v, read_entries rest with
      | Some b, Some bs => Some (b :: bs)
      | _, _ => None
      end
  end.

(** A document of the shape
    [{"label": <string>, "binaries": [{"binary": <string>,
    "bootfs_path": <string>}, ...]}], other keys allowed. *)
Definition read_descriptor (doc : json) : option PackageDescriptor :=
  match getitem doc "label", getitem doc "binaries" with
  | Ok (JStr l), Ok (JArr items) =>
      match read_entries items with
      | Some bs => Some (MkPackageDescriptor l bs)
      | None => None
      end
  | _, _ => None
  end.

Definition config_path (packages_path c : string) : string :=
  posixpath.join packages_path [c].

(** The descriptor a config name stands for, when its file holds one. *)
Definition loads (w : env) (packages_path c : string) : option PackageDescriptor :=
  match config_file w (config_path packages_path c) with
  | Json doc => read_descriptor doc
  | _ => None
  end.

Definition entry_of (b : BinaryEntry) : entry :=
  Entry (JStr (be_binary b)) (JStr (be_bootfs_path b)).

Definition all_labels (ds : list PackageDescriptor) : list string :=
  map pd_label ds.

Definition all_binaries (ds : list PackageDescriptor) : list BinaryEntry :=
  flat_map pd_binaries ds.

(** *** Text the script can write *)

Definition ascii_entry (b : BinaryEntry) : bool :=
  is_ascii (be_binary b) && is_ascii (be_bootfs_path b).

(** A label that is a string holds ASCII characters only. *)
Definition ascii_label (l : json) : bool :=
  match l with
  | JStr s => is_ascii s
  | _ => true
  end.

(** The exception an entry raises that the manifest does not take: its
    [binary] has no [startswith], or cannot be appended to the output
    directory, or else its line cannot be encoded. *)
Definition refusal (outdir_path : string) (b : entry) : exn :=
  match binary b with
  | JStr p =>
      if posixpath.startswith_slash p || is_ascii outdir_path
      then UnicodeEncodeError
      else UnicodeDecodeError
  | _ => AttributeError
  end.

(** *** What a config contributes, well formed or not *)

(** The entries the loop over [c["binaries"]] appends before it meets an
    item without one of the two keys, and the exception that item raises. *)
Fixpoint entries_until_bad (items : list json) : list entry * option exn :=
  match items with
  | [] => ([], None)
  | b :: rest =>
      match getitem b "binary" with
      | Raise e => ([], Some e)
      | Ok v1 =>
          match getitem b "bootfs_path" with
          | Raise e => ([], Some e)
          | Ok v2 =>
              let (es, r) := entries_until_bad rest in
              (Entry v1 v2 :: es, r)
          end
      end
  end.

(** The entries of a document that reach the shared list. *)
Definition kept_entries (doc : json) : list entry :=
  match getitem doc "binaries" with
  | Ok bs =>
      match iter bs with
      | Ok items => fst (entries_until_bad items)
      | Raise _ => []
      end
  | Raise _ => []
  end.

(** The exception, if any, that the body of the [try] raises once the label
    is appended. *)
Definition binaries_failure (doc : json) : option exn :=
  match getitem doc "binaries" with
  | Ok bs =>
      match iter bs with
      | Ok items => snd (entries_until_bad items)
      | Raise e => Some e
      end
  | Raise e => Some e
  end.

(** An entry made of the two fields of one item. *)
Definition made_from (item : json) (en : entry) : Prop :=
  getitem item "binary" = Ok (binary en)
  /\ getitem item "bootfs_path" = Ok (bootfs_path en).

(** The property that a failed parse leaves both lists as they were. *)
Definition failure_leaves_lists (w : env) (config : string) (s : state) : Prop :=
  let s' := fst (parse_config w config s) in
  (exists e, trace s' = trace s ++ [EvPrintFailed config e]) ->
  labels s' = labels s /\ binaries s' = binaries s.

(** *** The three texts *)

Definition dep_line (label : string) : string :=
  nl +:+ "    " +:+ dq +:+ label +:+ dq +:+ ",".

(** The group file for a list of labels, spelled out: a group marked
    test-only whose deps are the bootstrap target and then the labels. *)
Definition build_gn_text (labels : list string) : string :=
  nl +:+ "# NOTE: This file is auto-generated by gen.py. Do not edit by hand."
  +:+ nl +:+ nl
  +:+ "group(" +:+ dq +:+ "default" +:+ dq +:+ ") {" +:+ nl
  +:+ "  testonly = true" +:+ nl
  +:+ "  deps = [" +:+ nl
  +:+ "    " +:+ dq +:+ "//packages/mkbootfs" +:+ dq +:+ "," +:+ nl
  +:+ cat (map dep_line labels)
  +:+ nl +:+ "  ]" +:+ nl
  +:+ "}" +:+ nl.

Definition manifest_line (outdir_path : string) (b : BinaryEntry) : string :=
  be_bootfs_path b +:+ "=" +:+ posixpath.join outdir_path [be_binary b] +:+ nl.

Definition manifest_text (outdir_path : string) (bs : list BinaryEntry) : string :=
  cat (map (manifest_line outdir_path) bs).

Definition depfile_text (bs : list BinaryEntry) : string :=
  "user.bootfs: gen/packages/mkbootfs/user.bootfs.manifest"
  +:+ cat (map (fun b => " " +:+ be_binary b) bs) +:+ nl.

(** The manifest as the depfile names it: its path from the output
    directory. *)
Definition manifest_rel : string :=
  posixpath.join "gen" ["packages"; "mkbootfs"; "user.bootfs.manifest"].

(** The depfile line the way the specification words it, [<manifest-target>:
    <script>] and then the binaries: whatever names the target before the
    colon, a name of the generating script comes right after it. *)
Definition depfile_as_specified (a : cmdline) (text : string)
    (paths : list string) : Prop :=
  exists target script,
    In script [script_file a; posixpath.basename (script_file a)]
    /\ text = target +:+ ": " +:+ script
              +:+ cat (map (fun p => " " +:+ p) paths) +:+ nl.

(** The property that [BUILD.gn] lists the label of every parsed config,
    whatever the labels are. *)
Definition lists_every_label (py_str : json -> string) (w : env) (a : cmdline)
    (configs : list string) (ds : list PackageDescriptor) : Prop :=
  map (loads w (packages_path_of w a)) configs = map Some ds ->
  open_w_ok w "BUILD.gn" = true ->
  written (trace (fst (main_with py_str configs w a init_state))) "BUILD.gn"
  = Some (build_gn_text (all_labels ds)).

(** The property that the manifest holds one line per accumulated entry,
    whatever the entries and the output directory are. *)
Definition one_line_per_entry (py_str : json -> string) (w : env) (a : cmdline)
    (configs : list string) (bs : list BinaryEntry) : Prop :=
  binaries (fst (main_with py_str configs w a init_state)) = map entry_of bs ->
  written (trace (fst (main_with py_str configs w a init_state)))
    (manifest_of w a) <> None ->
  written (trace (fst (main_with py_str configs w a init_state)))
    (manifest_of w a)
  = Some (manifest_text (outdir_path_of w a) bs).

(** The property that, one config being no JSON and the others well
    formed, the three files hold what the others contribute, whatever that
    is. *)
Definition others_all_written (py_str : json -> string) (w : env) (a : cmdline)
    (before : list string) (bad : string) (after : list string)
    (ds1 ds2 : list PackageDescriptor) : Prop :=
  config_file w (config_path (packages_path_of w a) bad) = BadJson ->
  map (loads w (packages_path_of w a)) before = map Some ds1 ->
  map (loads w (packages_path_of w a)) after = map Some ds2 ->
  open_w_ok w "BUILD.gn" = true ->
  isdir w (pkg_gen_dir_of w a) || makedirs_ok w (pkg_gen_dir_of w a) = true ->
  open_w_ok w (manifest_of w a) = true ->
  open_w_ok w (depfile_of w a) = true ->
  written (trace (fst (main_with py_str (before ++ bad :: after) w a init_state)))
    "BUILD.gn"
  = Some (build_gn_text (all_labels (ds1 ++ ds2)))
  /\ written
       (trace (fst (main_with py_str (before ++ bad :: after) w a init_state)))
       (manifest_of w a)
     = Some (manifest_text (outdir_path_of w a) (all_binaries (ds1 ++ ds2)))
  /\ written
       (trace (fst (main_with py_str (before ++ bad :: after) w a init_state)))
       (depfile_of w a)
     = Some (depfile_text (all_binaries (ds1 ++ ds2))).

(** [s[n:]] *)
Fixpoint drop (n : nat) (s : string) : string :=
  match n, s with
  | O, _ => s
  | S n', String _ rest => drop n' rest
  | S _, EmptyString => ""
  end.

(** *** Reading a written text back *)

Definition is_dq (c : ascii) : bool := Ascii.eqb c "034"%char.

(** The contents of the double-quoted strings of a text, in order;
    [inside] is the string being read, if any. *)
Fixpoint quoted_from (inside : option string) (text : string) : list string :=
  match text with
  | EmptyString => []
  | String c rest =>
      match inside with
      | None =>
          if is_dq c then quoted_from (Some "") rest
          else quoted_from None rest
      | Some acc =>
          if is_dq c then acc :: quoted_from None rest
          else quoted_from (Some (acc +:+ String c "")) rest
      end
  end.

(** In a [group("name") { ... deps = [ ... ] }] block with no other
    strings, the name is the first quoted string and the deps follow. *)
Definition group_deps (text : string) : list string :=
  tl (quoted_from None text).

Fixpoint no_dq (s : string) : bool :=
  match s with
  | EmptyString => true
  | String c rest => negb (is_dq c) && no_dq rest
  end.

(** *** Events *)

Definition is_print (ev : event) : bool :=
  match ev with EvPrintFailed _ _ => true | _ => false end.

Definition is_call (ev : event) : bool :=
  match ev with EvCall _ => true | _ => false end.

(** The path an event opens or writes. *)
Definition file_of (ev : event) : option string :=
  match ev with
  | EvOpenW p => Some p
  | EvWrite p _ => Some p
  | _ => None
  end.

Definition touches (p : string) (ev : event) : bool :=
  match file_of ev with
  | Some q => String.eqb q p
  | None => false
  end.

(** A file system as the contents of its regular files, and what a trace
    does to it: opening for writing truncates, writing appends. *)
Definition fs_step (fs : gmap string string) (ev : event) : gmap string string :=
  match ev with
  | EvOpenW p => <[p := ""]> fs
  | EvWrite p chunk =>
      match fs !! p with
      | Some old => <[p := old +:+ chunk]> fs
      | None => fs
      end
  | _ => fs
  end.

Definition fs_after (fs : gmap string string) (tr : list event)
  : gmap string string :=
  fold_left fs_step tr fs.

Section Shapes.

Variable py_str : json -> string.
Variable w : env.
Variable a : cmdline.

Definition file_events (p : string) (chunks : list string) : list event :=
  EvOpenW p :: map (EvWrite p) chunks.

Definition build_gn_chunks (L : list json) : list string :=
  build_gn_head :: map (build_gn_dep py_str) L ++ [build_gn_tail].

(** Whether the line of a label can be written: a label that is a string
    makes its line a [unicode]. *)
Definition label_encodes (l : json) : bool :=
  encodes (formatted l (build_gn_dep py_str l)).

(** The elements of a list before the first one that fails a test. *)
Fixpoint take_while {A : Type} (ok : A -> bool) (xs : list A) : list A :=
  match xs with
  | [] => []
  | x :: rest => if ok x then x :: take_while ok rest else []
  end.

(** The chunks of [BUILD.gn] that are written when the line of a label
    cannot be encoded: the opening and the lines before that one. *)
Definition build_gn_cut (L : list json) : list string :=
  build_gn_head :: map (build_gn_dep py_str) (take_while label_encodes L).

Definition dir_ready (dir : string) : bool := isdir w dir || makedirs_ok w dir.

Definition dir_events (dir : string) : list event :=
  EvIsdir dir (isdir w dir) :: if isdir w dir then [] else [EvMakedirs dir].

(** The manifest lines written until the loop is stopped, and the
    exception that stops it: a [binary] that cannot be joined to the output
    directory, or a line that cannot be encoded. *)
Fixpoint manifest_chunks (outdir_path : string) (B : list entry)
  : list string * option exn :=
  match B with
  | [] => ([], None)
  | b :: rest =>
      match path_join outdir_path (binary b) with
      | Ok binary_path =>
          if is_ascii (fmt_s py_str (bootfs_path b) +:+ "=" +:+ binary_path
                       +:+ nl)
          then
            let (lines, r) := manifest_chunks outdir_path rest in
            ((fmt_s py_str (bootfs_path b) +:+ "=" +:+ binary_path +:+ nl)
               :: lines, r)
          else ([], Some UnicodeEncodeError)
      | Raise e => ([], Some e)
      end
  end.

(** Whether the depfile takes the [binary] of an entry. *)
Definition binary_encodes (b : entry) : bool :=
  encodes (formatted (binary b) (" " +:+ fmt_s py_str (binary b))).

(** An entry whose line the manifest takes: its [binary] is a string,
    absolute or else joined to an output directory of an ASCII path, and the
    line is ASCII text. *)
Definition manifest_takes (outdir_path : string) (b : entry) : bool :=
  match binary b with
  | JStr p =>
      (posixpath.startswith_slash p || is_ascii outdir_path)
      && is_ascii (fmt_s py_str (bootfs_path b) +:+ "="
                   +:+ posixpath.join outdir_path [p] +:+ nl)
  | _ => false
  end.

Definition depfile_chunks (B : list entry) : list string :=
  depfile_head :: map (fun b => " " +:+ fmt_s py_str (binary b)) B ++ [nl].

Definition call_result (argv : list string) (r : proc_result) : result Z :=
  match r with
  | Exited 0 => Ok 0%Z
  | Exited status => Raise (CalledProcessError status)
  | SpawnFailed => Raise (OSError (hd "" argv))
  end.

(** A state with more events in its trace. *)
Definition add (s : state) (evs : list event) : state :=
  State (labels s) (binaries s) (trace s ++ evs).

(** [main] from the write of [BUILD.gn] on. *)
Definition after_collecting : M Z :=
  write_build_gn py_str w ;;
  ensure_dir w (pkg_gen_dir_of w a) ;;
  write_manifest py_str w (manifest_of w a) (outdir_path_of w a) ;;
  write_depfile py_str w (depfile_of w a) ;;
  check_call w (gn_argv w a) ;;
  ret 0%Z.

(** How [main] goes on once the configs are collected into [L] and [B]:
    the events it adds and how it ends, one rule per place it can stop. *)
Inductive after_collect (L : list json) (B : list entry)
  : list event -> result Z -> Prop :=
| AC_build_gn_unwritable :
    open_w_ok w "BUILD.gn" = false ->
    after_collect L B [] (Raise (IOError "BUILD.gn"))
| AC_label_not_encoded :
    open_w_ok w "BUILD.gn" = true ->
    forallb label_encodes L = false ->
    after_collect L B
      (file_events "BUILD.gn" (build_gn_cut L))
      (Raise UnicodeEncodeError)
| AC_dir_uncreatable :
    open_w_ok w "BUILD.gn" = true ->
    forallb label_encodes L = true ->
    dir_ready (pkg_gen_dir_of w a) = false ->
    after_collect L B
      (file_events "BUILD.gn" (build_gn_chunks L)
       ++ dir_events (pkg_gen_dir_of w a))
      (Raise (OSError (pkg_gen_dir_of w a)))
| AC_manifest_unwritable :
    open_w_ok w "BUILD.gn" = true ->
    forallb label_encodes L = true ->
    dir_ready (pkg_gen_dir_of w a) = true ->
    open_w_ok w (manifest_of w a) = false ->
    after_collect L B
      (file_events "BUILD.gn" (build_gn_chunks L)
       ++ dir_events (pkg_gen_dir_of w a))
      (Raise (IOError (manifest_of w a)))
| AC_manifest_stopped lines e :
    open_w_ok w "BUILD.gn" = true ->
    forallb label_encodes L = true ->
    dir_ready (pkg_gen_dir_of w a) = true ->
    open_w_ok w (manifest_of w a) = true ->
    manifest_chunks (outdir_path_of w a) B = (lines, Some e) ->
    after_collect L B
      (file_events "BUILD.gn" (build_gn_chunks L)
       ++ dir_events (pkg_gen_dir_of w a)
       ++ file_events (manifest_of w a) lines)
      (Raise e)
| AC_depfile_unwritable lines :
    open_w_ok w "BUILD.gn" = true ->
    forallb label_encodes L = true ->
    dir_ready (pkg_gen_dir_of w a) = true ->
    open_w_ok w (manifest_of w a) = true ->
    manifest_chunks (outdir_path_of w a) B = (lines, None) ->
    open_w_ok w (depfile_of w a) = false ->
    after_collect L B
      (file_events "BUILD.gn" (build_gn_chunks L)
       ++ dir_events (pkg_gen_dir_of w a)
       ++ file_events (manifest_of w a) lines)
      (Raise (IOError (depfile_of w a)))
| AC_called lines :
    open_w_ok w "BUILD.gn" = true ->
    forallb label_encodes L = true ->
    dir_ready (pkg_gen_dir_of w a) = true ->
    open_w_ok w (manifest_of w a) = true ->
    manifest_chunks (outdir_path_of w a) B = (lines, None) ->
    open_w_ok w (depfile_of w a) = true ->
    after_collect L B
      (file_events "BUILD.gn" (build_gn_chunks L)
       ++ dir_events (pkg_gen_dir_of w a)
       ++ file_events (manifest_of w a) lines
       ++ file_events (depfile_of w a) (depfile_chunks B)
       ++ [EvCall (gn_argv w a)])
      (call_result (gn_argv w a) (gn_result w (gn_argv w a))).

End Shapes.

(** A trace that neither opens nor writes [p]. *)
Definition quiet_on (p : string) (tr : list event) : Prop :=
  Forall (fun ev => touches p ev = false) tr.

(** What a file that a run wrote must hold, given the lists collected. *)
Definition expected_content (py_str : json -> string) (w : env) (a : cmdline)
    (L : list json) (B : list entry) (p : string) : string :=
  if String.eqb p (depfile_of w a) then cat (depfile_chunks py_str B)
  else if String.eqb p (manifest_of w a)
  then cat (fst (manifest_chunks py_str (outdir_path_of w a) B))
  else if forallb (label_encodes py_str) L then cat (build_gn_chunks py_str L)
  else cat (build_gn_cut py_str L).

(** A write of one of the two files of the output directory. *)
Definition is_output_write (w : env) (a : cmdline) (ev : event) : bool :=
  touches (manifest_of w a) ev || touches (depfile_of w a) ev.

(** The property that no file is written before the directory step, and
    none at all when the directory cannot be made. *)
Definition writes_wait_for_dir (w : env) (a : cmdline)
    (r : state * result Z) : Prop :=
  (forall pre ev post,
     trace (fst r) = pre ++ ev :: post ->
     file_of ev <> None ->
     In (EvIsdir (pkg_gen_dir_of w a) (isdir w (pkg_gen_dir_of w a))) pre)
  /\ (isdir w (pkg_gen_dir_of w a) = false ->
      makedirs_ok w (pkg_gen_dir_of w a) = false ->
      Forall (fun ev => file_of ev = None) (trace (fst r))).

(** *** A sample tree *)

(** A stand-in for [str] on values that are not strings. *)
Definition sample_str (v : json) : string :=
  match v with
  | JNull => "None"
  | JBool true => "True"
  | JBool false => "False"
  | JNum lit => lit
  | _ => "<object>"
  end.

Definition entry_doc (b : BinaryEntry) : json :=
  JObj [("binary", JStr (be_binary b)); ("bootfs_path", JStr (be_bootfs_path b))].

Definition descriptor_doc (d : PackageDescriptor) : json :=
  JObj [("label", JStr (pd_label d));
        ("binaries", JArr (map entry_doc (pd_binaries d)))].

Definition sample_abspath (p : string) : string :=
  if String.eqb p "/fuchsia/packages/.." then "/fuchsia" else p.

Fixpoint files_of (table : list (string * file_contents)) (p : string)
  : file_contents :=
  match table with
  | [] => NoFile
  | (q, f) :: rest => if String.eqb q p then f else files_of rest p
  end.

Definition sample_world (table : list (string * file_contents))
    (dir_exists can_mkdir : bool) (gn : proc_result) : env :=
  Env sample_abspath (files_of table) (fun _ => true)
    (fun _ => dir_exists) (fun _ => can_mkdir) (fun _ => gn).

Definition sample_cmdline : cmdline := Cmdline "/fuchsia/packages/gen.py" None.

Definition pkg_a : PackageDescriptor :=
  MkPackageDescriptor "//a" [MkBinaryEntry "a.bin" "bin/a"].

Definition pkg_ftl : PackageDescriptor :=
  MkPackageDescriptor "//apps/ftl"
    [MkBinaryEntry "ftl" "bin/ftl"; MkBinaryEntry "ftl_test" "test/ftl"].

Definition pkg_mojo : PackageDescriptor :=
  MkPackageDescriptor "//a" [].

Definition pkg_mtl : PackageDescriptor :=
  MkPackageDescriptor "//lib/mtl" [MkBinaryEntry "a.bin" "bin/mtl"].

(** All four configs well formed; a label and a binary occur twice. *)
Definition full_tree : list (string * file_contents) :=
  [("/fuchsia/packages/fortune", Json (descriptor_doc pkg_a));
   ("/fuchsia/packages/ftl", Json (descriptor_doc pkg_ftl));
   ("/fuchsia/packages/mojo", Json (descriptor_doc pkg_mojo));
   ("/fuchsia/packages/mtl", Json (descriptor_doc pkg_mtl))].

(** The config of the spec's example, the other three unreadable as JSON. *)
Definition lone_tree : list (string * file_contents) :=
  [("/fuchsia/packages/fortune", Json (descriptor_doc pkg_a));
   ("/fuchsia/packages/ftl", BadJson);
   ("/fuchsia/packages/mojo", BadJson);
   ("/fuchsia/packages/mtl", BadJson)].

(** [ftl] is not JSON; the others are well formed. *)
Definition one_bad_tree : list (string * file_contents) :=
  [("/fuchsia/packages/fortune", Json (descriptor_doc pkg_a));
   ("/fuchsia/packages/ftl", BadJson);
   ("/fuchsia/packages/mojo", Json (descriptor_doc pkg_mojo));
   ("/fuchsia/packages/mtl", Json (descriptor_doc pkg_mtl))].

(** A config with a label and no ["binaries"], and one whose second entry
    lacks ["bootfs_path"]. *)
Definition no_binaries_doc : json := JObj [("label", JStr "//m")].

Definition half_entry_doc : json :=
  JObj [("label", JStr "//t");
        ("binaries",
         JArr [JObj [("binary", JStr "t.bin"); ("bootfs_path", JStr "bin/t")];
               JObj [("binary", JStr "u.bin")]])].

Definition broken_tree : list (string * file_contents) :=
  [("/fuchsia/packages/fortune", Json (descriptor_doc pkg_a));
   ("/fuchsia/packages/ftl", BadJson);
   ("/fuchsia/packages/mojo", Json no_binaries_doc);
   ("/fuchsia/packages/mtl", Json half_entry_doc)].

(** The letter e with an acute accent, as its two bytes in UTF-8. *)
Definition e_acute : string := String "195"%char (String "169"%char "").

Definition pkg_cafe : PackageDescriptor :=
  MkPackageDescriptor ("//caf" +:+ e_acute) [MkBinaryEntry "cafe.bin" "bin/cafe"].

Definition pkg_menu : PackageDescriptor :=
  MkPackageDescriptor "//menu"
    [MkBinaryEntry ("caf" +:+ e_acute +:+ ".bin") "bin/cafe";
     MkBinaryEntry "tea.bin" "bin/tea"].

(** All four configs well formed; the label of [ftl] holds an accented
    letter. *)
Definition accent_tree : list (string * file_contents) :=
  [("/fuchsia/packages/fortune", Json (descriptor_doc pkg_a));
   ("/fuchsia/packages/ftl", Json (descriptor_doc pkg_cafe));
   ("/fuchsia/packages/mojo", Json (descriptor_doc pkg_mojo));
   ("/fuchsia/packages/mtl", Json (descriptor_doc pkg_mtl))].

(** Two configs well formed; the first binary of [ftl] holds an accented
    letter. *)
Definition menu_tree : list (string * file_contents) :=
  [("/fuchsia/packages/fortune", Json (descriptor_doc pkg_a));
   ("/fuchsia/packages/ftl", Json (descriptor_doc pkg_menu));
   ("/fuchsia/packages/mojo", BadJson);
   ("/fuchsia/packages/mtl", BadJson)].

(** [ftl] is not JSON; the others are well formed, and the label of [mtl]
    holds an accented letter. *)
Definition accent_bad_tree : list (string * file_contents) :=
  [("/fuchsia/packages/fortune", Json (descriptor_doc pkg_a));
   ("/fuchsia/packages/ftl", BadJson);
   ("/fuchsia/packages/mojo", Json (descriptor_doc pkg_mojo));
   ("/fuchsia/packages/mtl", Json (descriptor_doc pkg_cafe))].

(** A tree whose first label is a number and whose second holds an
    accented letter. *)
Definition odd_label_tree : list (string * file_contents) :=
  [("/fuchsia/packages/fortune",
    Json (JObj [("label", JNum "7"); ("binaries", JArr [])]));
   ("/fuchsia/packages/ftl", Json (descriptor_doc pkg_cafe));
   ("/fuchsia/packages/mojo", BadJson);
   ("/fuchsia/packages/mtl", Json (descriptor_doc pkg_mtl))].

(** *** What one config file does to a run *)

(** The exception that ends the [try] of [parse_config] on a file that
    opens, if any. *)
Definition parse_failure (f : file_contents) : option exn :=
  match json_load f with
  | Raise e => Some e
  | Ok doc =>
      match getitem doc "label" with
      | Raise e => Some e
      | Ok _ => binaries_failure doc
      end
  end.

Definition contributed_labels (f : file_contents) : list json :=
  match json_load f with
  | Ok doc =>
      match getitem doc "label" with
      | Ok label => [label]
      | Raise _ => []
      end
  | Raise _ => []
  end.

Definition contributed_entries (f : file_contents) : list entry :=
  match json_load f with
  | Ok doc =>
      match getitem doc "label" with
      | Ok _ => kept_entries doc
      | Raise _ => []
      end
  | Raise _ => []
  end.

(** The diagnostic a config causes, if its parse fails. *)
Definition diagnostic (w : env) (packages_path c : string) : list event :=
  match parse_failure (config_file w (config_path packages_path c)) with
  | Some e => [EvPrintFailed (config_path packages_path c) e]
  | None => []
  end.

Definition exists_config (w : env) (packages_path c : string) : Prop :=
  config_file w (config_path packages_path c) <> NoFile.

(** The files a trace opens for writing, in the order it opens them. *)
Definition opened (tr : list event) : list string :=
  flat_map (fun ev => match ev with EvOpenW p => [p] | _ => [] end) tr.

(** The events of the directory step. *)
Definition is_dir_event (ev : event) : bool :=
  match ev with
  | EvIsdir _ _ => true
  | EvMakedirs _ => true
  | _ => false
  end.

(** An empty dict or an empty string: what a [for] loop runs over without
    running its body. *)
Definition is_empty_container (v : json) : bool :=
  match v with
  | JObj [] => true
  | JStr EmptyString => true
  | _ => false
  end.

(** A tree with no [ftl] file. *)
Definition gap_tree : list (string * file_contents) :=
  [("/fuchsia/packages/fortune", Json half_entry_doc);
   ("/fuchsia/packages/mojo", Json (descriptor_doc pkg_mojo));
   ("/fuchsia/packages/mtl", Json (descriptor_doc pkg_mtl))].

(** A tree whose [ftl] lists a number as its second [binary]. *)
Definition number_doc : json :=
  JObj [("label", JStr "//n");
        ("binaries",
         JArr [JObj [("binary", JStr "n.bin"); ("bootfs_path", JStr "bin/n")];
               JObj [("binary", JNum "7"); ("bootfs_path", JStr "bin/seven")];
               JObj [("binary", JStr "o.bin"); ("bootfs_path", JStr "bin/o")]])].

Definition number_tree : list (string * file_contents) :=
  [("/fuchsia/packages/fortune", Json (descriptor_doc pkg_a));
   ("/fuchsia/packages/ftl", Json number_doc);
   ("/fuchsia/packages/mojo", BadJson);
   ("/fuchsia/packages/mtl", BadJson)].

(** A tree in which no config is JSON. *)
Definition unreadable_tree : list (string * file_contents) :=
  [("/fuchsia/packages/fortune", BadJson);
   ("/fuchsia/packages/ftl", Json (JArr []));
   ("/fuchsia/packages/mojo", Json (JObj [("binaries", JArr [])]));
   ("/fuchsia/packages/mtl", BadJson)].

End GenSpec.

(** ** gen.py: what the script does *)

Module GenCorrect.
Import Gen GenSpec.

(** *** Strings and paths *)

Lemma append_nil_l (s : string) : "" +:+ s = s.
Proof. reflexivity. Qed.

Lemma append_cons (c : ascii) (s t : string) :
  String c s +:+ t = String c (s +:+ t).
Proof. reflexivity. Qed.

Lemma append_nil_r (s : string) : s +:+ "" = s.
Proof.
  induction s as [|c s IH]; [reflexivity|].
  now rewrite append_cons, IH.
Qed.

Lemma append_assoc (s t u : string) : (s +:+ t) +:+ u = s +:+ (t +:+ u).
Proof.
  induction s as [|c s IH]; [reflexivity|].
  now rewrite !append_cons, IH.
Qed.

Lemma append_length (s t : string) :
  String.length (s +:+ t) = String.length s + String.length t.
Proof.
  induction s as [|c s IH]; [reflexivity|].
  rewrite append_cons. simpl. now rewrite IH.
Qed.

Lemma drop_append (t u : string) : drop (String.length t) (t +:+ u) = u.
Proof. induction t as [|c t IH]; [reflexivity | exact IH]. Qed.

Lemma cat_app (xs ys : list string) : cat (xs ++ ys) = cat xs +:+ cat ys.
Proof.
  induction xs as [|x xs IH]; simpl; [reflexivity|].
  now rewrite IH, append_assoc.
Qed.

Lemma is_ascii_append (s t : string) :
  is_ascii (s +:+ t) = is_ascii s && is_ascii t.
Proof.
  induction s as [|c s IH]; [reflexivity|].
  rewrite append_cons. simpl. now rewrite IH, andb_assoc.
Qed.

(** What [join] returns holds its last argument at its end. *)
Lemma is_ascii_join2 (p b : string) :
  is_ascii (posixpath.join2 p b) = true -> is_ascii b = true.
Proof.
  unfold posixpath.join2.
  destruct (posixpath.startswith_slash b); [auto|].
  destruct (_ || _); rewrite !is_ascii_append;
    intros H; repeat (apply andb_prop in H as [? H]); assumption.
Qed.

Lemma join2_ascii (p b : string) :
  is_ascii p = true -> is_ascii b = true ->
  is_ascii (posixpath.join2 p b) = true.
Proof.
  intros Hp Hb. unfold posixpath.join2.
  destruct (posixpath.startswith_slash b); [assumption|].
  destruct (_ || _); rewrite !is_ascii_append, Hp, Hb; reflexivity.
Qed.

Lemma join2_length (p b : string) :
  String.length b <= String.length (posixpath.join2 p b).
Proof.
  unfold posixpath.join2.
  destruct (posixpath.startswith_slash b); [lia|].
  destruct (_ || _); rewrite ?append_length; simpl; lia.
Qed.

(** A path joined with a relative name ends with that name, so two such
    names of one directory name two files. *)
Lemma join2_relative_inj (p b1 b2 : string) :
  posixpath.startswith_slash b1 = false ->
  posixpath.startswith_slash b2 = false ->
  posixpath.join2 p b1 = posixpath.join2 p b2 -> b1 = b2.
Proof.
  intros H1 H2. unfold posixpath.join2. rewrite H1, H2.
  destruct (_ || _); intros E.
  - now apply String.app_inj in E.
  - apply String.app_inj in E. now apply String.app_inj in E.
Qed.

Lemma endswith_slash_append (s : string) (c : ascii) (t : string) :
  posixpath.endswith_slash (s +:+ String c t)
  = posixpath.endswith_slash (String c t).
Proof.
  induction s as [|x s IH]; [reflexivity|].
  rewrite append_cons. rewrite <- IH.
  destruct s; reflexivity.
Qed.

(** Joining a directory with a relative path of several components, one
    component at a time or at once, gives the same path. *)
Lemma join2_relative (p : string) (c : ascii) (b : string) :
  Ascii.eqb c slash = false ->
  posixpath.join2 p (String c b)
  = if String.eqb p "" || posixpath.endswith_slash p
    then p +:+ String c b else p +:+ "/" +:+ String c b.
Proof. intros H. unfold posixpath.join2. simpl. now rewrite H. Qed.

Lemma join2_after_name (p : string) (c : ascii) (t : string) (d : ascii)
    (b : string) :
  Ascii.eqb d slash = false ->
  posixpath.endswith_slash (String c t) = false ->
  posixpath.join2 (p +:+ String c t) (String d b)
  = (p +:+ String c t +:+ "/") +:+ String d b.
Proof.
  intros Hd Hc. rewrite join2_relative by assumption.
  rewrite endswith_slash_append, Hc.
  replace ((p +:+ String c t) =? "")%string with false.
  - simpl. now rewrite !append_assoc.
  - symmetry. apply String.eqb_neq. destruct p; discriminate.
Qed.

(** Joining a directory with a relative path of several components, one
    component at a time or at once, gives the same path. *)
Lemma join_manifest_rel (o : string) :
  posixpath.join o ["gen"; "packages"; "mkbootfs"; "user.bootfs.manifest"]
  = posixpath.join o
      [posixpath.join "gen" ["packages"; "mkbootfs"; "user.bootfs.manifest"]].
Proof.
  unfold posixpath.join. simpl fold_left.
  change (posixpath.join2
            (posixpath.join2 (posixpath.join2 "gen" "packages") "mkbootfs")
            "user.bootfs.manifest")
    with "gen/packages/mkbootfs/user.bootfs.manifest".
  rewrite (join2_relative o "g" "en") by reflexivity.
  rewrite (join2_relative o "g" "en/packages/mkbootfs/user.bootfs.manifest")
    by reflexivity.
  destruct (String.eqb o "" || posixpath.endswith_slash o).
  - rewrite (join2_after_name o "g" "en") by reflexivity.
    rewrite (join2_after_name _ "p" "ackages") by reflexivity.
    rewrite (join2_after_name _ "m" "kbootfs") by reflexivity.
    now rewrite !append_assoc.
  - change (o +:+ "/" +:+ "gen") with (o +:+ "/gen").
    rewrite (join2_after_name o "/" "gen") by reflexivity.
    rewrite (join2_after_name _ "p" "ackages") by reflexivity.
    rewrite (join2_after_name _ "m" "kbootfs") by reflexivity.
    now rewrite !append_assoc.
Qed.

Section Run.

Variable py_str : json -> string.
Variable w : env.
Variable a : cmdline.

Lemma manifest_not_build_gn : manifest_of w a <> "BUILD.gn".
Proof.
  intros E. apply (f_equal String.length) in E.
  pose proof (join2_length (pkg_gen_dir_of w a) "user.bootfs.manifest") as H.
  unfold manifest_of, posixpath.join in E. simpl in E, H. lia.
Qed.

Lemma depfile_not_build_gn : depfile_of w a <> "BUILD.gn".
Proof.
  intros E. apply (f_equal String.length) in E.
  pose proof (join2_length (pkg_gen_dir_of w a) "user.bootfs.d") as H.
  unfold depfile_of, posixpath.join in E. simpl in E, H. lia.
Qed.

Lemma depfile_not_manifest : depfile_of w a <> manifest_of w a.
Proof.
  intros E. unfold depfile_of, manifest_of, posixpath.join in E. simpl in E.
  apply join2_relative_inj in E; [discriminate | reflexivity | reflexivity].
Qed.

(** *** The stages, one at a time *)

Lemma bind_run {A B} (m : M A) (k : A -> M B) (s : state) :
  bind m k s
  = match m s with
    | (s', Ok x) => k x s'
    | (s', Raise e) => (s', Raise e)
    end.
Proof. reflexivity. Qed.

Lemma add_nil (s : state) : add s [] = s.
Proof. destruct s; unfold add; simpl. now rewrite app_nil_r. Qed.

Lemma add_add (s : state) (e1 e2 : list event) :
  add (add s e1) e2 = add s (e1 ++ e2).
Proof. unfold add; simpl. now rewrite app_assoc. Qed.

Lemma take_while_all {A} (ok : A -> bool) (xs : list A) :
  forallb ok xs = true -> take_while ok xs = xs.
Proof.
  induction xs as [|x xs IH]; simpl; [reflexivity|].
  intros [Hx Hxs]%andb_prop. now rewrite Hx, IH.
Qed.

(** A loop of writes goes on until a chunk cannot be encoded. *)
Lemma for_each_writes {A} (p : string) (f : A -> pystring) (xs : list A)
    (s : state) :
  for_each xs (fun x => write p (f x)) s
  = (add s (map (fun x => EvWrite p (text_of (f x)))
              (take_while (fun x => encodes (f x)) xs)),
     if forallb (fun x => encodes (f x)) xs then Ok tt
     else Raise UnicodeEncodeError).
Proof.
  revert s. induction xs as [|x xs IH]; intros s; simpl.
  - now rewrite add_nil.
  - rewrite bind_run. unfold write at 1.
    destruct (encodes (f x)); cbn [take_while forallb andb map].
    + unfold emit at 1. rewrite IH. unfold add; simpl.
      now rewrite <- app_assoc.
    + unfold raise. now rewrite add_nil.
Qed.

Lemma text_of_formatted (v : json) (text : string) :
  text_of (formatted v text) = text.
Proof. now destruct v. Qed.

Lemma map_write_formatted {A} (p : string) (g : A -> json) (f : A -> string)
    (xs : list A) :
  map (fun x => EvWrite p (text_of (formatted (g x) (f x)))) xs
  = map (fun x => EvWrite p (f x)) xs.
Proof.
  induction xs as [|x xs IH]; simpl; [reflexivity|].
  now rewrite text_of_formatted, IH.
Qed.

Lemma write_build_gn_run (s : state) :
  write_build_gn py_str w s
  = if open_w_ok w "BUILD.gn"
    then
      if forallb (label_encodes py_str) (labels s)
      then (add s (file_events "BUILD.gn" (build_gn_chunks py_str (labels s))),
            Ok tt)
      else (add s (file_events "BUILD.gn" (build_gn_cut py_str (labels s))),
            Raise UnicodeEncodeError)
    else (s, Raise (IOError "BUILD.gn")).
Proof.
  unfold write_build_gn, open_w. rewrite bind_run.
  destruct (open_w_ok w "BUILD.gn"); [|reflexivity].
  unfold emit at 1. rewrite bind_run. unfold write at 1, emit at 1.
  cbn [encodes text_of].
  rewrite bind_run. unfold get_labels. rewrite bind_run. simpl labels.
  rewrite for_each_writes. fold (label_encodes py_str).
  rewrite (map_write_formatted "BUILD.gn" (fun l => l) (build_gn_dep py_str)).
  destruct (forallb (label_encodes py_str) (labels s)) eqn:Hall.
  - rewrite (take_while_all _ _ Hall).
    unfold write, emit, add, file_events, build_gn_chunks. simpl.
    rewrite map_app, map_map. simpl. repeat rewrite <- app_assoc.
    reflexivity.
  - unfold add, file_events, build_gn_cut. simpl.
    rewrite map_map. repeat rewrite <- app_assoc. reflexivity.
Qed.

Lemma ensure_dir_run (dir : string) (s : state) :
  ensure_dir w dir s
  = (add s (dir_events w dir),
     if dir_ready w dir then Ok tt else Raise (OSError dir)).
Proof.
  unfold ensure_dir, dir_events, dir_ready, makedirs, bind, emit, add, ret, raise.
  destruct (isdir w dir); simpl; [reflexivity|].
  destruct (makedirs_ok w dir); simpl; now rewrite <- app_assoc.
Qed.

Lemma manifest_loop_run (m outdir_path : string) (B : list entry) (s : state) :
  for_each B (fun b =>
    binary_path <- lift (path_join outdir_path (binary b)) ;;
    write m
      (PyUnicode (fmt_s py_str (bootfs_path b) +:+ "=" +:+ binary_path
                  +:+ nl))) s
  = (add s (map (EvWrite m) (fst (manifest_chunks py_str outdir_path B))),
     match snd (manifest_chunks py_str outdir_path B) with
     | None => Ok tt
     | Some e => Raise e
     end).
Proof.
  revert s. induction B as [|b B IH]; intros s; simpl.
  - now rewrite add_nil.
  - rewrite !bind_run. unfold lift at 1.
    destruct (path_join outdir_path (binary b)) as [bp|e]; simpl.
    + unfold write at 1. cbn [encodes text_of].
      destruct (is_ascii _); cbn [fst snd].
      * unfold emit at 1. rewrite IH.
        destruct (manifest_chunks py_str outdir_path B) as [lines r]; simpl.
        unfold add; simpl. now rewrite <- app_assoc.
      * unfold raise. now rewrite add_nil.
    + now rewrite add_nil.
Qed.

(** Once the manifest loop has run to its end, every [binary] is a string
    that the depfile takes. *)
Lemma manifest_chunks_binary_encodes (o : string) (B : list entry) :
  snd (manifest_chunks py_str o B) = None ->
  forallb (binary_encodes py_str) B = true.
Proof.
  induction B as [|b B IH]; simpl; [reflexivity|].
  unfold path_join.
  destruct (binary b) as [| | |p| |] eqn:Hb; simpl; try discriminate.
  destruct (posixpath.startswith_slash p || is_ascii o); simpl;
    [|discriminate].
  destruct (is_ascii (fmt_s py_str (bootfs_path b) +:+ _)) eqn:Hline; simpl;
    [|discriminate].
  destruct (manifest_chunks py_str o B) as [lines r]; simpl in *.
  intros Hr. rewrite (IH Hr), andb_true_r.
  unfold binary_encodes. rewrite Hb. simpl.
  rewrite !is_ascii_append in Hline.
  apply andb_prop in Hline as [_ Hline].
  apply andb_prop in Hline as [_ Hline].
  apply andb_prop in Hline as [Hline _].
  now apply is_ascii_join2 in Hline.
Qed.

Lemma write_manifest_run (m outdir_path : string) (s : state) :
  write_manifest py_str w m outdir_path s
  = if open_w_ok w m
    then (add s (file_events m
                   (fst (manifest_chunks py_str outdir_path (binaries s)))),
          match snd (manifest_chunks py_str outdir_path (binaries s)) with
          | None => Ok tt
          | Some e => Raise e
          end)
    else (s, Raise (IOError m)).
Proof.
  unfold write_manifest, open_w. rewrite bind_run.
  destruct (open_w_ok w m); [|reflexivity].
  unfold emit at 1. rewrite bind_run. unfold get_binaries. simpl binaries.
  rewrite manifest_loop_run. unfold add, file_events; simpl.
  now rewrite <- app_assoc.
Qed.

Lemma write_depfile_run (dp : string) (s : state) :
  forallb (binary_encodes py_str) (binaries s) = true ->
  write_depfile py_str w dp s
  = if open_w_ok w dp
    then (add s (file_events dp (depfile_chunks py_str (binaries s))), Ok tt)
    else (s, Raise (IOError dp)).
Proof.
  intros Hall. unfold write_depfile, open_w. rewrite bind_run.
  destruct (open_w_ok w dp); [|reflexivity].
  unfold emit at 1. rewrite bind_run. unfold write at 1, emit at 1.
  cbn [encodes text_of].
  rewrite bind_run. unfold get_binaries. rewrite bind_run. simpl binaries.
  rewrite for_each_writes. fold (binary_encodes py_str).
  rewrite (map_write_formatted dp binary
             (fun b => " " +:+ fmt_s py_str (binary b))).
  rewrite Hall, (take_while_all _ _ Hall).
  unfold write, emit, add, file_events, depfile_chunks. simpl.
  rewrite map_app, map_map. simpl. repeat rewrite <- app_assoc. reflexivity.
Qed.

Lemma check_call_run (argv : list string) (s : state) :
  check_call w argv s = (add s [EvCall argv], call_result argv (gn_result w argv)).
Proof.
  unfold check_call, bind, emit, add, call_result.
  destruct (gn_result w argv) as [|[| |]]; reflexivity.
Qed.

(** *** [main] as a whole *)

Lemma main_with_start (configs : list string) (s0 : state) :
  main_with py_str configs w a s0
  = (collect w (packages_path_of w a) configs ;; after_collecting py_str w a)
      (State [] [] (trace s0 ++ [EvChdir (packages_path_of w a)])).
Proof. reflexivity. Qed.

Lemma after_collecting_cases (s1 : state) :
  exists evs r,
    after_collecting py_str w a s1 = (add s1 evs, r)
    /\ after_collect py_str w a (labels s1) (binaries s1) evs r.
Proof.
  unfold after_collecting.
  rewrite bind_run, write_build_gn_run.
  destruct (open_w_ok w "BUILD.gn") eqn:Hgn.
  2:{ exists [], (Raise (IOError "BUILD.gn")). rewrite add_nil.
      split; [reflexivity | now constructor]. }
  destruct (forallb (label_encodes py_str) (labels s1)) eqn:HL.
  2:{ eexists _, _. split; [reflexivity|].
      now apply AC_label_not_encoded. }
  rewrite bind_run, ensure_dir_run.
  destruct (dir_ready w (pkg_gen_dir_of w a)) eqn:Hdir.
  2:{ eexists _, _. rewrite add_add. split; [reflexivity|].
      now apply AC_dir_uncreatable. }
  rewrite bind_run, write_manifest_run.
  destruct (open_w_ok w (manifest_of w a)) eqn:Hm.
  2:{ eexists _, _. rewrite add_add. split; [reflexivity|].
      now apply AC_manifest_unwritable. }
  simpl binaries.
  destruct (manifest_chunks py_str (outdir_path_of w a) (binaries s1))
    as [lines [e|]] eqn:Hw; simpl fst; simpl snd.
  { eexists _, _. rewrite !add_add. split; [reflexivity|].
    now apply AC_manifest_stopped. }
  rewrite bind_run, write_depfile_run.
  2:{ apply (manifest_chunks_binary_encodes (outdir_path_of w a)).
      simpl binaries. now rewrite Hw. }
  destruct (open_w_ok w (depfile_of w a)) eqn:Hd.
  2:{ eexists _, _. rewrite !add_add. split; [reflexivity|].
      now apply AC_depfile_unwritable. }
  simpl binaries.
  rewrite bind_run, check_call_run.
  pose proof (AC_called py_str w a (labels s1) (binaries s1) lines
                Hgn HL Hdir Hm Hw Hd) as H.
  destruct (call_result _ _) as [v|e] eqn:Hc.
  - assert (v = 0%Z) as ->.
    { unfold call_result in Hc.
      destruct (gn_result w (gn_argv w a)) as [|[| |]]; congruence. }
    eexists _, _. rewrite !add_add. split; [reflexivity|].
    exact H.
  - eexists _, _. rewrite !add_add. split; [reflexivity|].
    exact H.
Qed.

(** [main] ends where [collect] raised, or goes on by one of the rules of
    [after_collect]; the two lists are those [collect] left. *)
Lemma main_with_cases (configs : list string) (s0 : state) :
  match collect w (packages_path_of w a) configs
          (State [] [] (trace s0 ++ [EvChdir (packages_path_of w a)])) with
  | (s1, Raise e) => main_with py_str configs w a s0 = (s1, Raise e)
  | (s1, Ok _) =>
      exists evs r,
        main_with py_str configs w a s0 = (add s1 evs, r)
        /\ after_collect py_str w a (labels s1) (binaries s1) evs r
  end.
Proof.
  rewrite main_with_start, bind_run.
  destruct (collect w (packages_path_of w a) configs _) as [s1 [[]|e]];
    [|reflexivity].
  apply after_collecting_cases.
Qed.

End Run.

(** *** Reading [BUILD.gn] back *)

Lemma quoted_from_outside (t rest : string) :
  no_dq t = true ->
  quoted_from None (t +:+ rest) = quoted_from None rest.
Proof.
  induction t as [|c t IH]; [reflexivity|]. simpl.
  intros [Hc Ht]%andb_prop.
  apply negb_true_iff in Hc. rewrite Hc. now apply IH.
Qed.

Lemma quoted_from_inside (acc t rest : string) :
  no_dq t = true ->
  quoted_from (Some acc) (t +:+ dq +:+ rest)
  = (acc +:+ t) :: quoted_from None rest.
Proof.
  revert acc. induction t as [|c t IH]; intros acc.
  - intros _. simpl. now rewrite append_nil_r.
  - simpl. intros [Hc Ht]%andb_prop.
    apply negb_true_iff in Hc. rewrite Hc, (IH _ Ht).
    now rewrite append_assoc.
Qed.

Lemma quoted_from_string (t rest : string) :
  no_dq t = true ->
  quoted_from None (dq +:+ t +:+ dq +:+ rest) = t :: quoted_from None rest.
Proof.
  intros Ht. unfold dq at 1. rewrite append_cons, append_nil_l. simpl.
  now rewrite quoted_from_inside.
Qed.

Lemma quoted_from_dep_lines (ls : list string) (rest : string) :
  forallb no_dq ls = true ->
  no_dq rest = true ->
  quoted_from None (cat (map dep_line ls) +:+ rest) = ls.
Proof.
  intros Hls Hrest. induction ls as [|l ls IH].
  - change (cat (map dep_line [])) with "".
    rewrite append_nil_l, <- (append_nil_r rest).
    now rewrite (quoted_from_outside rest "" Hrest).
  - simpl in Hls. apply andb_prop in Hls as [Hl Hls].
    change (cat (map dep_line (l :: ls)))
      with (dep_line l +:+ cat (map dep_line ls)).
    unfold dep_line at 1. rewrite !append_assoc.
    rewrite (quoted_from_outside nl) by reflexivity.
    rewrite (quoted_from_outside "    ") by reflexivity.
    rewrite quoted_from_string by assumption.
    rewrite (quoted_from_outside ",") by reflexivity.
    now rewrite IH.
Qed.

Lemma group_deps_build_gn (ls : list string) :
  forallb no_dq ls = true ->
  group_deps (build_gn_text ls) = "//packages/mkbootfs" :: ls.
Proof.
  intros Hls. unfold group_deps, build_gn_text.
  rewrite (quoted_from_outside nl) by reflexivity.
  rewrite (quoted_from_outside
             "# NOTE: This file is auto-generated by gen.py. Do not edit by hand.")
    by reflexivity.
  rewrite (quoted_from_outside nl) by reflexivity.
  rewrite (quoted_from_outside nl) by reflexivity.
  rewrite (quoted_from_outside "group(") by reflexivity.
  rewrite quoted_from_string by reflexivity.
  rewrite (quoted_from_outside ") {") by reflexivity.
  rewrite (quoted_from_outside nl) by reflexivity.
  rewrite (quoted_from_outside "  testonly = true") by reflexivity.
  rewrite (quoted_from_outside nl) by reflexivity.
  rewrite (quoted_from_outside "  deps = [") by reflexivity.
  rewrite (quoted_from_outside nl) by reflexivity.
  rewrite (quoted_from_outside "    ") by reflexivity.
  rewrite quoted_from_string by reflexivity.
  rewrite (quoted_from_outside ",") by reflexivity.
  rewrite (quoted_from_outside nl) by reflexivity.
  now rewrite quoted_from_dep_lines.
Qed.

(** *** What a trace leaves in a file *)

Lemma written_from_app (acc : option string) (t1 t2 : list event) (p : string) :
  written_from acc (t1 ++ t2) p = written_from (written_from acc t1 p) t2 p.
Proof.
  revert acc. induction t1 as [|ev t1 IH]; intros acc; [reflexivity|].
  destruct ev; simpl; apply IH.
Qed.

Lemma written_from_quiet (acc : option string) (tr : list event) (p : string) :
  quiet_on p tr -> written_from acc tr p = acc.
Proof.
  unfold quiet_on. induction 1 as [|ev tr Hev _ IH]; [reflexivity|].
  destruct ev; simpl; try exact IH;
    unfold touches in Hev; simpl in Hev; now rewrite Hev.
Qed.

Lemma written_from_chunks (c : string) (chunks : list string) (p : string) :
  written_from (Some c) (map (EvWrite p) chunks) p = Some (c +:+ cat chunks).
Proof.
  revert c. induction chunks as [|x chunks IH]; intros c; simpl.
  - now rewrite append_nil_r.
  - rewrite String.eqb_refl, IH. now rewrite append_assoc.
Qed.

Lemma written_from_file_events (acc : option string) (p : string)
    (chunks : list string) :
  written_from acc (file_events p chunks) p = Some (cat chunks).
Proof.
  unfold file_events. simpl. rewrite String.eqb_refl.
  now rewrite written_from_chunks.
Qed.

Lemma quiet_on_app (p : string) (t1 t2 : list event) :
  quiet_on p t1 -> quiet_on p t2 -> quiet_on p (t1 ++ t2).
Proof. unfold quiet_on. intros H1 H2. now apply Forall_app. Qed.

Lemma quiet_on_file_events (p q : string) (chunks : list string) :
  q <> p -> quiet_on p (file_events q chunks).
Proof.
  intros Hne. apply String.eqb_neq in Hne.
  unfold quiet_on, file_events. constructor; [exact Hne|].
  induction chunks as [|c chunks IH]; simpl; constructor; assumption.
Qed.

Lemma quiet_on_prints (p : string) (prints : list event) :
  Forall (fun ev => is_print ev = true) prints -> quiet_on p prints.
Proof.
  unfold quiet_on. induction 1 as [|ev prints Hev _ IH]; constructor;
    [|exact IH].
  now destruct ev.
Qed.

Lemma quiet_on_dir_events (w : env) (p dir : string) :
  quiet_on p (dir_events w dir).
Proof.
  unfold quiet_on, dir_events. destruct (isdir w dir); now repeat constructor.
Qed.

Lemma quiet_on_call (p : string) (argv : list string) :
  quiet_on p [EvCall argv].
Proof. now repeat constructor. Qed.

Create HintDb quiet.
#[local] Hint Resolve quiet_on_app quiet_on_file_events quiet_on_prints
  quiet_on_dir_events quiet_on_call : quiet.

(** *** Reading the configs *)

Section Collect.

Variable w : env.

Lemma for_each_app {A} (xs ys : list A) (body : A -> M unit) (s : state) :
  for_each (xs ++ ys) body s = (for_each xs body ;; for_each ys body) s.
Proof.
  revert s. induction xs as [|x xs IH]; intros s; simpl.
  - reflexivity.
  - rewrite !bind_run. destruct (body x s) as [s' [[]|e]]; [|reflexivity].
    rewrite IH. now rewrite bind_run.
Qed.

Lemma entries_loop_run (items : list json) (s : state) :
  for_each items (fun b =>
    v1 <- lift (getitem b "binary") ;;
    v2 <- lift (getitem b "bootfs_path") ;;
    binaries_append (Entry v1 v2)) s
  = (State (labels s) (binaries s ++ fst (entries_until_bad items)) (trace s),
     match snd (entries_until_bad items) with
     | None => Ok tt
     | Some e => Raise e
     end).
Proof.
  revert s. induction items as [|b items IH]; intros s; simpl.
  - rewrite app_nil_r. now destruct s.
  - rewrite !bind_run. unfold lift at 1.
    destruct (getitem b "binary") as [v1|e].
    2:{ simpl. rewrite app_nil_r. now destruct s. }
    rewrite bind_run. unfold lift at 1.
    destruct (getitem b "bootfs_path") as [v2|e].
    2:{ simpl. rewrite app_nil_r. now destruct s. }
    unfold binaries_append at 1. rewrite IH. simpl.
    destruct (entries_until_bad items) as [es r]; simpl.
    now rewrite <- app_assoc.
Qed.

(** The kept entries are made from the first items, one each, in order;
    the loop stops at the first item that lacks a key. *)
Lemma entries_until_bad_prefix (items : list json) :
  exists good rest,
    items = good ++ rest
    /\ Forall2 made_from good (fst (entries_until_bad items))
    /\ match snd (entries_until_bad items) with
       | None => rest = []
       | Some e =>
           exists bad rest',
             rest = bad :: rest'
             /\ (getitem bad "binary" = Raise e
                 \/ getitem bad "bootfs_path" = Raise e)
       end.
Proof.
  induction items as [|b items (good & rest & E & HF & HR)]; simpl.
  - exists [], []. repeat split; constructor.
  - destruct (getitem b "binary") as [v1|e] eqn:H1.
    2:{ exists [], (b :: items). simpl. repeat split; [constructor|].
        exists b, items. split; [reflexivity | now left]. }
    destruct (getitem b "bootfs_path") as [v2|e] eqn:H2.
    2:{ exists [], (b :: items). simpl. repeat split; [constructor|].
        exists b, items. split; [reflexivity | now right]. }
    destruct (entries_until_bad items) as [es r]; simpl in *.
    exists (b :: good), rest. subst items. repeat split; [|exact HR].
    constructor; [|exact HF]. now split.
Qed.

(** Everything [parse_config] can do to the state when the file opens. *)
Lemma parse_config_run (config : string) (s : state) :
  config_file w config <> NoFile ->
  parse_config w config s
  = match json_load (config_file w config) with
    | Raise e => (add s [EvPrintFailed config e], Ok tt)
    | Ok doc =>
        match getitem doc "label" with
        | Raise e => (add s [EvPrintFailed config e], Ok tt)
        | Ok label =>
            (State (labels s ++ [label]) (binaries s ++ kept_entries doc)
               (trace s ++ match binaries_failure doc with
                           | Some e => [EvPrintFailed config e]
                           | None => []
                           end),
             Ok tt)
        end
    end.
Proof.
  intros Hfile. unfold parse_config.
  destruct (config_file w config) as [| |doc]; [congruence | reflexivity |].
  unfold try_except. rewrite bind_run. unfold lift at 1, json_load.
  rewrite bind_run. unfold lift at 1.
  destruct (getitem doc "label") as [label|e]; [|reflexivity].
  rewrite bind_run. unfold labels_append at 1.
  rewrite bind_run. unfold lift at 1.
  unfold kept_entries, binaries_failure.
  destruct (getitem doc "binaries") as [bs|e].
  2:{ unfold emit, add. simpl. now rewrite app_nil_r. }
  rewrite bind_run. unfold lift at 1.
  destruct (iter bs) as [items|e].
  2:{ unfold emit, add. simpl. now rewrite app_nil_r. }
  rewrite entries_loop_run. simpl.
  destruct (snd (entries_until_bad items)); [reflexivity|].
  now rewrite app_nil_r.
Qed.

Lemma parse_config_missing (config : string) (s : state) :
  config_file w config = NoFile ->
  parse_config w config s = (s, Raise (IOError config)).
Proof. intros H. unfold parse_config. now rewrite H. Qed.

Lemma parse_config_prints (config : string) (s : state) :
  exists prints,
    trace (fst (parse_config w config s)) = trace s ++ prints
    /\ Forall (fun ev => is_print ev = true) prints.
Proof.
  destruct (config_file w config) eqn:Hf.
  - rewrite parse_config_missing by assumption. exists [].
    now rewrite app_nil_r.
  - rewrite parse_config_run by congruence. rewrite Hf. simpl.
    eexists. split; [reflexivity|]. now repeat constructor.
  - rewrite parse_config_run by congruence. rewrite Hf. simpl.
    destruct (getitem doc "label"); simpl.
    + eexists. split; [reflexivity|].
      destruct (binaries_failure doc); now repeat constructor.
    + eexists. split; [reflexivity|]. now repeat constructor.
Qed.

Lemma collect_prints (packages_path : string) (configs : list string) (s : state) :
  exists prints,
    trace (fst (collect w packages_path configs s)) = trace s ++ prints
    /\ Forall (fun ev => is_print ev = true) prints.
Proof.
  unfold collect. revert s.
  induction configs as [|c configs IH]; intros s; simpl.
  - exists []. now rewrite app_nil_r.
  - rewrite bind_run.
    destruct (parse_config_prints (posixpath.join packages_path [c]) s)
      as (p1 & E1 & F1).
    destruct (parse_config w _ s) as [s1 [[]|e]]; simpl in *.
    + destruct (IH s1) as (p2 & E2 & F2). exists (p1 ++ p2).
      rewrite E2, E1, <- app_assoc. split; [reflexivity|].
      now apply Forall_app.
    + now exists p1.
Qed.

(** A well-formed config appends its label and its entries, all of them,
    and prints nothing. *)
Lemma read_entries_kept (items : list json) (bs : list BinaryEntry) :
  read_entries items = Some bs ->
  entries_until_bad items = (map entry_of bs, None).
Proof.
  revert bs. induction items as [|v items IH]; intros bs; simpl.
  - now intros [= <-].
  - unfold read_entry.
    destruct (getitem v "binary") as [[| | |b| |]|]; try discriminate.
    destruct (getitem v "bootfs_path") as [[| | |p| |]|]; try discriminate.
    destruct (read_entries items) as [bs'|]; [|discriminate].
    intros [= <-]. now rewrite (IH bs' eq_refl).
Qed.

Lemma parse_config_valid (packages_path c : string) (d : PackageDescriptor)
    (s : state) :
  loads w packages_path c = Some d ->
  parse_config w (posixpath.join packages_path [c]) s
  = (State (labels s ++ [JStr (pd_label d)])
       (binaries s ++ map entry_of (pd_binaries d)) (trace s),
     Ok tt).
Proof.
  unfold loads, config_path. intros H.
  destruct (config_file w _) as [| |doc] eqn:Hf; try discriminate.
  rewrite parse_config_run by congruence. rewrite Hf. simpl.
  unfold read_descriptor in H. unfold kept_entries, binaries_failure.
  destruct (getitem doc "label") as [[| | |l| |]|]; try discriminate.
  destruct (getitem doc "binaries") as [[| | | |items|]|]; try discriminate.
  destruct (read_entries items) as [bs|] eqn:Hr; [|discriminate].
  injection H as <-. simpl.
  rewrite (read_entries_kept _ _ Hr). simpl. now rewrite app_nil_r.
Qed.

Lemma collect_valid (packages_path : string) (configs : list string)
    (ds : list PackageDescriptor) (s : state) :
  map (loads w packages_path) configs = map Some ds ->
  collect w packages_path configs s
  = (State (labels s ++ map JStr (all_labels ds))
       (binaries s ++ map entry_of (all_binaries ds)) (trace s),
     Ok tt).
Proof.
  unfold collect. revert ds s.
  induction configs as [|c configs IH]; intros [|d ds] s; simpl;
    try discriminate.
  - intros _. rewrite !app_nil_r. now destruct s.
  - intros [= Hc Hrest]. rewrite bind_run.
    rewrite (parse_config_valid _ _ _ _ Hc), (IH _ _ Hrest). simpl.
    now rewrite map_app, <- !app_assoc.
Qed.

Lemma parse_config_bad_json (config : string) (s : state) :
  config_file w config = BadJson ->
  parse_config w config s = (add s [EvPrintFailed config ValueError], Ok tt).
Proof.
  intros H. rewrite parse_config_run by congruence. now rewrite H.
Qed.

End Collect.

(** [collect] sees the world only through the files it is told to read. *)
Lemma collect_same_files (w1 w2 : env) (packages_path : string)
    (configs : list string) (s : state) :
  (forall c, In c configs ->
             config_file w1 (config_path packages_path c)
             = config_file w2 (config_path packages_path c)) ->
  collect w1 packages_path configs s = collect w2 packages_path configs s.
Proof.
  unfold collect, config_path. revert s.
  induction configs as [|c configs IH]; intros s H; cbn [for_each];
    [reflexivity|].
  rewrite !bind_run.
  assert (parse_config w1 (posixpath.join packages_path [c]) s
          = parse_config w2 (posixpath.join packages_path [c]) s) as ->.
  { unfold parse_config. rewrite (H c) by now left. reflexivity. }
  destruct (parse_config w2 _ s) as [s1 [[]|e]]; [|reflexivity].
  apply IH. intros c' Hc'. apply H. now right.
Qed.

Lemma kept_entries_made (doc : json) :
  Forall (fun en => exists item, made_from item en) (kept_entries doc).
Proof.
  unfold kept_entries.
  destruct (getitem doc "binaries") as [bs|]; [|constructor].
  destruct (iter bs) as [items|]; [|constructor].
  destruct (entries_until_bad_prefix items) as (good & rest & _ & HF & _).
  induction HF as [|item en good kept Hm _ IH]; constructor; [|exact IH].
  now exists item.
Qed.

(** C3, as the script has it. A failed parse is caught and reported, and
    [parse_config] returns normally, so the next file is read. When the
    file is not JSON or has no ["label"], both lists are left as they were.
    When the failure comes after the label was read, the label stays
    appended, and so does the entry of every item that precedes the first
    malformed one; each kept entry holds both fields of one item. *)
Theorem failed_parse_effect (w : env) (config : string) (s : state) (e : exn) :
  trace (fst (parse_config w config s)) = trace s ++ [EvPrintFailed config e] ->
  snd (parse_config w config s) = Ok tt
  /\ match config_file w config with
     | Json doc =>
         match getitem doc "label" with
         | Ok label =>
             labels (fst (parse_config w config s)) = labels s ++ [label]
             /\ binaries (fst (parse_config w config s))
                = binaries s ++ kept_entries doc
             /\ Forall (fun en => exists item, made_from item en)
                  (kept_entries doc)
             /\ binaries_failure doc = Some e
         | Raise e' =>
             e' = e
             /\ labels (fst (parse_config w config s)) = labels s
             /\ binaries (fst (parse_config w config s)) = binaries s
         end
     | _ =>
         labels (fst (parse_config w config s)) = labels s
         /\ binaries (fst (parse_config w config s)) = binaries s
     end.
Proof.
  destruct (config_file w config) as [| |doc] eqn:Hf.
  - rewrite parse_config_missing by assumption. simpl. intros H.
    apply (f_equal (@length event)) in H. rewrite length_app in H.
    simpl in H. lia.
  - rewrite parse_config_run by congruence. rewrite Hf. simpl. auto.
  - rewrite parse_config_run by congruence. rewrite Hf. simpl.
    destruct (getitem doc "label") as [label|e']; simpl.
    + intros H. apply app_inv_head in H.
      split; [reflexivity|]. repeat split.
      * apply kept_entries_made.
      * destruct (binaries_failure doc); [congruence | discriminate].
    + intros H. apply app_inv_head in H. injection H as ->. auto.
Qed.

(** *** The files a run leaves *)

Section Outputs.

Variable py_str : json -> string.
Variable w : env.
Variable a : cmdline.

Abbreviation pp := (packages_path_of w a).
Abbreviation run configs := (main_with py_str configs w a init_state).
Abbreviation collected configs :=
  (collect w (packages_path_of w a) configs
     (State [] [] [EvChdir (packages_path_of w a)])).

(** The trace of a run: the [chdir], the diagnostics of [collect], then the
    events of one rule of [after_collect]; the lists are those collected. *)
Lemma run_shape (configs : list string) :
  exists prints evs,
    Forall (fun ev => is_print ev = true) prints
    /\ trace (fst (collected configs)) = EvChdir pp :: prints
    /\ trace (fst (run configs)) = EvChdir pp :: prints ++ evs
    /\ labels (fst (run configs)) = labels (fst (collected configs))
    /\ binaries (fst (run configs)) = binaries (fst (collected configs))
    /\ match snd (collected configs) with
       | Raise e => evs = [] /\ snd (run configs) = Raise e
       | Ok _ =>
           after_collect py_str w a
             (labels (fst (collected configs)))
             (binaries (fst (collected configs))) evs (snd (run configs))
       end.
Proof.
  pose proof (main_with_cases py_str w a configs init_state) as H.
  destruct (collect_prints w pp configs (State [] [] [EvChdir pp]))
    as (prints & Etr & Hprints).
  simpl in H, Etr.
  destruct (collected configs) as [s1 [[]|e]]; simpl in *.
  - destruct H as (evs & r & -> & HAC). exists prints, evs. simpl.
    rewrite Etr. repeat split; try assumption.
  - rewrite H. exists prints, []. simpl. rewrite Etr, app_nil_r.
    repeat split; assumption.
Qed.

Lemma written_after_prefix (prints evs : list event) (p : string) :
  Forall (fun ev => is_print ev = true) prints ->
  written (EvChdir pp :: prints ++ evs) p = written_from None evs p.
Proof.
  intros H. unfold written. simpl. rewrite written_from_app.
  now rewrite (written_from_quiet _ _ _ (quiet_on_prints p prints H)).
Qed.

Ltac read_trace :=
  repeat first
    [ rewrite written_from_app
    | rewrite written_from_file_events
    | rewrite written_from_quiet
        by auto using manifest_not_build_gn, depfile_not_build_gn,
             depfile_not_manifest, not_eq_sym with quiet ].

Lemma after_collect_build_gn (L : list json) (B : list entry)
    (evs : list event) (r : result Z) :
  after_collect py_str w a L B evs r ->
  written_from None evs "BUILD.gn"
  = if open_w_ok w "BUILD.gn"
    then Some (if forallb (label_encodes py_str) L
               then cat (build_gn_chunks py_str L)
               else cat (build_gn_cut py_str L))
    else None.
Proof.
  destruct 1;
    repeat match goal with
           | H : open_w_ok w "BUILD.gn" = _ |- _ => rewrite H
           | H : forallb (label_encodes py_str) L = _ |- _ => rewrite H
           end;
    read_trace; reflexivity.
Qed.

Lemma after_collect_manifest (L : list json) (B : list entry)
    (evs : list event) (r : result Z) (c : string) :
  after_collect py_str w a L B evs r ->
  written_from None evs (manifest_of w a) = Some c ->
  c = cat (fst (manifest_chunks py_str (outdir_path_of w a) B)).
Proof.
  destruct 1; read_trace; try discriminate;
    match goal with H : manifest_chunks _ _ _ = _ |- _ => rewrite H end;
    simpl; congruence.
Qed.

Lemma after_collect_depfile (L : list json) (B : list entry)
    (evs : list event) (r : result Z) (c : string) :
  after_collect py_str w a L B evs r ->
  written_from None evs (depfile_of w a) = Some c ->
  c = cat (depfile_chunks py_str B)
  /\ snd (manifest_chunks py_str (outdir_path_of w a) B) = None.
Proof.
  destruct 1; read_trace; try discriminate.
  match goal with H : manifest_chunks _ _ _ = _ |- _ => rewrite H end.
  simpl. intros [= <-]. now split.
Qed.

Lemma build_gn_chunks_strings (ls : list string) :
  cat (build_gn_chunks py_str (map JStr ls)) = build_gn_text ls.
Proof.
  unfold build_gn_chunks, build_gn_text. rewrite map_map.
  change (map (fun x => build_gn_dep py_str (JStr x)) ls) with (map dep_line ls).
  change (cat (build_gn_head :: map dep_line ls ++ [build_gn_tail]))
    with (build_gn_head +:+ cat (map dep_line ls ++ [build_gn_tail])).
  rewrite cat_app.
  change (cat [build_gn_tail]) with (build_gn_tail +:+ "").
  rewrite append_nil_r. unfold build_gn_head, build_gn_tail.
  now rewrite !append_assoc.
Qed.

Lemma label_encodes_ascii (l : json) :
  label_encodes py_str l = ascii_label l.
Proof.
  destruct l; try reflexivity.
  unfold label_encodes, build_gn_dep. simpl.
  rewrite !is_ascii_append. simpl. now rewrite andb_true_r.
Qed.

Lemma labels_encode_ascii (L : list json) :
  forallb (label_encodes py_str) L = forallb ascii_label L.
Proof.
  induction L as [|l L IH]; simpl; [reflexivity|].
  now rewrite label_encodes_ascii, IH.
Qed.

Lemma labels_encode_strings (ls : list string) :
  forallb (label_encodes py_str) (map JStr ls) = forallb is_ascii ls.
Proof.
  rewrite labels_encode_ascii.
  induction ls as [|l ls IH]; simpl; [reflexivity|]. now rewrite IH.
Qed.

(** The manifest loop runs to its end exactly when the manifest takes
    every entry, and then it has written one line per entry. *)
Lemma manifest_chunks_takes (o : string) (B : list entry) :
  snd (manifest_chunks py_str o B) = None
  <-> forallb (manifest_takes py_str o) B = true.
Proof.
  induction B as [|b B IH]; simpl; [tauto|].
  unfold manifest_takes at 1, path_join.
  destruct (binary b) as [| | |p| |]; simpl; try (split; discriminate).
  destruct (posixpath.startswith_slash p || is_ascii o); simpl;
    [|split; discriminate].
  destruct (is_ascii _); simpl; [|split; discriminate].
  destruct (manifest_chunks py_str o B) as [lines r]; simpl in *.
  exact IH.
Qed.

Lemma manifest_takes_ascii (o : string) (b : BinaryEntry) :
  is_ascii o = true -> ascii_entry b = true ->
  manifest_takes py_str o (entry_of b) = true.
Proof.
  unfold ascii_entry, manifest_takes. simpl.
  intros Ho [Hb Hp]%andb_prop. rewrite Ho, orb_true_r. simpl.
  rewrite !is_ascii_append, Hp, (join2_ascii o _ Ho Hb). reflexivity.
Qed.

Lemma manifest_takes_all_ascii (o : string) (bs : list BinaryEntry) :
  is_ascii o = true -> forallb ascii_entry bs = true ->
  forallb (manifest_takes py_str o) (map entry_of bs) = true.
Proof.
  intros Ho. induction bs as [|b bs IH]; simpl; [reflexivity|].
  intros [Hb Hbs]%andb_prop.
  now rewrite (manifest_takes_ascii o b Ho Hb), (IH Hbs).
Qed.

Lemma manifest_chunks_strings (o : string) (bs : list BinaryEntry) :
  forallb (manifest_takes py_str o) (map entry_of bs) = true ->
  manifest_chunks py_str o (map entry_of bs) = (map (manifest_line o) bs, None).
Proof.
  induction bs as [|b bs IH]; simpl; [reflexivity|].
  unfold manifest_takes at 1, path_join. simpl.
  intros [Hb Hbs]%andb_prop. apply andb_prop in Hb as [Hjoin Hline].
  rewrite Hjoin. simpl in Hline. rewrite Hline, (IH Hbs). reflexivity.
Qed.

(** A manifest loop that ran to its end met only strings as [binary]. *)
Lemma manifest_chunks_paths (o : string) (B : list entry) :
  snd (manifest_chunks py_str o B) = None ->
  exists paths, map binary B = map JStr paths.
Proof.
  intros H. apply manifest_chunks_takes in H.
  induction B as [|b B IH]; simpl.
  - now exists [].
  - simpl in H. apply andb_prop in H as [Hb HB].
    unfold manifest_takes in Hb.
    destruct (binary b) as [| | |p| |] eqn:Eb; try discriminate.
    destruct (IH HB) as (paths & E). exists (p :: paths).
    simpl. now rewrite E.
Qed.

(** C1, as the script has it. For every list of successfully parsed
    configs whose labels are ASCII text, the [BUILD.gn] that a run writes is
    a group marked [testonly = true] whose [deps] start with
    ["//packages/mkbootfs"], then hold one quoted line per config with its
    label, in config-list order and with repetitions kept, and are closed
    after the last one; read back, the deps of the group are the bootstrap
    target followed by the labels. *)
Theorem build_gn_lists_labels_in_order (configs : list string)
    (ds : list PackageDescriptor) :
  map (loads w pp) configs = map Some ds ->
  forallb is_ascii (all_labels ds) = true ->
  open_w_ok w "BUILD.gn" = true ->
  written (trace (fst (run configs))) "BUILD.gn"
  = Some (build_gn_text (all_labels ds))
  /\ build_gn_text (all_labels ds)
     = nl +:+ "# NOTE: This file is auto-generated by gen.py. Do not edit by hand."
       +:+ nl +:+ nl
       +:+ "group(" +:+ dq +:+ "default" +:+ dq +:+ ") {" +:+ nl
       +:+ "  testonly = true" +:+ nl
       +:+ "  deps = [" +:+ nl
       +:+ "    " +:+ dq +:+ "//packages/mkbootfs" +:+ dq +:+ "," +:+ nl
       +:+ cat (map (fun label => nl +:+ "    " +:+ dq +:+ label +:+ dq +:+ ",")
                  (all_labels ds))
       +:+ nl +:+ "  ]" +:+ nl
       +:+ "}" +:+ nl
  /\ (forallb no_dq (all_labels ds) = true ->
      group_deps (build_gn_text (all_labels ds))
      = "//packages/mkbootfs" :: all_labels ds).
Proof.
  intros Hds Hascii Hopen.
  destruct (run_shape configs) as (prints & evs & Hp & _ & Htr & _ & _ & Hrest).
  rewrite (collect_valid w pp configs ds _ Hds) in Hrest. simpl in Hrest.
  split; [|split].
  - rewrite Htr, written_after_prefix by assumption.
    rewrite (after_collect_build_gn _ _ _ _ Hrest), Hopen.
    now rewrite labels_encode_strings, Hascii, build_gn_chunks_strings.
  - reflexivity.
  - apply group_deps_build_gn.
Qed.

(** C2, as the script has it. Whatever binaries were accumulated, as long
    as their paths and the path of the output directory are ASCII text, the
    manifest a run writes is one line per entry, in the order of the list,
    each [bootfs_path=P] with [P] the output directory joined with the
    entry's [binary]; the output directory is [--outdir], [out/Debug]
    when it is not given, under the parent of the directory of the
    script. *)
Theorem manifest_one_line_per_entry (configs : list string)
    (bs : list BinaryEntry) :
  binaries (fst (run configs)) = map entry_of bs ->
  written (trace (fst (run configs))) (manifest_of w a) <> None ->
  is_ascii (outdir_path_of w a) = true ->
  forallb ascii_entry bs = true ->
  written (trace (fst (run configs))) (manifest_of w a)
  = Some (manifest_text (outdir_path_of w a) bs)
  /\ manifest_text (outdir_path_of w a) bs
     = cat (map (fun b =>
                   be_bootfs_path b +:+ "="
                   +:+ posixpath.join (outdir_path_of w a) [be_binary b]
                   +:+ nl) bs)
  /\ outdir_path_of w a
     = posixpath.join
         (abspath w
            (posixpath.join
               (abspath w (posixpath.dirname (script_file a))) [".."]))
         [match outdir_arg a with Some o => o | None => "out/Debug" end].
Proof.
  intros HB Hwritten Ho Hbs. split; [|split; reflexivity].
  destruct (run_shape configs)
    as (prints & evs & Hp & _ & Htr & _ & HBc & Hrest).
  rewrite Htr, written_after_prefix in Hwritten |- * by assumption.
  destruct (snd (collected configs)).
  - destruct (written_from None evs (manifest_of w a)) as [c|] eqn:Hc;
      [|congruence].
    rewrite (after_collect_manifest _ _ _ _ _ Hrest Hc).
    rewrite <- HBc, HB, manifest_chunks_strings; [reflexivity|].
    now apply manifest_takes_all_ascii.
  - destruct Hrest as [-> _]. now simpl in Hwritten.
Qed.

(** C4, as the script has it. The depfile a run writes is the single line
    [user.bootfs: gen/packages/mkbootfs/user.bootfs.manifest] followed by
    the [binary] of every accumulated entry, each after one space, and a
    newline: the target is the boot image, and the first token after it is
    the manifest under its path from the output directory. *)
Theorem depfile_lists_manifest_then_binaries (configs : list string)
    (c : string) :
  written (trace (fst (run configs))) (depfile_of w a) = Some c ->
  (exists paths,
     map binary (binaries (fst (run configs))) = map JStr paths
     /\ c = "user.bootfs" +:+ ": " +:+ manifest_rel
            +:+ cat (map (fun p => " " +:+ p) paths) +:+ nl)
  /\ manifest_of w a = posixpath.join (outdir_path_of w a) [manifest_rel].
Proof.
  intros Hc. split.
  - destruct (run_shape configs)
      as (prints & evs & Hp & _ & Htr & _ & HBc & Hrest).
    rewrite Htr, written_after_prefix in Hc by assumption.
    destruct (snd (collected configs)).
    2:{ destruct Hrest as [-> _]. discriminate. }
    destruct (after_collect_depfile _ _ _ _ _ Hrest Hc) as [-> Hnone].
    destruct (manifest_chunks_paths _ _ Hnone) as (paths & Hpaths).
    exists paths. rewrite HBc. split; [exact Hpaths|].
    unfold depfile_chunks. simpl. rewrite cat_app. simpl.
    rewrite append_nil_r.
    change depfile_head with (("user.bootfs" +:+ ": ") +:+ manifest_rel).
    rewrite !append_assoc. do 4 f_equal.
    clear - Hpaths. revert paths Hpaths.
    induction (binaries (fst (collected configs))) as [|b B IH];
      intros [|p paths]; simpl; try discriminate; [reflexivity|].
    intros [= Hb HB]. rewrite Hb. simpl. now rewrite (IH _ HB).
  - unfold manifest_of, pkg_gen_dir_of, manifest_rel.
    rewrite <- join_manifest_rel. reflexivity.
Qed.

Lemma split_after_quiet (P : event -> bool) (front rest pre post : list event)
    (ev : event) :
  Forall (fun x => P x = false) front ->
  front ++ rest = pre ++ ev :: post ->
  P ev = true ->
  exists pre', pre = front ++ pre' /\ rest = pre' ++ ev :: post.
Proof.
  intros HF. revert pre. induction HF as [|x front Hx _ IH]; intros pre E Hev.
  - now exists pre.
  - destruct pre as [|y pre]; simpl in E; injection E as -> E.
    + congruence.
    + destruct (IH pre E Hev) as (pre' & -> & ->). now exists pre'.
Qed.

Lemma not_output_write (tr : list event) :
  quiet_on (manifest_of w a) tr ->
  quiet_on (depfile_of w a) tr ->
  Forall (fun ev => is_output_write w a ev = false) tr.
Proof.
  unfold quiet_on, is_output_write. induction 1 as [|ev tr Hm _ IH];
    intros Hd; constructor.
  - inversion Hd; subst. rewrite Hm. simpl. assumption.
  - apply IH. now inversion Hd.
Qed.

(** The events up to and including the directory step write neither the
    manifest nor the depfile. *)
Lemma front_not_output_write (prints : list event) (L : list json) :
  Forall (fun ev => is_print ev = true) prints ->
  Forall (fun ev => is_output_write w a ev = false)
    ((EvChdir pp :: prints ++ file_events "BUILD.gn" (build_gn_chunks py_str L))
     ++ dir_events w (pkg_gen_dir_of w a)).
Proof.
  intros Hp. apply not_output_write.
  - apply quiet_on_app; [|auto with quiet].
    constructor; [reflexivity|].
    apply quiet_on_app; auto using manifest_not_build_gn, not_eq_sym with quiet.
  - apply quiet_on_app; [|auto with quiet].
    constructor; [reflexivity|].
    apply quiet_on_app; auto using depfile_not_build_gn, not_eq_sym with quiet.
Qed.

Lemma in_dir_events_ready :
  dir_ready w (pkg_gen_dir_of w a) = true ->
  In (EvIsdir (pkg_gen_dir_of w a) (isdir w (pkg_gen_dir_of w a)))
     (dir_events w (pkg_gen_dir_of w a))
  /\ (isdir w (pkg_gen_dir_of w a) = false ->
      In (EvMakedirs (pkg_gen_dir_of w a)) (dir_events w (pkg_gen_dir_of w a))
      /\ makedirs_ok w (pkg_gen_dir_of w a) = true).
Proof.
  unfold dir_ready, dir_events. intros H. split; [now left|].
  intros Hno. rewrite Hno in *. simpl in *. split; [now right; left|exact H].
Qed.

(** A run stops before [BUILD.gn] is opened or while it writes it, or
    writes it whole and goes on to the directory step. *)
Lemma run_trace_parts (configs : list string) :
  exists prints,
    Forall (fun ev => is_print ev = true) prints
    /\ ((exists chunks,
           (trace (fst (run configs)) = EvChdir pp :: prints
            \/ trace (fst (run configs))
               = EvChdir pp :: prints ++ file_events "BUILD.gn" chunks)
           /\ exists e, snd (run configs) = Raise e)
        \/ exists rest,
             trace (fst (run configs))
             = (EvChdir pp :: prints
                ++ file_events "BUILD.gn"
                     (build_gn_chunks py_str (labels (fst (run configs)))))
               ++ dir_events w (pkg_gen_dir_of w a) ++ rest
             /\ (dir_ready w (pkg_gen_dir_of w a) = false ->
                 rest = []
                 /\ snd (run configs) = Raise (OSError (pkg_gen_dir_of w a)))).
Proof.
  destruct (run_shape configs)
    as (prints & evs & Hp & _ & Htr & HL & _ & Hrest).
  exists prints. split; [exact Hp|]. rewrite Htr, HL. clear Htr HL.
  destruct (snd (collected configs)).
  2:{ destruct Hrest as [-> Hr]. left. exists []. rewrite app_nil_r. eauto. }
  destruct Hrest.
  - left. exists []. rewrite app_nil_r. eauto.
  - left. eexists. split; [right; reflexivity | eauto].
  - right. exists []. rewrite app_nil_r. simpl. rewrite <- app_assoc.
    auto.
  - right. exists []. rewrite app_nil_r. simpl. rewrite <- app_assoc.
    split; [reflexivity | congruence].
  - right. eexists. simpl. rewrite <- !app_assoc.
    split; [reflexivity | congruence].
  - right. eexists. simpl. rewrite <- !app_assoc.
    split; [reflexivity | congruence].
  - right. eexists. simpl. rewrite <- !app_assoc.
    split; [reflexivity | congruence].
Qed.

(** C5, as the script has it. In every run the directory step, the
    [isdir] check of the output directory and its recursive creation when
    it is absent, comes before any write of the manifest or of the
    depfile; when the creation fails the run aborts and neither of the two
    was opened or written. [BUILD.gn], which goes to the directory of the
    script, is complete before the directory step. *)
Theorem outdir_made_before_manifest (configs : list string) :
  (forall pre ev post,
     trace (fst (run configs)) = pre ++ ev :: post ->
     is_output_write w a ev = true ->
     In (EvIsdir (pkg_gen_dir_of w a) (isdir w (pkg_gen_dir_of w a))) pre
     /\ (isdir w (pkg_gen_dir_of w a) = false ->
         In (EvMakedirs (pkg_gen_dir_of w a)) pre
         /\ makedirs_ok w (pkg_gen_dir_of w a) = true))
  /\ (dir_ready w (pkg_gen_dir_of w a) = false ->
      (exists e, snd (run configs) = Raise e)
      /\ Forall (fun ev => is_output_write w a ev = false)
           (trace (fst (run configs))))
  /\ (In (EvIsdir (pkg_gen_dir_of w a) (isdir w (pkg_gen_dir_of w a)))
        (trace (fst (run configs))) ->
      exists before after,
        trace (fst (run configs))
        = before ++ dir_events w (pkg_gen_dir_of w a) ++ after
        /\ written before "BUILD.gn"
           = Some (cat (build_gn_chunks py_str (labels (fst (run configs)))))).
Proof.
  destruct (run_trace_parts configs) as (prints & Hp & Hparts).
  pose proof (front_not_output_write prints
                (labels (fst (run configs))) Hp) as Hfront.
  assert (Hquiet : Forall (fun ev => is_output_write w a ev = false)
                     (EvChdir pp :: prints)).
  { apply not_output_write; (constructor; [reflexivity|]);
      now apply quiet_on_prints. }
  assert (Hcut : forall tr pre ev post,
             Forall (fun x => is_output_write w a x = false) tr ->
             tr = pre ++ ev :: post -> is_output_write w a ev = true -> False).
  { intros tr pre ev post HF -> Hev. apply Forall_app in HF as [_ HF].
    inversion HF; congruence. }
  assert (Hnodir : forall chunks,
             ~ In (EvIsdir (pkg_gen_dir_of w a) (isdir w (pkg_gen_dir_of w a)))
                 (EvChdir pp :: prints ++ file_events "BUILD.gn" chunks)).
  { intros chunks [H|H]; [discriminate|].
    apply in_app_or in H as [H|H].
    - clear - Hp H. induction Hp as [|x prints Hx _ IH]; [inversion H|].
      destruct H as [->|H]; [discriminate | auto].
    - destruct H as [H|H]; [discriminate|].
      apply in_map_iff in H as (c & H & _). discriminate. }
  destruct Hparts as [(chunks & [Htr|Htr] & Hraise) | (rest & Htr & Hfail)];
    rewrite Htr.
  - split; [|split].
    + intros pre ev post E Hev. destruct (Hcut _ _ _ _ Hquiet E Hev).
    + intros _. split; [exact Hraise | exact Hquiet].
    + intros [H|H]; [discriminate|]. exfalso.
      clear - Hp H. induction Hp as [|x prints Hx _ IH]; [inversion H|].
      destruct H as [->|H]; [discriminate | auto].
  - assert (Hq : Forall (fun ev => is_output_write w a ev = false)
                   (EvChdir pp :: prints ++ file_events "BUILD.gn" chunks)).
    { change (EvChdir pp :: prints ++ file_events "BUILD.gn" chunks)
        with ((EvChdir pp :: prints) ++ file_events "BUILD.gn" chunks).
      apply Forall_app. split; [exact Hquiet|].
      apply not_output_write;
        auto using manifest_not_build_gn, depfile_not_build_gn, not_eq_sym
          with quiet. }
    split; [|split].
    + intros pre ev post E Hev. destruct (Hcut _ _ _ _ Hq E Hev).
    + intros _. split; [exact Hraise | exact Hq].
    + intros H. destruct (Hnodir chunks H).
  - split; [|split].
    + intros pre ev post E Hev.
      rewrite app_assoc in E.
      destruct (split_after_quiet _ _ _ _ _ _ Hfront E Hev) as (pre' & -> & E').
      destruct (dir_ready w (pkg_gen_dir_of w a)) eqn:Hready.
      * destruct (in_dir_events_ready Hready) as [Hin Hmk].
        split.
        -- apply in_or_app. left. apply in_or_app. now right.
        -- intros Hno. destruct (Hmk Hno) as [Hin' Hok]. split; [|exact Hok].
           apply in_or_app. left. apply in_or_app. now right.
      * destruct (Hfail eq_refl) as [-> _]. now destruct pre'.
    + intros Hno. destruct (Hfail Hno) as [-> Hr]. split; [eauto|].
      rewrite app_nil_r. exact Hfront.
    + intros _. eexists _, rest. split; [reflexivity|].
      unfold written. simpl. rewrite written_from_app.
      now rewrite written_from_file_events.
Qed.

Lemma no_call_in_files (p : string) (chunks : list string) :
  Forall (fun ev => is_call ev = false) (file_events p chunks).
Proof.
  unfold file_events. constructor; [reflexivity|].
  induction chunks; constructor; auto.
Qed.

Lemma no_call_in_dir_events (dir : string) :
  Forall (fun ev => is_call ev = false) (dir_events w dir).
Proof. unfold dir_events. destruct (isdir w dir); repeat constructor. Qed.

Lemma no_call_in_prints (prints : list event) :
  Forall (fun ev => is_print ev = true) prints ->
  Forall (fun ev => is_call ev = false) prints.
Proof. induction 1 as [|[] ? ? ? ?]; constructor; auto; discriminate. Qed.

Lemma not_in_no_call (tr : list event) (argv : list string) :
  Forall (fun ev => is_call ev = false) tr -> ~ In (EvCall argv) tr.
Proof.
  induction 1 as [|x tr Hx _ IH]; intros Hin; [inversion Hin|].
  destruct Hin as [->|Hin]; [discriminate | auto].
Qed.

(** C8. In a run that reaches the call of [gn], the call is made once, with
    the fixed arguments, as the last thing the run does; the run returns 0,
    so the process exits with status 0, exactly when [gn] exits with status
    zero, and any other exit status is raised as [CalledProcessError] and
    left uncaught. *)
Theorem gn_status_decides_run (configs : list string) (argv : list string) :
  In (EvCall argv) (trace (fst (run configs))) ->
  argv = gn_argv w a
  /\ (exists before,
        trace (fst (run configs)) = before ++ [EvCall argv]
        /\ Forall (fun ev => is_call ev = false) before)
  /\ (snd (run configs) = Ok 0%Z <-> gn_result w argv = Exited 0)
  /\ (exit_status (snd (run configs)) = 0%Z <-> gn_result w argv = Exited 0)
  /\ (forall status,
        status <> 0%Z ->
        gn_result w argv = Exited status ->
        snd (run configs) = Raise (CalledProcessError status)).
Proof.
  destruct (run_shape configs)
    as (prints & evs & Hp & _ & Htr & _ & _ & Hrest).
  rewrite Htr. intros Hin.
  assert (Hpre : Forall (fun ev => is_call ev = false) (EvChdir pp :: prints))
    by (constructor; [reflexivity | now apply no_call_in_prints]).
  change (EvChdir pp :: prints ++ evs) with ((EvChdir pp :: prints) ++ evs)
    in Hin |- *.
  apply in_app_or in Hin as [Hin|Hin];
    [destruct (not_in_no_call _ _ Hpre Hin)|].
  destruct (snd (collected configs)).
  2:{ destruct Hrest as [-> _]. inversion Hin. }
  assert (Hquiet : forall tr, Forall (fun ev => is_call ev = false) tr ->
                              In (EvCall argv) tr -> False)
    by (intros tr HF; exact (not_in_no_call tr argv HF)).
  pose proof no_call_in_files as Hf. pose proof no_call_in_dir_events as Hd.
  destruct Hrest
    as [? | ? ? | ? ? ? | ? ? ? ? | lines0 e0 ? ? ? ? ? | lines0 ? ? ? ? ? ?
        | lines ? ? ? ? ? ?];
    try solve [inversion Hin];
    try (exfalso; refine (Hquiet _ _ Hin);
         solve [repeat first [ apply Forall_app; split | apply Hf | apply Hd ]]).
  assert (Hbefore : Forall (fun ev => is_call ev = false)
            (file_events "BUILD.gn"
               (build_gn_chunks py_str (labels (fst (collected configs))))
             ++ dir_events w (pkg_gen_dir_of w a)
             ++ file_events (manifest_of w a) lines
             ++ file_events (depfile_of w a)
                  (depfile_chunks py_str (binaries (fst (collected configs))))))
    by (repeat first [ apply Forall_app; split | apply Hf | apply Hd ]).
  rewrite !app_assoc in Hin. apply in_app_or in Hin as [Hin|Hin].
  { rewrite <- !app_assoc in Hin. destruct (Hquiet _ Hbefore Hin). }
  destruct Hin as [[= <-]|[]].
  split; [reflexivity|]. split; [|split; [|split]].
  - exists ((EvChdir pp :: prints)
            ++ file_events "BUILD.gn"
                 (build_gn_chunks py_str (labels (fst (collected configs))))
            ++ dir_events w (pkg_gen_dir_of w a)
            ++ file_events (manifest_of w a) lines
            ++ file_events (depfile_of w a)
                 (depfile_chunks py_str (binaries (fst (collected configs))))).
    split.
    + now rewrite <- !app_assoc.
    + apply Forall_app. now split.
  - unfold call_result.
    destruct (gn_result w (gn_argv w a)) as [|[| |]]; split; congruence.
  - unfold call_result.
    destruct (gn_result w (gn_argv w a)) as [|[| |]]; simpl;
      split; congruence.
  - intros status Hne Hg. rewrite Hg. unfold call_result.
    destruct status; congruence.
Qed.

Lemma depfile_chunks_strings (bs : list BinaryEntry) :
  cat (depfile_chunks py_str (map entry_of bs)) = depfile_text bs.
Proof.
  unfold depfile_chunks, depfile_text. rewrite map_map.
  change (cat (depfile_head :: ?x)) with (depfile_head +:+ cat x).
  rewrite cat_app.
  change (cat [nl]) with (nl +:+ ""). now rewrite append_nil_r.
Qed.

(** With every file writable, the directory ready and nothing that stops
    the two loops, a run goes all the way to the call. *)
Lemma after_collect_called (L : list json) (B : list entry)
    (evs : list event) (r : result Z) :
  after_collect py_str w a L B evs r ->
  open_w_ok w "BUILD.gn" = true ->
  forallb (label_encodes py_str) L = true ->
  dir_ready w (pkg_gen_dir_of w a) = true ->
  open_w_ok w (manifest_of w a) = true ->
  open_w_ok w (depfile_of w a) = true ->
  snd (manifest_chunks py_str (outdir_path_of w a) B) = None ->
  evs = file_events "BUILD.gn" (build_gn_chunks py_str L)
        ++ dir_events w (pkg_gen_dir_of w a)
        ++ file_events (manifest_of w a)
             (fst (manifest_chunks py_str (outdir_path_of w a) B))
        ++ file_events (depfile_of w a) (depfile_chunks py_str B)
        ++ [EvCall (gn_argv w a)]
  /\ r = call_result (gn_argv w a) (gn_result w (gn_argv w a)).
Proof.
  intros HAC Hgn HL Hdir Hm Hd Hw.
  destruct HAC; try congruence.
  - match goal with H : manifest_chunks _ _ _ = _ |- _ => rewrite H in Hw end.
    discriminate.
  - match goal with H : manifest_chunks _ _ _ = _ |- _ => rewrite H end.
    now split.
Qed.

Lemma full_run_outputs (configs : list string) (ls : list string)
    (bs : list BinaryEntry) :
  labels (fst (collected configs)) = map JStr ls ->
  binaries (fst (collected configs)) = map entry_of bs ->
  snd (collected configs) = Ok tt ->
  forallb is_ascii ls = true ->
  forallb (manifest_takes py_str (outdir_path_of w a)) (map entry_of bs) = true ->
  open_w_ok w "BUILD.gn" = true ->
  dir_ready w (pkg_gen_dir_of w a) = true ->
  open_w_ok w (manifest_of w a) = true ->
  open_w_ok w (depfile_of w a) = true ->
  written (trace (fst (run configs))) "BUILD.gn" = Some (build_gn_text ls)
  /\ written (trace (fst (run configs))) (manifest_of w a)
     = Some (manifest_text (outdir_path_of w a) bs)
  /\ written (trace (fst (run configs))) (depfile_of w a)
     = Some (depfile_text bs).
Proof.
  intros HL HB Hok Hls Hbs Hgn Hdir Hm Hd.
  destruct (run_shape configs) as (prints & evs & Hp & _ & Htr & _ & _ & Hrest).
  rewrite Hok, HL, HB in Hrest.
  destruct (after_collect_called _ _ _ _ Hrest Hgn) as [-> _];
    try assumption.
  { now rewrite labels_encode_strings. }
  { now rewrite manifest_chunks_strings. }
  rewrite Htr, !written_after_prefix by assumption.
  rewrite manifest_chunks_strings by assumption. simpl fst.
  repeat split; read_trace;
    now rewrite ?build_gn_chunks_strings, ?depfile_chunks_strings.
Qed.

Lemma collect_app (xs ys : list string) (s : state) :
  collect w pp (xs ++ ys) s
  = (collect w pp xs ;; collect w pp ys) s.
Proof. unfold collect. apply for_each_app. Qed.

Lemma collect_around_bad_json (before after : list string) (bad : string)
    (ds1 ds2 : list PackageDescriptor) (s : state) :
  config_file w (config_path pp bad) = BadJson ->
  map (loads w pp) before = map Some ds1 ->
  map (loads w pp) after = map Some ds2 ->
  collect w pp (before ++ bad :: after) s
  = (State (labels s ++ map JStr (all_labels (ds1 ++ ds2)))
       (binaries s ++ map entry_of (all_binaries (ds1 ++ ds2)))
       (trace s ++ [EvPrintFailed (config_path pp bad) ValueError]),
     Ok tt).
Proof.
  intros Hbad H1 H2. rewrite collect_app, bind_run.
  rewrite (collect_valid w pp before ds1 s H1).
  unfold collect at 1. cbn [for_each]. rewrite bind_run.
  fold (config_path pp bad).
  rewrite (parse_config_bad_json w _ _ Hbad).
  fold (collect w pp after). rewrite (collect_valid w pp after ds2 _ H2).
  unfold add, all_labels, all_binaries. simpl.
  rewrite flat_map_app, !map_app, <- !app_assoc. reflexivity.
Qed.

(** C6, as the script has it. When one config is not valid JSON and the
    others are well formed and hold ASCII text only, in a tree whose output
    directory has an ASCII path, the three files hold the labels and
    binaries of the others, in order, and nothing else: they are the files
    of a run that never had the invalid config in its list. *)
Theorem bad_json_config_skipped (before after : list string) (bad : string)
    (ds1 ds2 : list PackageDescriptor) :
  config_file w (config_path pp bad) = BadJson ->
  map (loads w pp) before = map Some ds1 ->
  map (loads w pp) after = map Some ds2 ->
  forallb is_ascii (all_labels (ds1 ++ ds2)) = true ->
  forallb ascii_entry (all_binaries (ds1 ++ ds2)) = true ->
  is_ascii (outdir_path_of w a) = true ->
  open_w_ok w "BUILD.gn" = true ->
  dir_ready w (pkg_gen_dir_of w a) = true ->
  open_w_ok w (manifest_of w a) = true ->
  open_w_ok w (depfile_of w a) = true ->
  (written (trace (fst (run (before ++ bad :: after)))) "BUILD.gn"
   = Some (build_gn_text (all_labels (ds1 ++ ds2)))
   /\ written (trace (fst (run (before ++ bad :: after)))) (manifest_of w a)
      = Some (manifest_text (outdir_path_of w a) (all_binaries (ds1 ++ ds2)))
   /\ written (trace (fst (run (before ++ bad :: after)))) (depfile_of w a)
      = Some (depfile_text (all_binaries (ds1 ++ ds2))))
  /\ (forall p,
        In p ["BUILD.gn"; manifest_of w a; depfile_of w a] ->
        written (trace (fst (run (before ++ bad :: after)))) p
        = written (trace (fst (run (before ++ after)))) p).
Proof.
  intros Hbad H1 H2 Hls Hbs Ho Hgn Hdir Hm Hd.
  pose proof (manifest_takes_all_ascii _ _ Ho Hbs) as Htakes.
  assert (Hwith :
    written (trace (fst (run (before ++ bad :: after)))) "BUILD.gn"
    = Some (build_gn_text (all_labels (ds1 ++ ds2)))
    /\ written (trace (fst (run (before ++ bad :: after)))) (manifest_of w a)
       = Some (manifest_text (outdir_path_of w a) (all_binaries (ds1 ++ ds2)))
    /\ written (trace (fst (run (before ++ bad :: after)))) (depfile_of w a)
       = Some (depfile_text (all_binaries (ds1 ++ ds2)))).
  { apply full_run_outputs; try assumption;
      now rewrite (collect_around_bad_json _ _ _ _ _ _ Hbad H1 H2). }
  assert (Hwithout :
    written (trace (fst (run (before ++ after)))) "BUILD.gn"
    = Some (build_gn_text (all_labels (ds1 ++ ds2)))
    /\ written (trace (fst (run (before ++ after)))) (manifest_of w a)
       = Some (manifest_text (outdir_path_of w a) (all_binaries (ds1 ++ ds2)))
    /\ written (trace (fst (run (before ++ after)))) (depfile_of w a)
       = Some (depfile_text (all_binaries (ds1 ++ ds2)))).
  { assert (map (loads w pp) (before ++ after) = map Some (ds1 ++ ds2)) as H
      by now rewrite !map_app, H1, H2.
    apply full_run_outputs; try assumption;
      now rewrite (collect_valid w pp _ _ _ H). }
  split; [exact Hwith|].
  destruct Hwith as (G1 & G2 & G3), Hwithout as (G1' & G2' & G3').
  intros p [<-|[<-|[<-|[]]]]; congruence.
Qed.

Lemma after_collect_other (L : list json) (B : list entry)
    (evs : list event) (r : result Z) (p : string) :
  after_collect py_str w a L B evs r ->
  p <> "BUILD.gn" -> p <> manifest_of w a -> p <> depfile_of w a ->
  quiet_on p evs.
Proof.
  intros HAC H1 H2 H3.
  destruct HAC; try (now constructor);
    repeat apply quiet_on_app; auto using not_eq_sym with quiet.
Qed.

(** Whatever a run wrote to a file is decided by the lists it collected. *)
Lemma written_expected (configs : list string) (p c : string) :
  written (trace (fst (run configs))) p = Some c ->
  c = expected_content py_str w a
        (labels (fst (collected configs)))
        (binaries (fst (collected configs))) p.
Proof.
  destruct (run_shape configs) as (prints & evs & Hp & _ & Htr & _ & _ & Hrest).
  rewrite Htr, written_after_prefix by assumption.
  destruct (snd (collected configs)).
  2:{ destruct Hrest as [-> _]. discriminate. }
  unfold expected_content. intros Hc.
  destruct (String.eqb_spec p (depfile_of w a)) as [->|Hd].
  { now destruct (after_collect_depfile _ _ _ _ _ Hrest Hc). }
  destruct (String.eqb_spec p (manifest_of w a)) as [->|Hm].
  { exact (after_collect_manifest _ _ _ _ _ Hrest Hc). }
  destruct (String.eqb_spec p "BUILD.gn") as [->|Hgn].
  - rewrite (after_collect_build_gn _ _ _ _ Hrest) in Hc.
    destruct (open_w_ok w "BUILD.gn"); [|discriminate].
    injection Hc as <-. now destruct (forallb _ _).
  - rewrite (written_from_quiet _ _ _
               (after_collect_other _ _ _ _ p Hrest Hgn Hm Hd)) in Hc.
    discriminate.
Qed.

(** A run that reached the call of [gn] has written all three files. *)
Lemma called_run_wrote (configs : list string) (argv : list string) (p : string) :
  In (EvCall argv) (trace (fst (run configs))) ->
  In p ["BUILD.gn"; manifest_of w a; depfile_of w a] ->
  written (trace (fst (run configs))) p <> None.
Proof.
  destruct (run_shape configs) as (prints & evs & Hp & _ & Htr & _ & _ & Hrest).
  rewrite Htr, written_after_prefix by assumption.
  intros Hin.
  assert (Hpre : Forall (fun ev => is_call ev = false) (EvChdir pp :: prints))
    by (constructor; [reflexivity | now apply no_call_in_prints]).
  change (EvChdir pp :: prints ++ evs) with ((EvChdir pp :: prints) ++ evs) in Hin.
  apply in_app_or in Hin as [Hin|Hin];
    [destruct (not_in_no_call _ _ Hpre Hin)|].
  destruct (snd (collected configs)).
  2:{ destruct Hrest as [-> _]. inversion Hin. }
  pose proof no_call_in_files as Hf. pose proof no_call_in_dir_events as Hd.
  destruct Hrest
    as [? | ? ? | ? ? ? | ? ? ? ? | lines0 e0 ? ? ? ? ? | lines0 ? ? ? ? ? ?
        | lines ? ? ? ? ? ?];
    try solve [inversion Hin];
    try (exfalso; refine (not_in_no_call _ argv _ Hin);
         solve [repeat first [ apply Forall_app; split | apply Hf | apply Hd ]]).
  intros [<-|[<-|[<-|[]]]]; read_trace; discriminate.
Qed.

End Outputs.

(** *** Running again *)

Lemma fs_after_lookup (fs : gmap string string) (tr : list event) (p : string) :
  fs_after fs tr !! p = written_from (fs !! p) tr p.
Proof.
  unfold fs_after. revert fs. induction tr as [|ev tr IH]; intros fs;
    [reflexivity|].
  simpl. rewrite IH. destruct ev as [| |q|q chunk| | |]; simpl;
    try reflexivity.
  - destruct (String.eqb_spec q p) as [->|Hne].
    + now rewrite lookup_insert_eq.
    + now rewrite lookup_insert_ne.
  - destruct (String.eqb_spec q p) as [->|Hne].
    + destruct (fs !! p) as [old|] eqn:Hold.
      * now rewrite lookup_insert_eq.
      * now rewrite Hold.
    + destruct (fs !! q) as [old|]; [|reflexivity].
      now rewrite lookup_insert_ne.
Qed.

(** A file the trace opened holds what was written since, whatever it held
    before. *)
Lemma written_from_opened (acc : option string) (tr : list event)
    (p c : string) :
  written_from None tr p = Some c -> written_from acc tr p = Some c.
Proof.
  assert (H : forall tr acc,
             written_from None tr p = None
             \/ written_from acc tr p = written_from None tr p).
  { clear. induction tr as [|ev tr IH]; intros acc.
    - now left.
    - destruct ev as [| |q|q chunk| | |]; simpl; try apply IH.
      + destruct (String.eqb q p); [now right | apply IH].
      + destruct (String.eqb q p); [|apply IH].
        destruct acc as [old|]; [apply IH | now right]. }
  intros Hc. destruct (H tr acc) as [Hn|He]; congruence.
Qed.

Section Rerun.

Variable py_str : json -> string.

Lemma same_paths (w1 w2 : env) (a : cmdline) :
  (forall p, abspath w1 p = abspath w2 p) ->
  packages_path_of w1 a = packages_path_of w2 a
  /\ outdir_path_of w1 a = outdir_path_of w2 a
  /\ manifest_of w1 a = manifest_of w2 a
  /\ depfile_of w1 a = depfile_of w2 a.
Proof.
  intros H.
  assert (packages_path_of w1 a = packages_path_of w2 a) as Hpp
    by apply H.
  assert (outdir_path_of w1 a = outdir_path_of w2 a) as Ho.
  { unfold outdir_path_of, base_path_of. now rewrite Hpp, H. }
  unfold manifest_of, depfile_of, pkg_gen_dir_of. now rewrite Ho.
Qed.

(** C7. Two runs with the same command line, the same working directory
    and the same contents of the config files write the same bytes to every
    file that both write, whatever else differs between them (the output
    directory may exist by the second run, [gn] may end otherwise). Run one
    after the other, the second leaves such a file as the first left it;
    and two runs that both reach the call of [gn] have both written
    [BUILD.gn], the manifest and the depfile. *)
Theorem rerun_writes_same_bytes (w1 w2 : env) (a : cmdline)
    (configs : list string) :
  (forall p, abspath w1 p = abspath w2 p) ->
  (forall c, In c configs ->
             config_file w1 (config_path (packages_path_of w1 a) c)
             = config_file w2 (config_path (packages_path_of w1 a) c)) ->
  (forall p c1 c2,
     written (trace (fst (main_with py_str configs w1 a init_state))) p = Some c1 ->
     written (trace (fst (main_with py_str configs w2 a init_state))) p = Some c2 ->
     c1 = c2
     /\ forall fs : gmap string string,
          fs_after
            (fs_after fs (trace (fst (main_with py_str configs w1 a init_state))))
            (trace (fst (main_with py_str configs w2 a init_state))) !! p
          = fs_after fs (trace (fst (main_with py_str configs w1 a init_state)))
              !! p)
  /\ (forall argv1 argv2 p,
        In (EvCall argv1) (trace (fst (main_with py_str configs w1 a init_state))) ->
        In (EvCall argv2) (trace (fst (main_with py_str configs w2 a init_state))) ->
        In p ["BUILD.gn"; manifest_of w1 a; depfile_of w1 a] ->
        exists c,
          written (trace (fst (main_with py_str configs w1 a init_state))) p = Some c
          /\ written (trace (fst (main_with py_str configs w2 a init_state))) p
             = Some c).
Proof.
  intros Habs Hfiles.
  destruct (same_paths w1 w2 a Habs) as (Hpp & Ho & Hm & Hd).
  assert (Hsame : forall p c1 c2,
    written (trace (fst (main_with py_str configs w1 a init_state))) p = Some c1 ->
    written (trace (fst (main_with py_str configs w2 a init_state))) p = Some c2 ->
    c1 = c2).
  { intros p c1 c2 H1 H2.
    apply written_expected in H1. apply written_expected in H2.
    rewrite H1, H2. rewrite <- Hpp.
    rewrite <- (collect_same_files w1 w2 _ _ _ Hfiles).
    unfold expected_content. now rewrite Hm, Hd, Ho. }
  split.
  - intros p c1 c2 H1 H2. split; [exact (Hsame p c1 c2 H1 H2)|].
    intros fs. rewrite !fs_after_lookup.
    rewrite (written_from_opened _ _ _ _ H2).
    rewrite (written_from_opened _ _ _ _ H1).
    f_equal. symmetry. exact (Hsame p c1 c2 H1 H2).
  - intros argv1 argv2 p Hc1 Hc2 Hp.
    pose proof (called_run_wrote py_str w1 a configs argv1 p Hc1 Hp) as N1.
    assert (Hp2 : In p ["BUILD.gn"; manifest_of w2 a; depfile_of w2 a])
      by now rewrite <- Hm, <- Hd.
    pose proof (called_run_wrote py_str w2 a configs argv2 p Hc2 Hp2) as N2.
    destruct (written _ p) as [c1|] eqn:E1; [|congruence].
    destruct (written (trace (fst (main_with py_str configs w2 a init_state))) p)
      as [c2|] eqn:E2; [|congruence].
    exists c1. split; [reflexivity|]. f_equal. symmetry.
    exact (Hsame p c1 c2 E1 E2).
Qed.

End Rerun.

(** *** The sample tree, run *)

(** C1 on the tree with four well-formed configs: [//a] is listed twice. *)
Lemma build_gn_lists_labels_in_order_witness :
  written
    (trace (fst (main sample_str (sample_world full_tree false true (Exited 0))
                   sample_cmdline init_state)))
    "BUILD.gn"
  = Some (build_gn_text ["//a"; "//apps/ftl"; "//a"; "//lib/mtl"])
  /\ group_deps (build_gn_text ["//a"; "//apps/ftl"; "//a"; "//lib/mtl"])
     = ["//packages/mkbootfs"; "//a"; "//apps/ftl"; "//a"; "//lib/mtl"].
Proof.
  destruct (build_gn_lists_labels_in_order sample_str
              (sample_world full_tree false true (Exited 0)) sample_cmdline
              package_configs [pkg_a; pkg_ftl; pkg_mojo; pkg_mtl]
              eq_refl eq_refl eq_refl) as (H1 & _ & H3).
  split; [exact H1 | exact (H3 eq_refl)].
Defined.

(** C1 fails on a tree one of whose labels holds an accented letter: the
    write of its line raises [UnicodeEncodeError], the run ends there, and
    [BUILD.gn] is left with the deps before it, two of the five, and
    without its closing. *)
Lemma non_ascii_label_cuts_build_gn :
  snd (main sample_str (sample_world accent_tree true true (Exited 0))
         sample_cmdline init_state)
  = Raise UnicodeEncodeError
  /\ written
       (trace (fst (main sample_str
                      (sample_world accent_tree true true (Exited 0))
                      sample_cmdline init_state)))
       "BUILD.gn"
     = Some (build_gn_head +:+ dep_line "//a")
  /\ group_deps (build_gn_head +:+ dep_line "//a")
     = ["//packages/mkbootfs"; "//a"]
  /\ ~ lists_every_label sample_str
        (sample_world accent_tree true true (Exited 0)) sample_cmdline
        package_configs [pkg_a; pkg_cafe; pkg_mojo; pkg_mtl].
Proof.
  split; [vm_compute; reflexivity|].
  split; [vm_compute; reflexivity|].
  split; [vm_compute; reflexivity|].
  intros H. specialize (H eq_refl eq_refl). vm_compute in H. discriminate.
Qed.

(** C2 on the example of the spec: one config, label [//a], binary
    [a.bin] at [bin/a]. *)
Lemma manifest_one_line_per_entry_witness :
  written
    (trace (fst (main sample_str (sample_world lone_tree false true (Exited 0))
                   sample_cmdline init_state)))
    "/fuchsia/out/Debug/gen/packages/mkbootfs/user.bootfs.manifest"
  = Some ("bin/a=/fuchsia/out/Debug/a.bin" +:+ nl).
Proof.
  refine (proj1 (manifest_one_line_per_entry sample_str
                   (sample_world lone_tree false true (Exited 0)) sample_cmdline
                   package_configs [MkBinaryEntry "a.bin" "bin/a"] _ _ _ _)).
  - vm_compute. reflexivity.
  - vm_compute. discriminate.
  - vm_compute. reflexivity.
  - vm_compute. reflexivity.
Defined.

(** C2 fails on a tree one of whose binaries holds an accented letter: the
    write of its line raises [UnicodeEncodeError] and the manifest is left
    with the one line before it. It fails on the example of the spec too
    when the output directory is given with an accented letter: joining it
    with [a.bin] raises [UnicodeDecodeError] and the manifest is left
    empty. *)
Lemma non_ascii_path_cuts_manifest :
  written
    (trace (fst (main sample_str (sample_world menu_tree true true (Exited 0))
                   sample_cmdline init_state)))
    (manifest_of (sample_world menu_tree true true (Exited 0)) sample_cmdline)
  = Some ("bin/a=/fuchsia/out/Debug/a.bin" +:+ nl)
  /\ ~ one_line_per_entry sample_str
        (sample_world menu_tree true true (Exited 0)) sample_cmdline
        package_configs
        (MkBinaryEntry "a.bin" "bin/a" :: pd_binaries pkg_menu)
  /\ snd (main sample_str (sample_world lone_tree true true (Exited 0))
            (Cmdline "/fuchsia/packages/gen.py" (Some ("out/D" +:+ e_acute +:+ "bug")))
            init_state)
     = Raise UnicodeDecodeError
  /\ ~ one_line_per_entry sample_str
        (sample_world lone_tree true true (Exited 0))
        (Cmdline "/fuchsia/packages/gen.py" (Some ("out/D" +:+ e_acute +:+ "bug")))
        package_configs [MkBinaryEntry "a.bin" "bin/a"].
Proof.
  split; [vm_compute; reflexivity|].
  split.
  { intros H.
    assert (E := H ltac:(vm_compute; reflexivity) ltac:(vm_compute; discriminate)).
    vm_compute in E. discriminate. }
  split; [vm_compute; reflexivity|].
  intros H.
  assert (E := H ltac:(vm_compute; reflexivity) ltac:(vm_compute; discriminate)).
  vm_compute in E. discriminate.
Qed.

(** C3 fails on a config that has a label and no ["binaries"]: the parse
    is reported as failed and the label stays in the list. *)
Lemma failed_parse_keeps_label :
  ~ failure_leaves_lists (sample_world broken_tree true true (Exited 0))
      "/fuchsia/packages/mojo" init_state.
Proof.
  unfold failure_leaves_lists. intros H.
  destruct H as [HL _].
  - exists (KeyError "binaries"). vm_compute. reflexivity.
  - vm_compute in HL. discriminate.
Qed.

(** The amended C3 on a config whose second entry lacks ["bootfs_path"]:
    the label and the first entry stay. *)
Lemma failed_parse_effect_witness :
  labels (fst (parse_config (sample_world broken_tree true true (Exited 0))
                 "/fuchsia/packages/mtl" init_state))
  = [JStr "//t"]
  /\ binaries (fst (parse_config (sample_world broken_tree true true (Exited 0))
                      "/fuchsia/packages/mtl" init_state))
     = [Entry (JStr "t.bin") (JStr "bin/t")]
  /\ snd (parse_config (sample_world broken_tree true true (Exited 0))
            "/fuchsia/packages/mtl" init_state)
     = Ok tt.
Proof.
  destruct (failed_parse_effect (sample_world broken_tree true true (Exited 0))
              "/fuchsia/packages/mtl" init_state (KeyError "bootfs_path")
              eq_refl) as [Hok Hrest].
  simpl in Hrest. destruct Hrest as (HL & HB & _ & _).
  split; [exact HL | split; [exact HB | exact Hok]].
Defined.

(** C4 fails on the example of the spec: the line starts with
    [user.bootfs] and the manifest comes right after the colon, so
    whatever is taken for the target, no name of the script follows it. *)
Lemma depfile_names_no_script :
  written
    (trace (fst (main sample_str (sample_world lone_tree false true (Exited 0))
                   sample_cmdline init_state)))
    (depfile_of (sample_world lone_tree false true (Exited 0)) sample_cmdline)
  = Some ("user.bootfs: gen/packages/mkbootfs/user.bootfs.manifest a.bin" +:+ nl)
  /\ ~ depfile_as_specified sample_cmdline
         ("user.bootfs: gen/packages/mkbootfs/user.bootfs.manifest a.bin" +:+ nl)
         ["a.bin"].
Proof.
  split; [vm_compute; reflexivity|].
  intros (target & script & Hs & E).
  pose proof (f_equal (drop (String.length target)) E) as Hdrop.
  rewrite drop_append in Hdrop.
  apply (f_equal String.length) in E.
  vm_compute in Hs.
  destruct Hs as [<-|[<-|[]]];
    repeat (rewrite append_length in E || simpl in E);
    [ assert (String.length target = 29) as Hlen by lia
    | assert (String.length target = 47) as Hlen by lia ];
    rewrite Hlen in Hdrop; vm_compute in Hdrop; discriminate.
Qed.

(** The amended C4 on the same run. *)
Lemma depfile_lists_manifest_then_binaries_witness :
  (exists paths,
     map binary
       (binaries (fst (main sample_str
                         (sample_world lone_tree false true (Exited 0))
                         sample_cmdline init_state)))
     = map JStr paths
     /\ "user.bootfs: gen/packages/mkbootfs/user.bootfs.manifest a.bin" +:+ nl
        = "user.bootfs" +:+ ": " +:+ manifest_rel
          +:+ cat (map (fun p => " " +:+ p) paths) +:+ nl)
  /\ manifest_of (sample_world lone_tree false true (Exited 0)) sample_cmdline
     = posixpath.join
         (outdir_path_of (sample_world lone_tree false true (Exited 0))
            sample_cmdline)
         [manifest_rel].
Proof.
  apply (depfile_lists_manifest_then_binaries sample_str
           (sample_world lone_tree false true (Exited 0)) sample_cmdline
           package_configs).
  vm_compute. reflexivity.
Defined.

(** C5 fails when the output directory is absent and cannot be made:
    the run aborts, and [BUILD.gn] was opened and written before. *)
Lemma build_gn_written_before_mkdir :
  ~ writes_wait_for_dir (sample_world full_tree false false (Exited 0))
      sample_cmdline
      (main sample_str (sample_world full_tree false false (Exited 0))
         sample_cmdline init_state).
Proof.
  intros [_ H]. specialize (H eq_refl eq_refl). vm_compute in H.
  inversion H as [|? ? _ H']. inversion H' as [|? ? Hbad _]. discriminate.
Qed.

(** C6 on the tree whose [ftl] is not JSON. *)
Lemma bad_json_config_skipped_witness :
  written
    (trace (fst (main sample_str (sample_world one_bad_tree false true (Exited 0))
                   sample_cmdline init_state)))
    "BUILD.gn"
  = Some (build_gn_text ["//a"; "//a"; "//lib/mtl"])
  /\ written
       (trace (fst (main sample_str
                      (sample_world one_bad_tree false true (Exited 0))
                      sample_cmdline init_state)))
       "/fuchsia/out/Debug/gen/packages/mkbootfs/user.bootfs.manifest"
     = Some ("bin/a=/fuchsia/out/Debug/a.bin" +:+ nl
             +:+ "bin/mtl=/fuchsia/out/Debug/a.bin" +:+ nl)
  /\ written
       (trace (fst (main sample_str
                      (sample_world one_bad_tree false true (Exited 0))
                      sample_cmdline init_state)))
       "/fuchsia/out/Debug/gen/packages/mkbootfs/user.bootfs.d"
     = Some ("user.bootfs: gen/packages/mkbootfs/user.bootfs.manifest a.bin a.bin"
             +:+ nl).
Proof.
  refine (proj1 (bad_json_config_skipped sample_str
                   (sample_world one_bad_tree false true (Exited 0))
                   sample_cmdline ["fortune"] ["mojo"; "mtl"] "ftl"
                   [pkg_a] [pkg_mojo; pkg_mtl] _ _ _ _ _ _ _ _ _ _));
    vm_compute; reflexivity.
Defined.

(** C6 fails on a tree whose [ftl] is not JSON and whose [mtl], well
    formed, has a label with an accented letter: the run ends with
    [UnicodeEncodeError] while it writes [BUILD.gn], which lacks that
    label, and the manifest and the depfile are never opened, so the
    binaries of the well-formed configs are in neither. *)
Lemma non_ascii_label_beside_bad_json :
  snd (main sample_str (sample_world accent_bad_tree true true (Exited 0))
         sample_cmdline init_state)
  = Raise UnicodeEncodeError
  /\ written
       (trace (fst (main sample_str
                      (sample_world accent_bad_tree true true (Exited 0))
                      sample_cmdline init_state)))
       (manifest_of (sample_world accent_bad_tree true true (Exited 0))
          sample_cmdline)
     = None
  /\ ~ others_all_written sample_str
        (sample_world accent_bad_tree true true (Exited 0)) sample_cmdline
        ["fortune"] "ftl" ["mojo"; "mtl"] [pkg_a] [pkg_mojo; pkg_cafe].
Proof.
  split; [vm_compute; reflexivity|].
  split; [vm_compute; reflexivity|].
  intros H.
  destruct (H eq_refl eq_refl eq_refl eq_refl eq_refl eq_refl eq_refl)
    as (_ & E & _).
  vm_compute in E. discriminate.
Qed.

(** C7 on a first run that makes the output directory and a second that
    finds it there and whose [gn] fails: both write the same manifest. *)
Lemma rerun_writes_same_bytes_witness :
  exists c,
    written
      (trace (fst (main sample_str (sample_world full_tree false true (Exited 0))
                     sample_cmdline init_state)))
      "/fuchsia/out/Debug/gen/packages/mkbootfs/user.bootfs.manifest"
    = Some c
    /\ written
         (trace (fst (main sample_str
                        (sample_world full_tree true true (Exited 1))
                        sample_cmdline init_state)))
         "/fuchsia/out/Debug/gen/packages/mkbootfs/user.bootfs.manifest"
       = Some c.
Proof.
  refine (proj2 (rerun_writes_same_bytes sample_str
                   (sample_world full_tree false true (Exited 0))
                   (sample_world full_tree true true (Exited 1))
                   sample_cmdline package_configs _ _)
            (gn_argv (sample_world full_tree false true (Exited 0)) sample_cmdline)
            (gn_argv (sample_world full_tree true true (Exited 1)) sample_cmdline)
            _ _ _ _).
  - intros p. reflexivity.
  - intros c _. reflexivity.
  - vm_compute. repeat first [left; reflexivity | right].
  - vm_compute. repeat first [left; reflexivity | right].
  - vm_compute. right. left. reflexivity.
Defined.

(** C8 on a run whose [gn] exits with status 0, and on one whose [gn]
    exits with status 1. *)
Lemma gn_status_decides_run_witness :
  exit_status
    (snd (main sample_str (sample_world full_tree false true (Exited 0))
            sample_cmdline init_state))
  = 0%Z
  /\ snd (main sample_str (sample_world full_tree false true (Exited 1))
            sample_cmdline init_state)
     = Raise (CalledProcessError 1).
Proof.
  assert (Hin0 :
    In (EvCall (gn_argv (sample_world full_tree false true (Exited 0))
                  sample_cmdline))
      (trace (fst (main_with sample_str package_configs
                     (sample_world full_tree false true (Exited 0))
                     sample_cmdline init_state))))
    by (vm_compute; repeat first [left; reflexivity | right]).
  assert (Hin1 :
    In (EvCall (gn_argv (sample_world full_tree false true (Exited 1))
                  sample_cmdline))
      (trace (fst (main_with sample_str package_configs
                     (sample_world full_tree false true (Exited 1))
                     sample_cmdline init_state))))
    by (vm_compute; repeat first [left; reflexivity | right]).
  split.
  - exact (proj2 (proj1 (proj2 (proj2 (proj2
             (gn_status_decides_run sample_str
                (sample_world full_tree false true (Exited 0)) sample_cmdline
                package_configs
                (gn_argv (sample_world full_tree false true (Exited 0))
                   sample_cmdline)
                Hin0)))))
           eq_refl).
  - exact (proj2 (proj2 (proj2 (proj2
             (gn_status_decides_run sample_str
                (sample_world full_tree false true (Exited 1)) sample_cmdline
                package_configs
                (gn_argv (sample_world full_tree false true (Exited 1))
                   sample_cmdline)
                Hin1))))
           1%Z ltac:(discriminate) eq_refl).
Defined.

End GenCorrect.

(** ** make_crate.py: what the script does *)

Module MakeCrateCorrect.
Import MakeCrate.

Section Crate.

Variable label_to_crate : string -> string.
Variable relpath : string -> string -> string.
Variable open_ok : string -> bool.

Lemma chunks_fwrite (f : wfile) (c : string) :
  chunks (fwrite f c) = chunks f ++ [c].
Proof. reflexivity. Qed.

Lemma wpath_fwrite (f : wfile) (c : string) : wpath (fwrite f c) = wpath f.
Proof. reflexivity. Qed.

(** A loop that writes one chunk per element. *)
Lemma fold_fwrite {A} (line : A -> string) (xs : list A) (f : wfile) :
  fold_left (fun g x => fwrite g (line x)) xs f
  = WFile (wpath f) (chunks f ++ map line xs).
Proof.
  revert f. induction xs as [|x xs IH]; intros f; simpl.
  - rewrite app_nil_r. now destruct f.
  - rewrite IH. simpl. now rewrite <- app_assoc.
Qed.

Lemma write_externs_chunks (f : wfile) (dep_inputs : list string) :
  write_externs label_to_crate f dep_inputs
  = WFile (wpath f) (chunks f ++ extern_lines label_to_crate dep_inputs).
Proof.
  unfold write_externs, extern_lines. rewrite fold_fwrite. simpl.
  rewrite <- !app_assoc. reflexivity.
Qed.

(** The first loop writes the lines of the inputs that come before the
    first empty path. *)
Lemma write_mods_app (f : wfile) (lib_fn : string) (good rest : list string) :
  ~ In "" good ->
  write_mods relpath f lib_fn (good ++ rest)
  = write_mods relpath
      (WFile (wpath f) (chunks f ++ flat_map (mod_lines relpath lib_fn) good))
      lib_fn rest.
Proof.
  revert f. induction good as [|i good IH]; intros f Hgood.
  - simpl. rewrite app_nil_r. now destruct f.
  - cbn [app write_mods flat_map]. unfold os_path_relpath.
    destruct (String.eqb_spec i "") as [->|Hi]; [destruct Hgood; now left|].
    rewrite IH by (intros H; apply Hgood; now right).
    f_equal. unfold mod_lines at 2. unfold rel_of, mod_decl, path_attr.
    destruct (String.eqb (relpath i (posixpath.dirname lib_fn))
                (stem i +:+ ".rs"));
      cbn [fwrite wpath chunks negb];
      rewrite <- !app_assoc; reflexivity.
Qed.

Lemma write_mods_returns (f : wfile) (lib_fn : string) (inputs : list string) :
  ~ In "" inputs ->
  write_mods relpath f lib_fn inputs
  = (WFile (wpath f) (chunks f ++ flat_map (mod_lines relpath lib_fn) inputs),
     Returned).
Proof.
  intros H. rewrite <- (app_nil_r inputs) at 1.
  now rewrite (write_mods_app f lib_fn inputs [] H).
Qed.

Lemma write_mods_stops (f : wfile) (lib_fn : string) (good rest : list string) :
  ~ In "" good ->
  write_mods relpath f lib_fn (good ++ "" :: rest)
  = (WFile (wpath f) (chunks f ++ flat_map (mod_lines relpath lib_fn) good),
     ValueError).
Proof. intros H. now rewrite (write_mods_app f lib_fn good _ H). Qed.

Lemma write_mods_outcome (f : wfile) (lib_fn : string) (inputs : list string) :
  snd (write_mods relpath f lib_fn inputs)
  = if existsb (fun i => String.eqb i "") inputs then ValueError else Returned.
Proof.
  revert f. induction inputs as [|i inputs IH]; intros f; [reflexivity|].
  cbn [write_mods existsb]. unfold os_path_relpath.
  destruct (String.eqb i ""); [reflexivity|]. apply IH.
Qed.

Lemma write_uses_chunks (f : wfile) (inputs : list string) :
  write_uses f inputs = WFile (wpath f) (chunks f ++ map pub_use inputs).
Proof. unfold write_uses. apply (fold_fwrite pub_use). Qed.

(** C9, as the script has it. When both files open and no input is the
    empty path, the [lib.rs] that [make_crate] writes is the [extern crate]
    lines, an empty line, then for each input in order its [mod]
    declaration, preceded by a [#[path]] attribute exactly when the
    input's path from the directory of [lib.rs] is not its base name with
    [.rs], then an empty line and one [pub use] per input in the same
    order, and the call returns. *)
Theorem lib_rs_mods_then_uses (output gen_dir : string) (inputs : list string)
    (srcroot : string) (dep_inputs : list string) :
  open_ok (output_fn_of gen_dir output) = true ->
  open_ok (lib_fn_of gen_dir output) = true ->
  ~ In "" inputs ->
  (snd (make_crate label_to_crate relpath open_ok
          output gen_dir inputs srcroot dep_inputs) = Returned
   /\ exists src_f,
     lib_rs_of (make_crate label_to_crate relpath open_ok
                  output gen_dir inputs srcroot dep_inputs) = Some src_f
     /\ wpath src_f = lib_fn_of gen_dir output
     /\ chunks src_f
        = extern_lines label_to_crate dep_inputs
          ++ [nl]
          ++ flat_map (mod_lines relpath (lib_fn_of gen_dir output)) inputs
          ++ [nl]
          ++ map pub_use inputs)
  /\ (forall i,
        rel_of relpath (lib_fn_of gen_dir output) i <> stem i +:+ ".rs"
        <-> mod_lines relpath (lib_fn_of gen_dir output) i
            = [path_attr (rel_of relpath (lib_fn_of gen_dir output) i);
               mod_decl i])
  /\ (forall i,
        rel_of relpath (lib_fn_of gen_dir output) i = stem i +:+ ".rs"
        <-> mod_lines relpath (lib_fn_of gen_dir output) i = [mod_decl i]).
Proof.
  intros Hcargo Hlib Hinputs. split; [|split].
  - unfold make_crate. rewrite Hcargo, Hlib. simpl negb. cbv iota.
    rewrite (write_mods_returns _ _ _ Hinputs).
    split; [reflexivity|].
    eexists. split; [reflexivity|].
    rewrite write_uses_chunks, write_externs_chunks.
    simpl. split; [reflexivity|].
    rewrite <- !app_assoc. reflexivity.
  - intros i. unfold mod_lines.
    destruct (String.eqb_spec (rel_of relpath (lib_fn_of gen_dir output) i)
                (stem i +:+ ".rs")) as [E|E]; simpl; split; intros H;
      congruence.
  - intros i. unfold mod_lines.
    destruct (String.eqb_spec (rel_of relpath (lib_fn_of gen_dir output) i)
                (stem i +:+ ".rs")) as [E|E]; simpl; split; intros H;
      congruence.
Qed.

Lemma write_cargo_contents (path longname : string) :
  contents (write_cargo (WFile path []) longname) = cargo_toml_text longname.
Proof.
  unfold write_cargo, contents, cargo_toml_text. simpl.
  rewrite !GenCorrect.append_assoc, GenCorrect.append_nil_r. reflexivity.
Qed.

(** What [make_crate] leaves in [Cargo.toml], whenever it opens it. *)
Lemma cargo_toml_contents (output gen_dir : string) (inputs : list string)
    (srcroot : string) (dep_inputs : list string) (cargo_f : wfile) :
  cargo_toml_of (make_crate label_to_crate relpath open_ok
                   output gen_dir inputs srcroot dep_inputs) = Some cargo_f ->
  wpath cargo_f = output_fn_of gen_dir output
  /\ contents cargo_f = cargo_toml_text (label_to_crate output).
Proof.
  unfold make_crate, cargo_toml_of.
  destruct (open_ok (output_fn_of gen_dir output)); simpl; [|discriminate].
  destruct (open_ok (lib_fn_of gen_dir output)); simpl;
    [destruct (write_mods _ _ _ _) as [src_f [| |]]|]; simpl; intros [= <-];
    (split; [reflexivity | apply write_cargo_contents]).
Qed.

End Crate.

(** C10. The contents of the [Cargo.toml] of a call depend on [output]
    alone: two calls with the same [output] leave the same text there,
    whatever their inputs, dependencies, source root and gen directory are,
    and that text names the package [label_to_crate output], gives it
    version [0.1.0] and lists the dependencies [futures = "0.1"] and
    [tokio-core = "0.1.9"]. *)
Theorem cargo_toml_depends_on_output_only
    (label_to_crate : string -> string)
    (relpath1 relpath2 : string -> string -> string)
    (open_ok1 open_ok2 : string -> bool)
    (output gen_dir1 gen_dir2 : string) (inputs1 inputs2 : list string)
    (srcroot1 srcroot2 : string) (dep_inputs1 dep_inputs2 : list string)
    (f1 f2 : wfile) :
  cargo_toml_of (make_crate label_to_crate relpath1 open_ok1
                   output gen_dir1 inputs1 srcroot1 dep_inputs1) = Some f1 ->
  cargo_toml_of (make_crate label_to_crate relpath2 open_ok2
                   output gen_dir2 inputs2 srcroot2 dep_inputs2) = Some f2 ->
  contents f1 = contents f2
  /\ contents f1
     = "# Autogenerated by //garnet/public/lib/fidl/build/make_crate.py" +:+ nl
       +:+ "[package]" +:+ nl
       +:+ "name = " +:+ dq +:+ label_to_crate output +:+ dq +:+ nl
       +:+ "version = " +:+ dq +:+ "0.1.0" +:+ dq +:+ nl
       +:+ nl
       +:+ "[dependencies]" +:+ nl
       +:+ "futures = " +:+ dq +:+ "0.1" +:+ dq +:+ nl
       +:+ "tokio-core = " +:+ dq +:+ "0.1.9" +:+ dq +:+ nl.
Proof.
  intros H1 H2.
  apply cargo_toml_contents in H1 as [_ H1].
  apply cargo_toml_contents in H2 as [_ H2].
  split; [congruence | exact H1].
Qed.

(** *** A sample crate *)

(** C9 on a crate with one source next to [lib.rs] and one elsewhere. *)
Lemma lib_rs_mods_then_uses_witness :
  exists src_f,
    lib_rs_of (make_crate sample_label_to_crate sample_relpath (fun _ => true)
                 "garnet/public/lib/app/fidl" "/out/gen"
                 ["/out/gen/garnet/public/lib/app/fidl/src/loader.rs";
                  "/out/gen/other/app.fidl.rs"]
                 "/fuchsia" ["//garnet/public/lib/fidl:bindings"])
    = Some src_f
    /\ wpath src_f = "/out/gen/garnet/public/lib/app/fidl/src/lib.rs"
    /\ chunks src_f
       = [ "// Autogenerated by //garnet/public/lib/fidl/build/make_crate.py"
             +:+ nl;
           "#[macro_use]" +:+ nl;
           "extern crate fidl;" +:+ nl;
           "extern crate fuchsia_zircon as zircon;" +:+ nl;
           "extern crate futures;" +:+ nl;
           "extern crate tokio_core;" +:+ nl;
           "extern crate tokio_fuchsia;" +:+ nl;
           "pub extern crate __garnet_public_lib_fidl_bindings;" +:+ nl;
           nl;
           "mod loader;" +:+ nl;
           "#[path=" +:+ dq +:+ "/out/gen/other/app.fidl.rs" +:+ dq +:+ "]" +:+ nl;
           "mod app.fidl;" +:+ nl;
           nl;
           "pub use loader::*;" +:+ nl;
           "pub use app.fidl::*;" +:+ nl ].
Proof.
  refine (proj2 (proj1 (lib_rs_mods_then_uses sample_label_to_crate
                          sample_relpath (fun _ => true)
                          "garnet/public/lib/app/fidl" "/out/gen"
                          ["/out/gen/garnet/public/lib/app/fidl/src/loader.rs";
                           "/out/gen/other/app.fidl.rs"]
                          "/fuchsia" ["//garnet/public/lib/fidl:bindings"]
                          eq_refl eq_refl _))).
  intros [H|[H|[]]]; discriminate.
Defined.

(** C9 fails on a list of inputs that holds the empty path:
    [os.path.relpath] raises [ValueError] on it, so the call ends in the
    first loop, and [lib.rs] is left with the [mod] line of the input
    before it and without any [pub use]. *)
Lemma empty_input_cuts_lib_rs :
  snd (make_crate sample_label_to_crate sample_relpath (fun _ => true)
         "garnet/public/lib/app/fidl" "/out/gen"
         ["/out/gen/garnet/public/lib/app/fidl/src/loader.rs"; ""]
         "/fuchsia" [])
  = ValueError
  /\ (exists src_f,
        lib_rs_of (make_crate sample_label_to_crate sample_relpath
                     (fun _ => true)
                     "garnet/public/lib/app/fidl" "/out/gen"
                     ["/out/gen/garnet/public/lib/app/fidl/src/loader.rs"; ""]
                     "/fuchsia" [])
        = Some src_f
        /\ chunks src_f
           = extern_lines sample_label_to_crate []
             ++ [nl; "mod loader;" +:+ nl])
  /\ ~ mods_then_uses sample_label_to_crate sample_relpath (fun _ => true)
        "garnet/public/lib/app/fidl" "/out/gen"
        ["/out/gen/garnet/public/lib/app/fidl/src/loader.rs"; ""]
        "/fuchsia" [].
Proof.
  split; [vm_compute; reflexivity|].
  split; [eexists; split; vm_compute; reflexivity|].
  intros H. destruct (H eq_refl eq_refl) as (src_f & E1 & E2).
  vm_compute in E1. injection E1 as <-. vm_compute in E2. discriminate.
Qed.

(** C10 on two calls that share only [output]. *)
Lemma cargo_toml_depends_on_output_only_witness :
  contents
    (write_cargo (WFile "/out/gen/garnet/public/lib/app/fidl/Cargo.toml" [])
       "garnet_public_lib_app_fidl")
  = contents
      (write_cargo (WFile "/tmp/gen/garnet/public/lib/app/fidl/Cargo.toml" [])
         "garnet_public_lib_app_fidl")
  /\ contents
       (write_cargo (WFile "/out/gen/garnet/public/lib/app/fidl/Cargo.toml" [])
          "garnet_public_lib_app_fidl")
     = "# Autogenerated by //garnet/public/lib/fidl/build/make_crate.py" +:+ nl
       +:+ "[package]" +:+ nl
       +:+ "name = " +:+ dq +:+ "garnet_public_lib_app_fidl" +:+ dq +:+ nl
       +:+ "version = " +:+ dq +:+ "0.1.0" +:+ dq +:+ nl
       +:+ nl
       +:+ "[dependencies]" +:+ nl
       +:+ "futures = " +:+ dq +:+ "0.1" +:+ dq +:+ nl
       +:+ "tokio-core = " +:+ dq +:+ "0.1.9" +:+ dq +:+ nl.
Proof.
  exact (cargo_toml_depends_on_output_only sample_label_to_crate
           sample_relpath (fun p _ => p) (fun _ => true)
           (fun p => negb (String.eqb p "/tmp/gen/garnet/public/lib/app/fidl/src/lib.rs"))
           "garnet/public/lib/app/fidl" "/out/gen" "/tmp/gen"
           ["/out/gen/garnet/public/lib/app/fidl/src/loader.rs"] []
           "/fuchsia" "/src" ["//garnet/public/lib/fidl:bindings"] []
           _ _ eq_refl eq_refl).
Defined.

End MakeCrateCorrect.

(** ** gen.py: more of what the script does *)

Module GenMore.
Import Gen GenSpec GenCorrect.

(** *** Each config on its own *)

Lemma parse_config_contribution (w : env) (packages_path c : string) (s : state) :
  exists_config w packages_path c ->
  parse_config w (config_path packages_path c) s
  = (State
       (labels s ++ contributed_labels (config_file w (config_path packages_path c)))
       (binaries s ++ contributed_entries (config_file w (config_path packages_path c)))
       (trace s ++ diagnostic w packages_path c),
     Ok tt).
Proof.
  intros Hex. rewrite parse_config_run by exact Hex.
  unfold contributed_labels, contributed_entries, diagnostic, parse_failure, add.
  destruct (json_load (config_file w (config_path packages_path c))) as [doc|e].
  - destruct (getitem doc "label") as [label|e]; [reflexivity|].
    now rewrite !app_nil_r.
  - now rewrite !app_nil_r.
Qed.

Lemma collect_contributions (w : env) (packages_path : string)
    (configs : list string) (s : state) :
  Forall (exists_config w packages_path) configs ->
  collect w packages_path configs s
  = (State
       (labels s
        ++ flat_map (fun c => contributed_labels
                                (config_file w (config_path packages_path c)))
             configs)
       (binaries s
        ++ flat_map (fun c => contributed_entries
                                (config_file w (config_path packages_path c)))
             configs)
       (trace s ++ flat_map (diagnostic w packages_path) configs),
     Ok tt).
Proof.
  unfold collect. intros Hall. revert s.
  induction Hall as [|c configs Hc _ IH]; intros s; cbn [for_each flat_map].
  - rewrite !app_nil_r. now destruct s.
  - rewrite bind_run. fold (config_path packages_path c).
    rewrite (parse_config_contribution w packages_path c s Hc), IH. simpl.
    now rewrite <- !app_assoc.
Qed.

Lemma no_print_in_files (p : string) (chunks : list string) :
  List.filter is_print (file_events p chunks) = [].
Proof. unfold file_events. simpl. induction chunks; simpl; auto. Qed.

Lemma no_print_in_dir_events (w : env) (dir : string) :
  List.filter is_print (dir_events w dir) = [].
Proof. unfold dir_events. now destruct (isdir w dir). Qed.

Lemma no_print_after_collect (py_str : json -> string) (w : env) (a : cmdline)
    (L : list json) (B : list entry) (evs : list event) (r : result Z) :
  after_collect py_str w a L B evs r -> List.filter is_print evs = [].
Proof.
  destruct 1; rewrite ?List.filter_app, ?no_print_in_files,
    ?no_print_in_dir_events; reflexivity.
Qed.

Lemma filter_all_prints (prints : list event) :
  Forall (fun ev => is_print ev = true) prints ->
  List.filter is_print prints = prints.
Proof.
  induction 1 as [|ev prints Hev _ IH]; simpl; [reflexivity|].
  now rewrite Hev, IH.
Qed.

(** X2. When every config file exists, the labels and the binaries a run
    accumulates are, config by config in list order, what each file
    contributes on its own, and the diagnostics it prints are those of the
    failing configs, in list order, one each: no config changes what
    another one contributes. *)
Theorem configs_contribute_independently (py_str : json -> string) (w : env)
    (a : cmdline) (configs : list string) :
  Forall (exists_config w (packages_path_of w a)) configs ->
  labels (fst (main_with py_str configs w a init_state))
  = flat_map (fun c => contributed_labels
                         (config_file w (config_path (packages_path_of w a) c)))
      configs
  /\ binaries (fst (main_with py_str configs w a init_state))
     = flat_map (fun c => contributed_entries
                            (config_file w (config_path (packages_path_of w a) c)))
         configs
  /\ List.filter is_print (trace (fst (main_with py_str configs w a init_state)))
     = flat_map (diagnostic w (packages_path_of w a)) configs.
Proof.
  intros Hall.
  destruct (run_shape py_str w a configs)
    as (prints & evs & Hp & Hct & Htr & HL & HB & Hrest).
  rewrite (collect_contributions w _ configs _ Hall) in Hct, HL, HB, Hrest.
  simpl in Hct, HL, HB, Hrest. injection Hct as Hct.
  repeat split; [exact HL | exact HB |].
  rewrite Htr. simpl. rewrite List.filter_app, (filter_all_prints _ Hp).
  rewrite (no_print_after_collect _ _ _ _ _ _ _ Hrest), app_nil_r.
  now symmetry.
Qed.

(** X1. A config file that is missing is not a parse failure: [open]
    raises outside the [try], so the run ends there with [IOError] on that
    file. The configs before it were read and reported as usual, those
    after it are never read, and nothing else was done: no file opened or
    written, no directory checked, no [gn]. *)
Theorem missing_config_aborts (py_str : json -> string) (w : env)
    (a : cmdline) (before after : list string) (c : string) :
  Forall (exists_config w (packages_path_of w a)) before ->
  config_file w (config_path (packages_path_of w a) c) = NoFile ->
  main_with py_str (before ++ c :: after) w a init_state
  = (State
       (flat_map (fun c' => contributed_labels
                    (config_file w (config_path (packages_path_of w a) c')))
          before)
       (flat_map (fun c' => contributed_entries
                    (config_file w (config_path (packages_path_of w a) c')))
          before)
       (EvChdir (packages_path_of w a)
        :: flat_map (diagnostic w (packages_path_of w a)) before),
     Raise (IOError (config_path (packages_path_of w a) c))).
Proof.
  intros Hbefore Hmissing.
  pose proof (main_with_cases py_str w a (before ++ c :: after) init_state) as H.
  rewrite collect_app, bind_run in H.
  rewrite (collect_contributions w _ before _ Hbefore) in H.
  unfold collect at 1 in H. cbn [for_each] in H. rewrite bind_run in H.
  fold (config_path (packages_path_of w a) c) in H.
  rewrite (parse_config_missing w _ _ Hmissing) in H.
  exact H.
Qed.

Lemma read_entries_docs (bs : list BinaryEntry) :
  read_entries (map entry_doc bs) = Some bs.
Proof.
  induction bs as [|[b p] bs IH]; [reflexivity|].
  cbn [map read_entries]. rewrite IH. reflexivity.
Qed.

Lemma read_descriptor_doc (d : PackageDescriptor) :
  read_descriptor (descriptor_doc d) = Some d.
Proof.
  destruct d as [l bs]. unfold read_descriptor, descriptor_doc. simpl.
  now rewrite read_entries_docs.
Qed.

(** X3. A descriptor written out as the JSON object the script expects is
    read back whole: [parse_config] appends its label and one entry per
    binary, in the order of the file, after whatever the two lists held,
    prints nothing and returns normally. *)
Theorem written_descriptor_is_read_back (w : env) (config : string)
    (d : PackageDescriptor) (s : state) :
  config_file w config = Json (descriptor_doc d) ->
  parse_config w config s
  = (State (labels s ++ [JStr (pd_label d)])
       (binaries s ++ map entry_of (pd_binaries d))
       (trace s),
     Ok tt).
Proof.
  intros Hf. rewrite parse_config_run by congruence. rewrite Hf.
  cbn [json_load]. pose proof (read_descriptor_doc d) as Hd.
  unfold read_descriptor in Hd. unfold kept_entries, binaries_failure.
  destruct (getitem (descriptor_doc d) "label") as [[| | |l| |]|];
    try discriminate.
  destruct (getitem (descriptor_doc d) "binaries") as [[| | | |items|]|];
    try discriminate.
  destruct (read_entries items) as [bs|] eqn:Hr; [|discriminate].
  injection Hd as <-. simpl.
  rewrite (read_entries_kept _ _ Hr). simpl. now rewrite app_nil_r.
Qed.

(** X9. A ["binaries"] that is not a list never contributes an entry:
    the label stays appended, and the parse is reported as failed with
    [TypeError], unless the value is an empty object or an empty string,
    over which the loop runs zero times and the config passes as one
    without binaries. *)
Theorem non_list_binaries_give_no_entry (w : env) (config : string)
    (doc label v : json) (s : state) :
  config_file w config = Json doc ->
  getitem doc "label" = Ok label ->
  getitem doc "binaries" = Ok v ->
  (forall items, v <> JArr items) ->
  parse_config w config s
  = (State (labels s ++ [label]) (binaries s)
       (trace s ++ if is_empty_container v then []
                   else [EvPrintFailed config TypeError]),
     Ok tt).
Proof.
  intros Hf Hl Hb Hv. rewrite parse_config_run by congruence.
  rewrite Hf. cbn [json_load]. rewrite Hl.
  unfold kept_entries, binaries_failure. rewrite Hb.
  destruct v as [|b|lit|t|items|fields]; simpl;
    rewrite ?app_nil_r; try reflexivity.
  - destruct t; simpl; now rewrite app_nil_r.
  - now destruct (Hv items).
  - destruct fields as [|[k x] fields]; simpl; now rewrite app_nil_r.
Qed.

(** *** Where a run stops *)

Section Stops.

Variable py_str : json -> string.
Variable w : env.
Variable a : cmdline.

Ltac read_files :=
  repeat first
    [ rewrite written_from_app
    | rewrite written_from_file_events
    | rewrite written_from_quiet
        by auto using manifest_not_build_gn, depfile_not_build_gn,
             depfile_not_manifest, not_eq_sym,
             quiet_on_app, quiet_on_file_events, quiet_on_prints,
             quiet_on_dir_events, quiet_on_call ].

(** The loop over the binaries stops at the first entry that the manifest
    does not take. *)
Lemma manifest_chunks_refused (o : string) (good : list BinaryEntry)
    (bad : entry) (rest : list entry) :
  forallb (manifest_takes py_str o) (map entry_of good) = true ->
  manifest_takes py_str o bad = false ->
  manifest_chunks py_str o (map entry_of good ++ bad :: rest)
  = (map (manifest_line o) good, Some (refusal o bad)).
Proof.
  intros Hgood Hbad. induction good as [|b good IH].
  - cbn [map app manifest_chunks]. unfold manifest_takes in Hbad.
    unfold path_join, refusal.
    destruct (binary bad) as [| | |p| |]; try reflexivity.
    destruct (posixpath.startswith_slash p || is_ascii o); [|reflexivity].
    cbn [andb] in Hbad. now rewrite Hbad.
  - cbn [map forallb] in Hgood. apply andb_prop in Hgood as [Hb Hgood].
    cbn [map app manifest_chunks]. rewrite (IH Hgood).
    unfold manifest_takes in Hb. cbn [entry_of binary bootfs_path] in Hb.
    apply andb_prop in Hb as [Hjoin Hline].
    unfold path_join. cbn [entry_of binary bootfs_path fmt_s].
    rewrite Hjoin. cbn [fmt_s] in Hline. now rewrite Hline.
Qed.

(** A run that stops in the loop over the binaries leaves the manifest
    with the lines written so far and goes no further. *)
Lemma stopped_in_manifest (configs : list string) (lines : list string)
    (e : exn) :
  manifest_chunks py_str (outdir_path_of w a)
    (binaries (fst (main_with py_str configs w a init_state)))
  = (lines, Some e) ->
  written (trace (fst (main_with py_str configs w a init_state)))
    (manifest_of w a) <> None ->
  snd (main_with py_str configs w a init_state) = Raise e
  /\ written (trace (fst (main_with py_str configs w a init_state)))
       (manifest_of w a)
     = Some (cat lines)
  /\ written (trace (fst (main_with py_str configs w a init_state)))
       (depfile_of w a) = None
  /\ forall argv,
       ~ In (EvCall argv) (trace (fst (main_with py_str configs w a init_state))).
Proof.
  intros Hstop Hopened.
  destruct (run_shape py_str w a configs)
    as (prints & evs & Hp & _ & Htr & _ & HBc & Hrest).
  rewrite Htr, !written_after_prefix in * by assumption.
  rewrite HBc in Hstop.
  assert (Hpre : Forall (fun ev => is_call ev = false)
                   (EvChdir (packages_path_of w a) :: prints))
    by (constructor; [reflexivity | now apply no_call_in_prints]).
  destruct (snd (collect w (packages_path_of w a) configs _)).
  2:{ destruct Hrest as [-> _]. now simpl in Hopened. }
  destruct Hrest
    as [? | ? ? | ? ? ? | ? ? ? ? | lines' e' ? ? ? ? Hw | lines' ? ? ? ? Hw ?
        | lines' ? ? ? ? Hw ?];
    try (exfalso; apply Hopened; read_files; reflexivity);
    rewrite Hstop in Hw; try discriminate.
  injection Hw as <- <-.
  split; [reflexivity|]. split; [|split].
  - read_files. reflexivity.
  - read_files. reflexivity.
  - intros argv Hin.
    change (EvChdir (packages_path_of w a) :: prints ++ ?x)
      with ((EvChdir (packages_path_of w a) :: prints) ++ x) in Hin.
    refine (not_in_no_call _ argv _ Hin).
    repeat first [ apply Forall_app; split | exact Hpre
                 | apply no_call_in_files | apply no_call_in_dir_events ].
Qed.

(** X4. [parse_config] takes any JSON value as a [binary]; one that is
    not a string stops the run at the manifest: with the entries before it
    and the path of the output directory all ASCII text, [os.path.join]
    raises [AttributeError] on it, the manifest is left holding the lines
    of the entries before it, the depfile is never opened and [gn] is never
    called. *)
Theorem non_string_binary_stops_at_manifest (configs : list string)
    (good : list BinaryEntry) (bad : entry) (rest : list entry) :
  binaries (fst (main_with py_str configs w a init_state))
  = map entry_of good ++ bad :: rest ->
  (forall p, binary bad <> JStr p) ->
  is_ascii (outdir_path_of w a) = true ->
  forallb ascii_entry good = true ->
  written (trace (fst (main_with py_str configs w a init_state)))
    (manifest_of w a) <> None ->
  snd (main_with py_str configs w a init_state) = Raise AttributeError
  /\ written (trace (fst (main_with py_str configs w a init_state)))
       (manifest_of w a)
     = Some (manifest_text (outdir_path_of w a) good)
  /\ written (trace (fst (main_with py_str configs w a init_state)))
       (depfile_of w a) = None
  /\ forall argv,
       ~ In (EvCall argv) (trace (fst (main_with py_str configs w a init_state))).
Proof.
  intros HB Hbad Ho Hgood Hopened.
  apply (stopped_in_manifest configs); [|exact Hopened].
  rewrite HB.
  rewrite (manifest_chunks_refused (outdir_path_of w a) good bad rest).
  - unfold refusal. destruct (binary bad) as [| | |p| |]; try reflexivity.
    now destruct (Hbad p).
  - now apply manifest_takes_all_ascii.
  - unfold manifest_takes. destruct (binary bad) as [| | |p| |]; try reflexivity.
    now destruct (Hbad p).
Qed.

(** X15. A [binary] or a [bootfs_path] with a character outside ASCII, or
    an output directory with such a path, stops the run at the manifest
    too. The loop over the binaries ends at the first entry the manifest
    does not take: [os.path.join] raises [AttributeError] on a [binary]
    that is not a string and [UnicodeDecodeError] on a relative one that it
    cannot append to the output directory, and the write of a line that is
    not ASCII text raises [UnicodeEncodeError]. The manifest is left with
    the lines of the entries before it, the depfile is never opened and
    [gn] is never called. *)
Theorem manifest_stops_at_refused_entry (configs : list string)
    (good : list BinaryEntry) (bad : entry) (rest : list entry) :
  binaries (fst (main_with py_str configs w a init_state))
  = map entry_of good ++ bad :: rest ->
  forallb (manifest_takes py_str (outdir_path_of w a)) (map entry_of good)
  = true ->
  manifest_takes py_str (outdir_path_of w a) bad = false ->
  written (trace (fst (main_with py_str configs w a init_state)))
    (manifest_of w a) <> None ->
  snd (main_with py_str configs w a init_state)
  = Raise (refusal (outdir_path_of w a) bad)
  /\ written (trace (fst (main_with py_str configs w a init_state)))
       (manifest_of w a)
     = Some (manifest_text (outdir_path_of w a) good)
  /\ written (trace (fst (main_with py_str configs w a init_state)))
       (depfile_of w a) = None
  /\ forall argv,
       ~ In (EvCall argv) (trace (fst (main_with py_str configs w a init_state))).
Proof.
  intros HB Hgood Hbad Hopened.
  apply (stopped_in_manifest configs); [|exact Hopened].
  rewrite HB. now apply manifest_chunks_refused.
Qed.

Lemma collect_ok_exists (configs : list string) (s : state) :
  snd (collect w (packages_path_of w a) configs s) = Ok tt ->
  Forall (exists_config w (packages_path_of w a)) configs.
Proof.
  unfold collect. revert s.
  induction configs as [|c configs IH]; intros s; cbn [for_each];
    [constructor|].
  rewrite bind_run. fold (config_path (packages_path_of w a) c).
  destruct (config_file w (config_path (packages_path_of w a) c)) eqn:Hf.
  - rewrite (parse_config_missing w _ _ Hf). discriminate.
  - assert (Hex : exists_config w (packages_path_of w a) c)
      by (unfold exists_config; congruence).
    rewrite (parse_config_contribution w _ c s Hex). intros H.
    constructor; [exact Hex | exact (IH _ H)].
  - assert (Hex : exists_config w (packages_path_of w a) c)
      by (unfold exists_config; congruence).
    rewrite (parse_config_contribution w _ c s Hex). intros H.
    constructor; [exact Hex | exact (IH _ H)].
Qed.

(** X5. [gn] is called exactly in the runs in which every config file
    exists, [BUILD.gn], the manifest and the depfile can be opened, every
    accumulated label that is a string is ASCII text, the output directory
    exists or can be made, and the manifest takes every accumulated entry:
    its [binary] is a string, absolute or else joined to an output directory
    of an ASCII path, and its line is ASCII text. Malformed configs do not
    keep [gn] from being called. *)
Theorem gn_called_exactly_when (configs : list string) :
  (exists argv,
     In (EvCall argv) (trace (fst (main_with py_str configs w a init_state))))
  <-> Forall (exists_config w (packages_path_of w a)) configs
      /\ open_w_ok w "BUILD.gn" = true
      /\ forallb ascii_label
           (labels (fst (main_with py_str configs w a init_state))) = true
      /\ dir_ready w (pkg_gen_dir_of w a) = true
      /\ open_w_ok w (manifest_of w a) = true
      /\ forallb (manifest_takes py_str (outdir_path_of w a))
           (binaries (fst (main_with py_str configs w a init_state))) = true
      /\ open_w_ok w (depfile_of w a) = true.
Proof.
  destruct (run_shape py_str w a configs)
    as (prints & evs & Hp & _ & Htr & HLc & HBc & Hrest).
  rewrite Htr, HLc, HBc.
  assert (Hpre : Forall (fun ev => is_call ev = false)
                   (EvChdir (packages_path_of w a) :: prints))
    by (constructor; [reflexivity | now apply no_call_in_prints]).
  split.
  - intros [argv Hin].
    change (EvChdir (packages_path_of w a) :: prints ++ evs)
      with ((EvChdir (packages_path_of w a) :: prints) ++ evs) in Hin.
    apply in_app_or in Hin as [Hin|Hin];
      [destruct (not_in_no_call _ _ Hpre Hin)|].
    destruct (snd (collect w (packages_path_of w a) configs _)) as [[]|e] eqn:Hc.
    2:{ destruct Hrest as [-> _]. inversion Hin. }
    apply collect_ok_exists in Hc.
    destruct Hrest
      as [? | ? ? | ? ? ? | ? ? ? ? | lines e ? ? ? ? Hw | lines ? ? ? ? Hw ?
          | lines ? HL ? ? Hw ?];
      try solve [inversion Hin];
      try (exfalso; refine (not_in_no_call _ argv _ Hin);
           solve [repeat first [ apply Forall_app; split
                               | apply no_call_in_files
                               | apply no_call_in_dir_events ]]).
    repeat split; try assumption.
    + now rewrite <- (labels_encode_ascii py_str).
    + apply manifest_chunks_takes. now rewrite Hw.
  - intros (Hall & Hgn & HL & Hdir & Hm & Htakes & Hd).
    rewrite (collect_contributions w _ configs _ Hall) in Hrest, HL, Htakes.
    simpl in Hrest, HL, Htakes.
    rewrite <- (labels_encode_ascii py_str) in HL.
    apply manifest_chunks_takes in Htakes.
    destruct (after_collect_called py_str w a _ _ _ _ Hrest Hgn HL Hdir Hm Hd
                Htakes) as [-> _].
    exists (gn_argv w a). right. apply in_or_app. right.
    rewrite !app_assoc. apply in_or_app. right. now left.
Qed.

Lemma no_dir_event_in_files (p : string) (chunks : list string) :
  List.filter is_dir_event (file_events p chunks) = [].
Proof. unfold file_events. simpl. induction chunks; simpl; auto. Qed.

Lemma no_dir_event_in_prints (prints : list event) :
  Forall (fun ev => is_print ev = true) prints ->
  List.filter is_dir_event prints = [].
Proof.
  induction 1 as [|ev prints Hev _ IH]; [reflexivity|].
  destruct ev; try discriminate. exact IH.
Qed.

(** X6. A run checks the output directory at most once and calls
    [makedirs] only right after a check that found no directory: its
    directory events are none at all, or the one positive check, or the one
    negative check followed by the one creation. *)
Theorem makedirs_only_after_negative_check (configs : list string) :
  List.filter is_dir_event
    (trace (fst (main_with py_str configs w a init_state))) = []
  \/ (isdir w (pkg_gen_dir_of w a) = true
      /\ List.filter is_dir_event
           (trace (fst (main_with py_str configs w a init_state)))
         = [EvIsdir (pkg_gen_dir_of w a) true])
  \/ (isdir w (pkg_gen_dir_of w a) = false
      /\ List.filter is_dir_event
           (trace (fst (main_with py_str configs w a init_state)))
         = [EvIsdir (pkg_gen_dir_of w a) false;
            EvMakedirs (pkg_gen_dir_of w a)]).
Proof.
  destruct (run_shape py_str w a configs)
    as (prints & evs & Hp & _ & Htr & _ & _ & Hrest).
  rewrite Htr. simpl. rewrite List.filter_app, (no_dir_event_in_prints _ Hp).
  simpl.
  assert (Hdir : List.filter is_dir_event (dir_events w (pkg_gen_dir_of w a))
                 = dir_events w (pkg_gen_dir_of w a))
    by (unfold dir_events; now destruct (isdir w (pkg_gen_dir_of w a))).
  destruct (snd (collect w (packages_path_of w a) configs _)).
  2:{ destruct Hrest as [-> _]. now left. }
  destruct Hrest;
    [now left | left; now rewrite no_dir_event_in_files | right ..];
    rewrite ?List.filter_app, ?no_dir_event_in_files, ?Hdir; simpl;
    rewrite ?app_nil_r; unfold dir_events;
    (destruct (isdir w (pkg_gen_dir_of w a)); [left | right]; now split).
Qed.

Lemma flat_map_all_nil {A B} (f : A -> list B) (xs : list A) :
  Forall (fun x => f x = []) xs -> flat_map f xs = [].
Proof. induction 1 as [|x xs Hx _ IH]; simpl; [reflexivity|]. now rewrite Hx. Qed.

Lemma no_label_no_entries (f : file_contents) :
  contributed_labels f = [] -> contributed_entries f = [].
Proof.
  unfold contributed_labels, contributed_entries.
  destruct (json_load f) as [doc|]; [|reflexivity].
  destruct (getitem doc "label"); [discriminate | reflexivity].
Qed.

(** X7. Configs that cannot be parsed do not fail the run: when every
    config file exists but none yields a label (none at all is the
    simplest case), [BUILD.gn] lists the bootstrap target alone, the
    manifest is written empty, the depfile names the manifest alone, and
    [gn] is called all the same, its exit status deciding the outcome. *)
Theorem unparsable_configs_still_generate (configs : list string) :
  Forall (fun c =>
            exists_config w (packages_path_of w a) c
            /\ contributed_labels
                 (config_file w (config_path (packages_path_of w a) c)) = [])
    configs ->
  open_w_ok w "BUILD.gn" = true ->
  dir_ready w (pkg_gen_dir_of w a) = true ->
  open_w_ok w (manifest_of w a) = true ->
  open_w_ok w (depfile_of w a) = true ->
  written (trace (fst (main_with py_str configs w a init_state))) "BUILD.gn"
  = Some (build_gn_head +:+ build_gn_tail)
  /\ written (trace (fst (main_with py_str configs w a init_state)))
       (manifest_of w a) = Some ""
  /\ written (trace (fst (main_with py_str configs w a init_state)))
       (depfile_of w a) = Some (depfile_head +:+ nl)
  /\ snd (main_with py_str configs w a init_state)
     = call_result (gn_argv w a) (gn_result w (gn_argv w a)).
Proof.
  intros Hall Hgn Hdir Hm Hd.
  assert (Hex : Forall (exists_config w (packages_path_of w a)) configs).
  { clear - Hall. induction Hall as [|c cs [H _] _ IH]; constructor; auto. }
  assert (HLs : flat_map (fun c => contributed_labels
                   (config_file w (config_path (packages_path_of w a) c)))
                  configs = []).
  { apply flat_map_all_nil. clear - Hall.
    induction Hall as [|c cs [_ H] _ IH]; constructor; auto. }
  assert (HBs : flat_map (fun c => contributed_entries
                   (config_file w (config_path (packages_path_of w a) c)))
                  configs = []).
  { apply flat_map_all_nil. clear - Hall.
    induction Hall as [|c cs [_ H] _ IH]; constructor; auto.
    now apply no_label_no_entries. }
  pose proof (collect_contributions w (packages_path_of w a) configs
                (State [] [] [EvChdir (packages_path_of w a)]) Hex) as Hc.
  simpl in Hc. rewrite HLs, HBs in Hc.
  destruct (full_run_outputs py_str w a configs [] [])
    as (G1 & G2 & G3); try assumption; try reflexivity;
    try (now rewrite Hc).
  split; [|split; [|split]].
  - rewrite G1. reflexivity.
  - rewrite G2. reflexivity.
  - rewrite G3. reflexivity.
  - destruct (run_shape py_str w a configs)
      as (prints & evs & _ & _ & _ & _ & _ & Hrest).
    rewrite Hc in Hrest. simpl in Hrest.
    now destruct (after_collect_called py_str w a _ _ _ _ Hrest Hgn eq_refl
                    Hdir Hm Hd eq_refl).
Qed.

Lemma opened_app (t1 t2 : list event) :
  opened (t1 ++ t2) = opened t1 ++ opened t2.
Proof. unfold opened. apply flat_map_app. Qed.

Lemma opened_file_events (p : string) (chunks : list string) :
  opened (file_events p chunks) = [p].
Proof.
  unfold opened, file_events. simpl. f_equal.
  induction chunks; simpl; auto.
Qed.

Lemma opened_prints (prints : list event) :
  Forall (fun ev => is_print ev = true) prints -> opened prints = [].
Proof.
  induction 1 as [|ev prints Hev _ IH]; [reflexivity|].
  destruct ev; try discriminate. exact IH.
Qed.

Lemma opened_dir_events (dir : string) : opened (dir_events w dir) = [].
Proof. unfold dir_events. now destruct (isdir w dir). Qed.

Lemma files_of_file_events (p : string) (chunks : list string) (P : string -> Prop) :
  P p ->
  Forall (fun ev => forall q, file_of ev = Some q -> P q) (file_events p chunks).
Proof.
  intros HP. unfold file_events. constructor.
  - now intros q [= <-].
  - induction chunks; constructor; auto. now intros q [= <-].
Qed.

(** X13. A run opens no file for writing but [BUILD.gn], the manifest and
    the depfile, each at most once and in this order, stopping short where
    it fails, and it writes to no other file either: the configs it reads
    are never written. *)
Theorem only_three_files_in_order (configs : list string) :
  (exists n,
     opened (trace (fst (main_with py_str configs w a init_state)))
     = firstn n ["BUILD.gn"; manifest_of w a; depfile_of w a])
  /\ Forall (fun ev =>
               forall q, file_of ev = Some q ->
                         In q ["BUILD.gn"; manifest_of w a; depfile_of w a])
       (trace (fst (main_with py_str configs w a init_state))).
Proof.
  destruct (run_shape py_str w a configs)
    as (prints & evs & Hp & _ & Htr & _ & _ & Hrest).
  rewrite Htr.
  assert (Hpre : Forall (fun ev => forall q, file_of ev = Some q ->
                    In q ["BUILD.gn"; manifest_of w a; depfile_of w a])
                   (EvChdir (packages_path_of w a) :: prints)).
  { constructor; [discriminate|]. clear - Hp.
    induction Hp as [|ev prints Hev _ IH]; constructor; [|exact IH].
    destruct ev; discriminate. }
  assert (Hdirs : Forall (fun ev => forall q, file_of ev = Some q ->
                    In q ["BUILD.gn"; manifest_of w a; depfile_of w a])
                   (dir_events w (pkg_gen_dir_of w a))).
  { unfold dir_events. destruct (isdir w (pkg_gen_dir_of w a));
      repeat constructor; discriminate. }
  assert (Hopened : opened (EvChdir (packages_path_of w a) :: prints ++ evs)
                    = opened evs).
  { change (EvChdir (packages_path_of w a) :: prints ++ evs)
      with ([EvChdir (packages_path_of w a)] ++ prints ++ evs).
    now rewrite !opened_app, (opened_prints _ Hp). }
  rewrite Hopened.
  change (EvChdir (packages_path_of w a) :: prints ++ evs)
    with ((EvChdir (packages_path_of w a) :: prints) ++ evs).
  destruct (snd (collect w (packages_path_of w a) configs _)).
  2:{ destruct Hrest as [-> _]. split; [now exists 0|].
      now rewrite app_nil_r. }
  destruct Hrest;
    (split;
     [ rewrite ?opened_app, ?opened_file_events, ?opened_dir_events;
       first [ now exists 0 | now exists 1 | now exists 2 | now exists 3 ]
     | repeat first
         [ apply Forall_app; split
         | exact Hpre | exact Hdirs | exact I | apply Forall_nil
         | apply files_of_file_events; simpl; tauto
         | constructor; [discriminate | apply Forall_nil] ] ]).
Qed.

Lemma take_while_stops {A} (ok : A -> bool) (good : list A) (bad : A)
    (rest : list A) :
  forallb ok good = true -> ok bad = false ->
  take_while ok (good ++ bad :: rest) = good
  /\ forallb ok (good ++ bad :: rest) = false.
Proof.
  intros Hgood Hbad. induction good as [|x good IH]; simpl.
  - now rewrite Hbad.
  - simpl in Hgood. apply andb_prop in Hgood as [Hx Hgood].
    destruct (IH Hgood) as [-> ->]. now rewrite Hx.
Qed.

(** X14. A label that is a string with a character outside ASCII stops the
    run while it writes [BUILD.gn]: the write of its line raises
    [UnicodeEncodeError], the file is left with its opening and the lines
    of the labels before it, without its closing, and nothing else is
    done: the output directory is not checked, the manifest and the depfile
    are not opened and [gn] is not called. Labels that are not strings are
    written as [str] renders them and stop nothing. *)
Theorem label_beyond_ascii_stops_at_build_gn (configs : list string)
    (good : list json) (bad : string) (rest : list json) :
  labels (fst (main_with py_str configs w a init_state))
  = good ++ JStr bad :: rest ->
  forallb ascii_label good = true ->
  is_ascii bad = false ->
  written (trace (fst (main_with py_str configs w a init_state))) "BUILD.gn"
  <> None ->
  snd (main_with py_str configs w a init_state) = Raise UnicodeEncodeError
  /\ written (trace (fst (main_with py_str configs w a init_state))) "BUILD.gn"
     = Some (build_gn_head +:+ cat (map (build_gn_dep py_str) good))
  /\ List.filter is_dir_event
       (trace (fst (main_with py_str configs w a init_state))) = []
  /\ opened (trace (fst (main_with py_str configs w a init_state)))
     = ["BUILD.gn"]
  /\ forall argv,
       ~ In (EvCall argv) (trace (fst (main_with py_str configs w a init_state))).
Proof.
  intros HL Hgood Hbad Hopened.
  destruct (run_shape py_str w a configs)
    as (prints & evs & Hp & _ & Htr & HLc & _ & Hrest).
  rewrite Htr, !written_after_prefix in * by assumption.
  rewrite <- HLc, HL in Hrest.
  destruct (take_while_stops (label_encodes py_str) good (JStr bad) rest)
    as [Htake Hall].
  { now rewrite labels_encode_ascii. }
  { now rewrite label_encodes_ascii. }
  assert (Hpre : Forall (fun ev => is_call ev = false)
                   (EvChdir (packages_path_of w a) :: prints))
    by (constructor; [reflexivity | now apply no_call_in_prints]).
  destruct (snd (collect w (packages_path_of w a) configs _)).
  2:{ destruct Hrest as [-> _]. now simpl in Hopened. }
  destruct Hrest; try congruence.
  { exfalso. now apply Hopened. }
  unfold build_gn_cut. rewrite Htake.
  split; [reflexivity|]. split; [|split; [|split]].
  - now rewrite written_from_file_events.
  - simpl. rewrite List.filter_app, (no_dir_event_in_prints _ Hp).
    now rewrite no_dir_event_in_files.
  - change (EvChdir (packages_path_of w a) :: prints ++ ?x)
      with ([EvChdir (packages_path_of w a)] ++ prints ++ x).
    rewrite !opened_app, (opened_prints _ Hp).
    now rewrite opened_file_events.
  - intros argv Hin.
    change (EvChdir (packages_path_of w a) :: prints ++ ?x)
      with ((EvChdir (packages_path_of w a) :: prints) ++ x) in Hin.
    refine (not_in_no_call _ argv _ Hin).
    apply Forall_app. split; [exact Hpre | apply no_call_in_files].
Qed.

End Stops.

(** X8. The output directory chosen with [--outdir] shows in the manifest
    only: two runs of the script in one tree that differ in [--outdir]
    write the same [BUILD.gn], and their depfiles, each in its own output
    directory, hold the same text. *)
Theorem outdir_shows_in_manifest_only (py_str : json -> string) (w : env)
    (a1 a2 : cmdline) (configs : list string) :
  script_file a1 = script_file a2 ->
  (forall c1 c2,
     written (trace (fst (main_with py_str configs w a1 init_state))) "BUILD.gn"
     = Some c1 ->
     written (trace (fst (main_with py_str configs w a2 init_state))) "BUILD.gn"
     = Some c2 ->
     c1 = c2)
  /\ (forall c1 c2,
        written (trace (fst (main_with py_str configs w a1 init_state)))
          (depfile_of w a1) = Some c1 ->
        written (trace (fst (main_with py_str configs w a2 init_state)))
          (depfile_of w a2) = Some c2 ->
        c1 = c2).
Proof.
  intros Hscript.
  assert (Hpp : packages_path_of w a1 = packages_path_of w a2)
    by (unfold packages_path_of; now rewrite Hscript).
  split; intros c1 c2 H1 H2;
    apply written_expected in H1; apply written_expected in H2;
    rewrite H1, H2, Hpp; unfold expected_content.
  - pose proof (depfile_not_build_gn w a1) as D1.
    pose proof (depfile_not_build_gn w a2) as D2.
    pose proof (manifest_not_build_gn w a1) as M1.
    pose proof (manifest_not_build_gn w a2) as M2.
    apply not_eq_sym, String.eqb_neq in D1, D2, M1, M2.
    now rewrite D1, D2, M1, M2.
  - now rewrite !String.eqb_refl.
Qed.

(** *** Sample runs *)

(** X1 on a tree without [ftl]: [fortune] is read and reported, then the
    run ends. *)
Lemma missing_config_aborts_witness :
  main sample_str (sample_world gap_tree true true (Exited 0)) sample_cmdline
    init_state
  = (State [JStr "//t"] [Entry (JStr "t.bin") (JStr "bin/t")]
       [EvChdir "/fuchsia/packages";
        EvPrintFailed "/fuchsia/packages/fortune" (KeyError "bootfs_path")],
     Raise (IOError "/fuchsia/packages/ftl")).
Proof.
  refine (missing_config_aborts sample_str
            (sample_world gap_tree true true (Exited 0)) sample_cmdline
            ["fortune"] ["mojo"; "mtl"] "ftl" _ eq_refl).
  constructor; [|constructor]. intros H. vm_compute in H. discriminate.
Defined.

(** X2 on a tree with one well-formed config and three that fail in three
    ways. *)
Lemma configs_contribute_independently_witness :
  labels (fst (main sample_str (sample_world broken_tree true true (Exited 0))
                 sample_cmdline init_state))
  = [JStr "//a"; JStr "//m"; JStr "//t"]
  /\ binaries (fst (main sample_str
                      (sample_world broken_tree true true (Exited 0))
                      sample_cmdline init_state))
     = [Entry (JStr "a.bin") (JStr "bin/a"); Entry (JStr "t.bin") (JStr "bin/t")]
  /\ List.filter is_print
       (trace (fst (main sample_str
                      (sample_world broken_tree true true (Exited 0))
                      sample_cmdline init_state)))
     = [EvPrintFailed "/fuchsia/packages/ftl" ValueError;
        EvPrintFailed "/fuchsia/packages/mojo" (KeyError "binaries");
        EvPrintFailed "/fuchsia/packages/mtl" (KeyError "bootfs_path")].
Proof.
  refine (configs_contribute_independently sample_str
            (sample_world broken_tree true true (Exited 0)) sample_cmdline
            package_configs _).
  repeat constructor; intros H; vm_compute in H; discriminate.
Defined.

(** X3 on the [ftl] of the full tree, read into lists that are not
    empty. *)
Lemma written_descriptor_is_read_back_witness :
  parse_config (sample_world full_tree true true (Exited 0))
    "/fuchsia/packages/ftl" (State [JStr "//old"] [] [])
  = (State [JStr "//old"; JStr "//apps/ftl"]
       [Entry (JStr "ftl") (JStr "bin/ftl");
        Entry (JStr "ftl_test") (JStr "test/ftl")]
       [],
     Ok tt).
Proof.
  exact (written_descriptor_is_read_back
           (sample_world full_tree true true (Exited 0))
           "/fuchsia/packages/ftl" pkg_ftl (State [JStr "//old"] [] [])
           eq_refl).
Defined.

(** X9 on a config whose ["binaries"] is an empty object, and on one
    whose ["binaries"] is a number. *)
Lemma non_list_binaries_give_no_entry_witness :
  parse_config
    (sample_world
       [("/fuchsia/packages/mtl",
         Json (JObj [("label", JStr "//e"); ("binaries", JObj [])]))]
       true true (Exited 0))
    "/fuchsia/packages/mtl" init_state
  = (State [JStr "//e"] [] [], Ok tt)
  /\ parse_config
       (sample_world
          [("/fuchsia/packages/mtl",
            Json (JObj [("label", JStr "//e"); ("binaries", JNum "3")]))]
          true true (Exited 0))
       "/fuchsia/packages/mtl" init_state
     = (State [JStr "//e"] []
          [EvPrintFailed "/fuchsia/packages/mtl" TypeError],
        Ok tt).
Proof.
  split.
  - refine (non_list_binaries_give_no_entry
              (sample_world
                 [("/fuchsia/packages/mtl",
                   Json (JObj [("label", JStr "//e"); ("binaries", JObj [])]))]
                 true true (Exited 0))
              "/fuchsia/packages/mtl"
              (JObj [("label", JStr "//e"); ("binaries", JObj [])])
              (JStr "//e") (JObj []) init_state eq_refl eq_refl eq_refl _).
    discriminate.
  - refine (non_list_binaries_give_no_entry
              (sample_world
                 [("/fuchsia/packages/mtl",
                   Json (JObj [("label", JStr "//e"); ("binaries", JNum "3")]))]
                 true true (Exited 0))
              "/fuchsia/packages/mtl"
              (JObj [("label", JStr "//e"); ("binaries", JNum "3")])
              (JStr "//e") (JNum "3") init_state eq_refl eq_refl eq_refl _).
    discriminate.
Defined.

(** X4 on a tree whose [ftl] lists the number 7 as a [binary]. *)
Lemma non_string_binary_stops_at_manifest_witness :
  snd (main sample_str (sample_world number_tree true true (Exited 0))
         sample_cmdline init_state)
  = Raise AttributeError
  /\ written
       (trace (fst (main sample_str
                      (sample_world number_tree true true (Exited 0))
                      sample_cmdline init_state)))
       "/fuchsia/out/Debug/gen/packages/mkbootfs/user.bootfs.manifest"
     = Some ("bin/a=/fuchsia/out/Debug/a.bin" +:+ nl
             +:+ "bin/n=/fuchsia/out/Debug/n.bin" +:+ nl)
  /\ written
       (trace (fst (main sample_str
                      (sample_world number_tree true true (Exited 0))
                      sample_cmdline init_state)))
       "/fuchsia/out/Debug/gen/packages/mkbootfs/user.bootfs.d"
     = None.
Proof.
  destruct (non_string_binary_stops_at_manifest sample_str
              (sample_world number_tree true true (Exited 0)) sample_cmdline
              package_configs
              [MkBinaryEntry "a.bin" "bin/a"; MkBinaryEntry "n.bin" "bin/n"]
              (Entry (JNum "7") (JStr "bin/seven"))
              [Entry (JStr "o.bin") (JStr "bin/o")])
    as (G1 & G2 & G3 & _).
  - vm_compute. reflexivity.
  - discriminate.
  - vm_compute. reflexivity.
  - vm_compute. reflexivity.
  - vm_compute. discriminate.
  - split; [exact G1 | split; [exact G2 | exact G3]].
Defined.

(** X15 on a tree whose second binary holds an accented letter, and on
    the example of the spec run with an output directory whose name holds
    one. *)
Lemma manifest_stops_at_refused_entry_witness :
  (snd (main sample_str (sample_world menu_tree true true (Exited 0))
          sample_cmdline init_state)
   = Raise UnicodeEncodeError
   /\ written
        (trace (fst (main sample_str
                       (sample_world menu_tree true true (Exited 0))
                       sample_cmdline init_state)))
        "/fuchsia/out/Debug/gen/packages/mkbootfs/user.bootfs.manifest"
      = Some ("bin/a=/fuchsia/out/Debug/a.bin" +:+ nl))
  /\ (snd (main sample_str (sample_world lone_tree true true (Exited 0))
             (Cmdline "/fuchsia/packages/gen.py"
                (Some ("out/D" +:+ e_acute +:+ "bug")))
             init_state)
      = Raise UnicodeDecodeError
      /\ written
           (trace (fst (main sample_str
                          (sample_world lone_tree true true (Exited 0))
                          (Cmdline "/fuchsia/packages/gen.py"
                             (Some ("out/D" +:+ e_acute +:+ "bug")))
                          init_state)))
           (manifest_of (sample_world lone_tree true true (Exited 0))
              (Cmdline "/fuchsia/packages/gen.py"
                 (Some ("out/D" +:+ e_acute +:+ "bug"))))
         = Some "").
Proof.
  split.
  - destruct (manifest_stops_at_refused_entry sample_str
                (sample_world menu_tree true true (Exited 0)) sample_cmdline
                package_configs [MkBinaryEntry "a.bin" "bin/a"]
                (Entry (JStr ("caf" +:+ e_acute +:+ ".bin")) (JStr "bin/cafe"))
                [Entry (JStr "tea.bin") (JStr "bin/tea")])
      as (G1 & G2 & _).
    + vm_compute. reflexivity.
    + vm_compute. reflexivity.
    + vm_compute. reflexivity.
    + vm_compute. discriminate.
    + split; [exact G1 | exact G2].
  - destruct (manifest_stops_at_refused_entry sample_str
                (sample_world lone_tree true true (Exited 0))
                (Cmdline "/fuchsia/packages/gen.py"
                   (Some ("out/D" +:+ e_acute +:+ "bug")))
                package_configs []
                (Entry (JStr "a.bin") (JStr "bin/a")) [])
      as (G1 & G2 & _).
    + vm_compute. reflexivity.
    + reflexivity.
    + vm_compute. reflexivity.
    + vm_compute. discriminate.
    + split; [exact G1 | exact G2].
Defined.

(** X14 on a tree whose first label is the number 7 and whose second
    holds an accented letter: the number is written, the run stops at the
    second. *)
Lemma label_beyond_ascii_stops_at_build_gn_witness :
  snd (main sample_str (sample_world odd_label_tree true true (Exited 0))
         sample_cmdline init_state)
  = Raise UnicodeEncodeError
  /\ written
       (trace (fst (main sample_str
                      (sample_world odd_label_tree true true (Exited 0))
                      sample_cmdline init_state)))
       "BUILD.gn"
     = Some (build_gn_head +:+ dep_line "7")
  /\ opened
       (trace (fst (main sample_str
                      (sample_world odd_label_tree true true (Exited 0))
                      sample_cmdline init_state)))
     = ["BUILD.gn"].
Proof.
  destruct (label_beyond_ascii_stops_at_build_gn sample_str
              (sample_world odd_label_tree true true (Exited 0)) sample_cmdline
              package_configs [JNum "7"] ("//caf" +:+ e_acute)
              [JStr "//lib/mtl"])
    as (G1 & G2 & _ & G4 & _).
  - vm_compute. reflexivity.
  - reflexivity.
  - reflexivity.
  - vm_compute. discriminate.
  - split; [exact G1 | split; [exact G2 | exact G4]].
Defined.

(** X7 on a tree in which no config yields a label. *)
Lemma unparsable_configs_still_generate_witness :
  written
    (trace (fst (main sample_str
                   (sample_world unreadable_tree false true (Exited 0))
                   sample_cmdline init_state)))
    "BUILD.gn"
  = Some (build_gn_head +:+ build_gn_tail)
  /\ written
       (trace (fst (main sample_str
                      (sample_world unreadable_tree false true (Exited 0))
                      sample_cmdline init_state)))
       "/fuchsia/out/Debug/gen/packages/mkbootfs/user.bootfs.manifest"
     = Some ""
  /\ written
       (trace (fst (main sample_str
                      (sample_world unreadable_tree false true (Exited 0))
                      sample_cmdline init_state)))
       "/fuchsia/out/Debug/gen/packages/mkbootfs/user.bootfs.d"
     = Some (depfile_head +:+ nl)
  /\ snd (main sample_str (sample_world unreadable_tree false true (Exited 0))
            sample_cmdline init_state)
     = Ok 0%Z.
Proof.
  refine (unparsable_configs_still_generate sample_str
            (sample_world unreadable_tree false true (Exited 0)) sample_cmdline
            package_configs _ eq_refl eq_refl eq_refl eq_refl).
  repeat constructor; try reflexivity; intros H; vm_compute in H; discriminate.
Defined.

(** X8 on a debug and a release run in the full tree. *)
Lemma outdir_shows_in_manifest_only_witness :
  (forall c1 c2,
     written
       (trace (fst (main sample_str
                      (sample_world full_tree true true (Exited 0))
                      (Cmdline "/fuchsia/packages/gen.py" None) init_state)))
       "BUILD.gn" = Some c1 ->
     written
       (trace (fst (main sample_str
                      (sample_world full_tree true true (Exited 0))
                      (Cmdline "/fuchsia/packages/gen.py" (Some "out/Release"))
                      init_state)))
       "BUILD.gn" = Some c2 ->
     c1 = c2)
  /\ (forall c1 c2,
        written
          (trace (fst (main sample_str
                         (sample_world full_tree true true (Exited 0))
                         (Cmdline "/fuchsia/packages/gen.py" None) init_state)))
          "/fuchsia/out/Debug/gen/packages/mkbootfs/user.bootfs.d" = Some c1 ->
        written
          (trace (fst (main sample_str
                         (sample_world full_tree true true (Exited 0))
                         (Cmdline "/fuchsia/packages/gen.py" (Some "out/Release"))
                         init_state)))
          "/fuchsia/out/Release/gen/packages/mkbootfs/user.bootfs.d" = Some c2 ->
        c1 = c2).
Proof.
  exact (outdir_shows_in_manifest_only sample_str
           (sample_world full_tree true true (Exited 0))
           (Cmdline "/fuchsia/packages/gen.py" None)
           (Cmdline "/fuchsia/packages/gen.py" (Some "out/Release"))
           package_configs eq_refl).
Defined.

End GenMore.

(** ** make_crate.py: more of what the script does *)

Module MakeCrateMore.
Import MakeCrate MakeCrateCorrect.
Import GenCorrect.

(** *** Paths taken apart again *)

Lemma has_char_append (x : ascii) (s t : string) :
  posixpath.has_char x (s +:+ t)
  = posixpath.has_char x s || posixpath.has_char x t.
Proof.
  induction s as [|c s IH]; [reflexivity|].
  rewrite append_cons. simpl. rewrite IH. now rewrite orb_assoc.
Qed.

Lemma all_char_append (x : ascii) (s t : string) :
  posixpath.all_char x (s +:+ t)
  = posixpath.all_char x s && posixpath.all_char x t.
Proof.
  induction s as [|c s IH]; [reflexivity|].
  rewrite append_cons. simpl. rewrite IH. now rewrite andb_assoc.
Qed.

Lemma through_last_none (x : ascii) (t : string) :
  posixpath.has_char x t = false -> posixpath.through_last x t = "".
Proof. destruct t as [|c t]; [reflexivity|]. simpl. now intros ->. Qed.

Lemma after_last_none (x : ascii) (t : string) :
  posixpath.has_char x t = false -> posixpath.after_last x t = t.
Proof. destruct t as [|c t]; [reflexivity|]. simpl. now intros ->. Qed.

Lemma through_last_append (x : ascii) (s t : string) :
  posixpath.has_char x t = false ->
  posixpath.through_last x (s +:+ String x t) = s +:+ String x "".
Proof.
  intros Ht. induction s as [|c s IH].
  - rewrite !append_nil_l. simpl. rewrite Ascii.eqb_refl. simpl.
    now rewrite (through_last_none x t Ht).
  - rewrite !append_cons. simpl. rewrite has_char_append. simpl.
    rewrite Ascii.eqb_refl. simpl. rewrite !orb_true_r. now rewrite IH.
Qed.

Lemma after_last_append (x : ascii) (s t : string) :
  posixpath.has_char x t = false ->
  posixpath.after_last x (s +:+ String x t) = t.
Proof.
  intros Ht. induction s as [|c s IH].
  - rewrite append_nil_l. simpl. rewrite Ascii.eqb_refl. simpl.
    exact (after_last_none x t Ht).
  - rewrite append_cons. simpl. rewrite has_char_append. simpl.
    rewrite Ascii.eqb_refl. simpl. rewrite !orb_true_r. exact IH.
Qed.

Lemma before_last_append (x : ascii) (s t : string) :
  posixpath.has_char x t = false ->
  posixpath.before_last x (s +:+ String x t) = s.
Proof.
  intros Ht. induction s as [|c s IH].
  - rewrite append_nil_l. simpl. now rewrite Ht.
  - rewrite append_cons. simpl. rewrite has_char_append. simpl.
    rewrite Ascii.eqb_refl. simpl. rewrite orb_true_r. now rewrite IH.
Qed.

Lemma rstrip_append_one (x : ascii) (s : string) :
  posixpath.rstrip x (s +:+ String x "") = posixpath.rstrip x s.
Proof.
  induction s as [|c s IH].
  - rewrite append_nil_l. simpl. now rewrite Ascii.eqb_refl.
  - rewrite append_cons. simpl. now rewrite IH.
Qed.

Lemma rstrip_append_kept (x : ascii) (s t : string) :
  posixpath.rstrip x t = t -> t <> "" ->
  posixpath.rstrip x (s +:+ t) = s +:+ t.
Proof.
  intros Ht Hne. induction s as [|c s IH]; [exact Ht|].
  rewrite append_cons. simpl. rewrite IH.
  destruct (s +:+ t) eqn:E; [|reflexivity].
  destruct s; [now rewrite append_nil_l in E | discriminate].
Qed.

Lemma append_nonempty (s : string) (c : ascii) (u : string) :
  (s +:+ String c u =? "")%string = false.
Proof. apply String.eqb_neq. destruct s; discriminate. Qed.

Lemma endswith_slash_split (d : string) :
  posixpath.endswith_slash d = true -> exists d', d = d' +:+ "/".
Proof.
  induction d as [|c d IH]; [discriminate|].
  destruct d as [|c' d].
  - simpl. intros H. apply Ascii.eqb_eq in H. subst c. now exists "".
  - intros H. destruct (IH H) as (d' & E). exists (String c d').
    rewrite append_cons. now rewrite <- E.
Qed.

(** [basename] undoes [join] with a single name. *)
Lemma basename_join2 (d : string) (c : ascii) (b : string) :
  posixpath.has_char slash (String c b) = false ->
  posixpath.basename (posixpath.join2 d (String c b)) = String c b.
Proof.
  intros Hb. unfold posixpath.basename.
  assert (Ascii.eqb c slash = false) as Hc
    by (simpl in Hb; now apply orb_false_elim in Hb as [? _]).
  rewrite join2_relative by exact Hc.
  destruct (String.eqb_spec d "") as [->|Hd]; simpl orb.
  - rewrite append_nil_l. exact (after_last_none _ _ Hb).
  - destruct (posixpath.endswith_slash d) eqn:He.
    + destruct (endswith_slash_split d He) as (d' & ->).
      rewrite append_assoc. exact (after_last_append slash d' _ Hb).
    + exact (after_last_append slash d _ Hb).
Qed.

(** [dirname] undoes [join] with a single name, once the directory is
    itself the result of joining a name. *)
Lemma dirname_join2_name (p : string) (c : ascii) (t : string) (c' : ascii)
    (b : string) :
  posixpath.has_char slash (String c' b) = false ->
  posixpath.endswith_slash (String c t) = false ->
  posixpath.all_char slash (String c t) = false ->
  posixpath.rstrip slash (String c t) = String c t ->
  posixpath.dirname (posixpath.join2 (p +:+ String c t) (String c' b))
  = p +:+ String c t.
Proof.
  intros Hb Hend Hall Hstrip.
  assert (Ascii.eqb c' slash = false) as Hc'
    by (simpl in Hb; now apply orb_false_elim in Hb as [? _]).
  rewrite join2_after_name by assumption.
  unfold posixpath.dirname.
  rewrite !append_assoc.
  change ("/" +:+ String c' b) with (String slash (String c' b)).
  rewrite <- append_assoc.
  rewrite (through_last_append slash (p +:+ String c t) _ Hb).
  rewrite all_char_append, all_char_append, Hall. simpl.
  rewrite andb_false_r. simpl.
  rewrite append_nonempty. simpl. rewrite rstrip_append_one.
  apply rstrip_append_kept; [exact Hstrip | discriminate].
Qed.

(** X10. The two files of a crate are named [Cargo.toml] and [lib.rs]
    whatever [gen_dir] and [output] are, [lib.rs] lies in the directory
    [src] of the crate directory, and that directory is what the paths of
    the [#[path]] attributes are relative to. *)
Theorem lib_rs_lies_in_src (relpath : string -> string -> string)
    (gen_dir output i : string) :
  posixpath.basename (output_fn_of gen_dir output) = "Cargo.toml"
  /\ posixpath.basename (lib_fn_of gen_dir output) = "lib.rs"
  /\ posixpath.dirname (lib_fn_of gen_dir output)
     = posixpath.join (cargo_toml_dir_of gen_dir output) ["src"]
  /\ rel_of relpath (lib_fn_of gen_dir output) i
     = relpath i (posixpath.join (cargo_toml_dir_of gen_dir output) ["src"]).
Proof.
  assert (Hdir : posixpath.dirname (lib_fn_of gen_dir output)
                 = posixpath.join (cargo_toml_dir_of gen_dir output) ["src"]).
  { unfold lib_fn_of, posixpath.join. simpl fold_left.
    rewrite (join2_relative _ "s" "rc") by reflexivity.
    destruct (_ || _).
    - now apply dirname_join2_name.
    - rewrite <- append_assoc. now apply dirname_join2_name. }
  repeat split.
  - unfold output_fn_of, posixpath.join. simpl fold_left.
    now apply basename_join2.
  - unfold lib_fn_of, posixpath.join. simpl fold_left.
    now apply basename_join2.
  - exact Hdir.
  - unfold rel_of. now rewrite Hdir.
Qed.

(** X11. The module declared for an input is its file name without its
    last extension: for a path [d/n.e] whose name [n] holds no slash and is
    not made of dots only and whose extension [e] holds neither slash nor
    dot, the name is [n], inner dots included; a file name without any dot
    is taken whole. *)
Theorem stem_is_name_without_extension (d n e : string) :
  posixpath.has_char slash n = false ->
  (posixpath.has_char slash e = false ->
   posixpath.has_char "."%char e = false ->
   posixpath.all_char "."%char n = false ->
   stem (d +:+ "/" +:+ n +:+ "." +:+ e) = n
   /\ mod_decl (d +:+ "/" +:+ n +:+ "." +:+ e) = "mod " +:+ n +:+ ";" +:+ nl
   /\ pub_use (d +:+ "/" +:+ n +:+ "." +:+ e)
      = "pub use " +:+ n +:+ "::*;" +:+ nl)
  /\ (posixpath.has_char "."%char n = false -> stem (d +:+ "/" +:+ n) = n).
Proof.
  intros Hn. split.
  - intros He Hdot Hall.
    assert (Hstem : stem (d +:+ "/" +:+ n +:+ "." +:+ e) = n).
    { unfold stem, posixpath.basename.
      assert (Hname : posixpath.has_char slash (n +:+ "." +:+ e) = false).
      { rewrite !has_char_append, Hn, He. reflexivity. }
      change ("/" +:+ n +:+ "." +:+ e)
        with (String slash (n +:+ "." +:+ e)).
      rewrite (after_last_append slash d _ Hname).
      unfold posixpath.splitext_root.
      rewrite (after_last_none slash _ Hname).
      rewrite !has_char_append. simpl. rewrite orb_true_r.
      change ("." +:+ e) with (String "."%char e).
      rewrite (before_last_append "."%char n e Hdot), Hall.
      change (n +:+ String "."%char e) with (n +:+ "." +:+ e).
      rewrite (through_last_none slash _ Hname). reflexivity. }
    unfold mod_decl, pub_use. rewrite Hstem. auto.
  - intros Hdot. unfold stem, posixpath.basename.
    change ("/" +:+ n) with (String slash n).
    rewrite (after_last_append slash d n Hn).
    unfold posixpath.splitext_root.
    rewrite (after_last_none slash n Hn). now rewrite Hdot.
Qed.

(** X12. Where [make_crate] stops. [Cargo.toml] is opened and written in
    full before [lib.rs] is opened: if [Cargo.toml] cannot be opened nothing
    is written, and if only [lib.rs] cannot be opened the call fails on it
    and leaves a complete [Cargo.toml] behind. With both files open, an
    empty path among the inputs ends the call with [ValueError]: [lib.rs]
    is left with the [mod] lines of the inputs before it and without any
    [pub use]. The call returns exactly when both files open and no input
    is the empty path. *)
Theorem make_crate_failures (label_to_crate : string -> string)
    (relpath : string -> string -> string) (open_ok : string -> bool)
    (output gen_dir : string) (inputs : list string) (srcroot : string)
    (dep_inputs : list string) :
  (open_ok (output_fn_of gen_dir output) = false ->
   make_crate label_to_crate relpath open_ok output gen_dir inputs srcroot
     dep_inputs
   = ([], IOError (output_fn_of gen_dir output)))
  /\ (open_ok (output_fn_of gen_dir output) = true ->
      open_ok (lib_fn_of gen_dir output) = false ->
      exists cargo_f,
        make_crate label_to_crate relpath open_ok output gen_dir inputs srcroot
          dep_inputs
        = ([cargo_f], IOError (lib_fn_of gen_dir output))
        /\ wpath cargo_f = output_fn_of gen_dir output
        /\ contents cargo_f = cargo_toml_text (label_to_crate output))
  /\ (forall good rest,
        open_ok (output_fn_of gen_dir output) = true ->
        open_ok (lib_fn_of gen_dir output) = true ->
        inputs = good ++ "" :: rest ->
        ~ In "" good ->
        exists cargo_f src_f,
          make_crate label_to_crate relpath open_ok output gen_dir inputs
            srcroot dep_inputs
          = ([cargo_f; src_f], ValueError)
          /\ contents cargo_f = cargo_toml_text (label_to_crate output)
          /\ wpath src_f = lib_fn_of gen_dir output
          /\ chunks src_f
             = extern_lines label_to_crate dep_inputs
               ++ [nl]
               ++ flat_map (mod_lines relpath (lib_fn_of gen_dir output)) good)
  /\ (snd (make_crate label_to_crate relpath open_ok output gen_dir inputs
             srcroot dep_inputs) = Returned
      <-> open_ok (output_fn_of gen_dir output) = true
          /\ open_ok (lib_fn_of gen_dir output) = true
          /\ ~ In "" inputs).
Proof.
  split; [|split; [|split]].
  - intros H. unfold make_crate. now rewrite H.
  - intros H1 H2. unfold make_crate. rewrite H1, H2. simpl.
    eexists. split; [reflexivity|]. split; [reflexivity|].
    apply write_cargo_contents.
  - intros good rest H1 H2 -> Hgood. unfold make_crate.
    rewrite H1, H2. simpl negb. cbv iota.
    rewrite (write_mods_stops relpath _ _ good rest Hgood).
    eexists _, _. split; [reflexivity|].
    split; [apply write_cargo_contents|].
    rewrite write_externs_chunks. simpl. split; [reflexivity|].
    rewrite <- !app_assoc. reflexivity.
  - unfold make_crate.
    destruct (open_ok (output_fn_of gen_dir output));
      [|simpl; split; [discriminate | intros (? & _); discriminate]].
    destruct (open_ok (lib_fn_of gen_dir output));
      [|simpl; split; [discriminate | intros (_ & ? & _); discriminate]].
    simpl negb. cbv iota.
    pose proof (write_mods_outcome relpath
                  (fwrite (write_externs label_to_crate
                             (WFile (lib_fn_of gen_dir output) []) dep_inputs)
                     nl)
                  (lib_fn_of gen_dir output) inputs) as Ho.
    destruct (write_mods _ _ _ _) as [src_f o]. simpl in Ho. subst o.
    destruct (existsb (fun i => String.eqb i "") inputs) eqn:He; simpl.
    + split; [discriminate|]. intros (_ & _ & Hn). exfalso. apply Hn.
      apply List.existsb_exists in He as (i & Hi & E).
      apply String.eqb_eq in E. now subst i.
    + split; [|reflexivity]. intros _. repeat split. intros Hin.
      assert (existsb (fun i => String.eqb i "") inputs = true) as E
        by (apply List.existsb_exists; exists ""; now split).
      congruence.
Qed.

(** X11 on a generated source whose name holds a dot, and on a file
    without extension. *)
Lemma stem_is_name_without_extension_witness :
  (stem "/out/gen/other/app.fidl.rs" = "app.fidl"
   /\ mod_decl "/out/gen/other/app.fidl.rs" = "mod app.fidl;" +:+ nl
   /\ pub_use "/out/gen/other/app.fidl.rs" = "pub use app.fidl::*;" +:+ nl)
  /\ stem "/out/gen/other/README" = "README".
Proof.
  split.
  - exact (proj1 (stem_is_name_without_extension "/out/gen/other" "app.fidl" "rs"
                    eq_refl) eq_refl eq_refl eq_refl).
  - exact (proj2 (stem_is_name_without_extension "/out/gen/other" "README" "rs"
                    eq_refl) eq_refl).
Defined.

End MakeCrateMore.
